(** * EEG preprocessing utilities: a shallow embedding of
      [01_eeg_preprocessing/preprocessing_utils.py]

    The three functions of the source file ([epoching], [mvnn], [save_prepr])
    are embedded as executable Rocq functions.  NumPy arrays are records of a
    shape and nested lists; Python exceptions are values of [exn]; the global
    NumPy random generator, the memory [np.empty] takes its buffers from,
    the array objects handed between the functions and the files written by
    [np.save] live in an explicit [world] that every effectful function
    threads.  The toolkits the source calls (MNE, SciPy, scikit-learn, the
    float arithmetic of NumPy) and the answers of the operating system are
    the fields of one record, [Externals]. *)

From Stdlib Require Import String Ascii.
From Stdlib Require Import List ZArith Lia Bool Arith PeanoNat.
From Stdlib Require Import Sorting.Sorted Sorting.Permutation.
From Stdlib Require Import Numbers.DecimalString.
Import ListNotations.
Open Scope string_scope.
Open Scope list_scope.
Open Scope nat_scope.

(** ** Exceptions and results *)

(** The exceptions of a run.  [UnboundLocalError], [ValueError] and
    [IndexError] are the Python built-ins the source's own statements and
    NumPy's shape checks raise.  The five names after them are the error
    taxonomy of the specification; [OtherError] stands for any other
    exception a collaborator raises. *)
Inductive exn : Type :=
| UnboundLocalError
| ValueError
| IndexError
| ConfigurationError
| NotFoundError
| SegmentationError
| NumericalInstabilityError
| ShapeMismatchError
| OtherError (msg : string).

Inductive result (A : Type) : Type :=
| Ok (a : A)
| Raise (e : exn).
Arguments Ok {A} a.
Arguments Raise {A} e.

Definition bindR {A B} (r : result A) (k : A -> result B) : result B :=
  match r with
  | Ok a => k a
  | Raise e => Raise e
  end.

Declare Scope py_scope.
Delimit Scope py_scope with py.
Notation "'let!' x ':=' e 'in' k" := (bindR e (fun x => k))
  (at level 10, x pattern, e at level 100, k at level 200) : py_scope.
Open Scope py_scope.

(** A [for] loop whose body may raise, threading the variables it assigns. *)
Fixpoint foldR {A S} (body : A -> S -> result S) (l : list A) (s : S) : result S :=
  match l with
  | [] => Ok s
  | x :: t => let! s' := body x s in foldR body t s'
  end.

(** A list comprehension whose element expression may raise. *)
Fixpoint mapR {A B} (f : A -> result B) (l : list A) : result (list B) :=
  match l with
  | [] => Ok []
  | x :: t => let! y := f x in let! ys := mapR f t in Ok (y :: ys)
  end.


(** [range(n)] for a Python int [n]: empty when [n <= 0]. *)
Definition py_range (n : Z) : list nat := seq 0 (Z.to_nat n).

(** [l[i]] on a Python list. *)
Definition py_index {A} (l : list A) (i : nat) : result A :=
  match nth_error l i with
  | Some x => Ok x
  | None => Raise IndexError
  end.

(** ** Integer arrays *)

Definition tabulate {A} (n : nat) (f : nat -> A) : list A := map f (seq 0 n).

(** [np.where(a == v)[0]]: the ascending positions of [v] in [a]. *)
Fixpoint where_from (i : nat) (a : list Z) (v : Z) : list nat :=
  match a with
  | [] => []
  | x :: t => if Z.eqb x v then i :: where_from (S i) t v else where_from (S i) t v
  end.

Definition np_where_eq (a : list Z) (v : Z) : list nat := where_from 0 a v.

(** [np.delete(a, idx, 0)]: the rows of [a] whose position is not in [idx]. *)
Fixpoint delete_from {A} (i : nat) (a : list A) (idx : list nat) : list A :=
  match a with
  | [] => []
  | x :: t =>
      if existsb (Nat.eqb i) idx then delete_from (S i) t idx
      else x :: delete_from (S i) t idx
  end.

Definition np_delete {A} (a : list A) (idx : list nat) : list A := delete_from 0 a idx.

(** [np.unique(a)]: the sorted distinct values of [a]. *)
Fixpoint insert_unique (x : Z) (l : list Z) : list Z :=
  match l with
  | [] => [x]
  | y :: t =>
      if Z.ltb x y then x :: l
      else if Z.eqb x y then l
      else y :: insert_unique x t
  end.

Definition np_unique (a : list Z) : list Z := fold_right insert_unique [] a.

(** ** Float arrays of rank 2, 3 and 4

    An array is its shape and its elements in nested lists, outermost axis
    first.  The shape is stored because an array with an axis of length 0
    still has the other lengths ([np.zeros((0, 2, 17, 100))]). *)

Record ndarray2 (A : Type) : Type := mk2 {
  rows2 : nat; cols2 : nat;
  data2 : list (list A) }.

Record ndarray3 (A : Type) : Type := mk3 {
  dim3_0 : nat; dim3_1 : nat; dim3_2 : nat;
  data3 : list (list (list A)) }.

Record ndarray4 (A : Type) : Type := mk4 {
  dim4_0 : nat; dim4_1 : nat; dim4_2 : nat; dim4_3 : nat;
  data4 : list (list (list (list A))) }.

Arguments mk2 {A} rows2 cols2 data2.
Arguments rows2 {A} n.
Arguments cols2 {A} n.
Arguments data2 {A} n.
Arguments mk3 {A} dim3_0 dim3_1 dim3_2 data3.
Arguments dim3_0 {A} n.
Arguments dim3_1 {A} n.
Arguments dim3_2 {A} n.
Arguments data3 {A} n.
Arguments mk4 {A} dim4_0 dim4_1 dim4_2 dim4_3 data4.
Arguments dim4_0 {A} n.
Arguments dim4_1 {A} n.
Arguments dim4_2 {A} n.
Arguments dim4_3 {A} n.
Arguments data4 {A} n.

Definition shape2 {A} (a : ndarray2 A) : nat * nat := (rows2 a, cols2 a).
Definition shape3 {A} (a : ndarray3 A) : nat * nat * nat := (dim3_0 a, dim3_1 a, dim3_2 a).
Definition shape4 {A} (a : ndarray4 A) : nat * nat * nat * nat :=
  (dim4_0 a, dim4_1 a, dim4_2 a, dim4_3 a).

(** The nested lists have the lengths the shape announces. *)
Definition rect1 {A} (n : nat) (l : list A) : bool := length l =? n.
Definition rect2 {A} (n m : nat) (l : list (list A)) : bool :=
  (length l =? n) && forallb (rect1 m) l.
Definition rect3 {A} (n m k : nat) (l : list (list (list A))) : bool :=
  (length l =? n) && forallb (rect2 m k) l.
Definition rect4 {A} (n m k j : nat) (l : list (list (list (list A)))) : bool :=
  (length l =? n) && forallb (rect3 m k j) l.

Definition wf2 {A} (a : ndarray2 A) : Prop := rect2 (rows2 a) (cols2 a) (data2 a) = true.
Definition wf3 {A} (a : ndarray3 A) : Prop :=
  rect3 (dim3_0 a) (dim3_1 a) (dim3_2 a) (data3 a) = true.
Definition wf4 {A} (a : ndarray4 A) : Prop :=
  rect4 (dim4_0 a) (dim4_1 a) (dim4_2 a) (dim4_3 a) (data4 a) = true.

(** Number of elements. *)
Definition size3 {A} (a : ndarray3 A) : nat := dim3_0 a * dim3_1 a * dim3_2 a.
Definition size4 {A} (a : ndarray4 A) : nat := dim4_0 a * dim4_1 a * dim4_2 a * dim4_3 a.

(** Assignment broadcasts: a source axis fits a target axis of the same
    length, or has length 1 and is repeated. *)
Definition bc_ok (src tgt : nat) : bool := (src =? tgt) || (src =? 1).
Definition bc_ix (src tgt i : nat) : nat := if src =? tgt then i else 0.

Section Arrays.
Context {A : Type}.
(** The value [nth] falls back to; never read on a well-formed array. *)
Variable dflt : A.

Definition at2 (m : list (list A)) (i j : nat) : A := nth j (nth i m []) dflt.
Definition at3 (m : list (list (list A))) (i j k : nat) : A := at2 (nth i m []) j k.
Definition at4 (m : list (list (list (list A)))) (i j k l : nat) : A := at3 (nth i m []) j k l.

(** [np.zeros(shape)] with [dflt] for 0.0, and any constant fill. *)
Definition full2 (x : A) (n m : nat) : ndarray2 A :=
  mk2 n m (repeat (repeat x m) n).
Definition full3 (x : A) (n m k : nat) : ndarray3 A :=
  mk3 n m k (repeat (repeat (repeat x k) m) n).
Definition full4 (x : A) (n m k j : nat) : ndarray4 A :=
  mk4 n m k j (repeat (repeat (repeat (repeat x j) k) m) n).

(** [a[i]] for an integer [i] in [range]. *)
Definition getitem4 (a : ndarray4 A) (i : nat) : result (ndarray3 A) :=
  if i <? dim4_0 a
  then Ok (mk3 (dim4_1 a) (dim4_2 a) (dim4_3 a) (nth i (data4 a) []))
  else Raise IndexError.

Definition getitem3 (a : ndarray3 A) (i : nat) : result (ndarray2 A) :=
  if i <? dim3_0 a
  then Ok (mk2 (dim3_1 a) (dim3_2 a) (nth i (data3 a) []))
  else Raise IndexError.

(** [a[idx]] for an integer array [idx] (fancy indexing on axis 0). *)
Definition take3 (a : ndarray3 A) (idx : list nat) : result (ndarray3 A) :=
  if forallb (fun i => i <? dim3_0 a) idx
  then Ok (mk3 (length idx) (dim3_1 a) (dim3_2 a)
             (map (fun i => nth i (data3 a) []) idx))
  else Raise IndexError.

(** [a[:, idx]] (fancy indexing on axis 1). *)
Definition take4_axis1 (a : ndarray4 A) (idx : list nat) : result (ndarray4 A) :=
  if forallb (fun i => i <? dim4_1 a) idx
  then Ok (mk4 (dim4_0 a) (length idx) (dim4_2 a) (dim4_3 a)
             (map (fun row => map (fun i => nth i row []) idx) (data4 a)))
  else Raise IndexError.

(** The value a rank-3 source takes when broadcast to shape [(n, m, k)]. *)
Definition broadcast3 (v : ndarray3 A) (n m k : nat) : result (list (list (list A))) :=
  if bc_ok (dim3_0 v) n && bc_ok (dim3_1 v) m && bc_ok (dim3_2 v) k
  then Ok (tabulate n (fun i => tabulate m (fun j => tabulate k (fun l =>
             at3 (data3 v) (bc_ix (dim3_0 v) n i) (bc_ix (dim3_1 v) m j)
                 (bc_ix (dim3_2 v) k l)))))
  else Raise ValueError.

Definition broadcast2 (v : ndarray2 A) (n m : nat) : result (list (list A)) :=
  if bc_ok (rows2 v) n && bc_ok (cols2 v) m
  then Ok (tabulate n (fun i => tabulate m (fun j =>
             at2 (data2 v) (bc_ix (rows2 v) n i) (bc_ix (cols2 v) m j))))
  else Raise ValueError.

(** Replace position [i] of a list (nothing happens out of range; the
    callers check the range first, as NumPy does). *)
Fixpoint set_nth {B} (i : nat) (x : B) (l : list B) : list B :=
  match l, i with
  | [], _ => []
  | _ :: t, 0 => x :: t
  | y :: t, S i' => y :: set_nth i' x t
  end.

(** [a[i] = v]. *)
Definition setitem4 (a : ndarray4 A) (i : nat) (v : ndarray3 A) : result (ndarray4 A) :=
  if i <? dim4_0 a then
    let! row := broadcast3 v (dim4_1 a) (dim4_2 a) (dim4_3 a) in
    Ok (mk4 (dim4_0 a) (dim4_1 a) (dim4_2 a) (dim4_3 a) (set_nth i row (data4 a)))
  else Raise IndexError.

Definition setitem3 (a : ndarray3 A) (i : nat) (v : ndarray2 A) : result (ndarray3 A) :=
  if i <? dim3_0 a then
    let! row := broadcast2 v (dim3_1 a) (dim3_2 a) in
    Ok (mk3 (dim3_0 a) (dim3_1 a) (dim3_2 a) (set_nth i row (data3 a)))
  else Raise IndexError.

(** [np.append(a, b, 0)] on rank 4: the other three axes must agree. *)
Definition np_append4_axis0 (a b : ndarray4 A) : result (ndarray4 A) :=
  if (dim4_1 a =? dim4_1 b) && (dim4_2 a =? dim4_2 b) && (dim4_3 a =? dim4_3 b)
  then Ok (mk4 (dim4_0 a + dim4_0 b) (dim4_1 a) (dim4_2 a) (dim4_3 a)
             (data4 a ++ data4 b))
  else Raise ValueError.

(** [np.append(a, b, 1)] on rank 4: row [i] of [b] follows row [i] of [a]. *)
Definition np_append4_axis1 (a b : ndarray4 A) : result (ndarray4 A) :=
  if (dim4_0 a =? dim4_0 b) && (dim4_2 a =? dim4_2 b) && (dim4_3 a =? dim4_3 b)
  then Ok (mk4 (dim4_0 a) (dim4_1 a + dim4_1 b) (dim4_2 a) (dim4_3 a)
             (tabulate (dim4_0 a) (fun i => nth i (data4 a) [] ++ nth i (data4 b) [])))
  else Raise ValueError.

(** [np.append(a, b, 0)] on rank 3. *)
Definition np_append3_axis0 (a b : ndarray3 A) : result (ndarray3 A) :=
  if (dim3_1 a =? dim3_1 b) && (dim3_2 a =? dim3_2 b)
  then Ok (mk3 (dim3_0 a + dim3_0 b) (dim3_1 a) (dim3_2 a) (data3 a ++ data3 b))
  else Raise ValueError.

(** The elements in C order. *)
Definition flatten3 (a : ndarray3 A) : list A := concat (map (@concat A) (data3 a)).
Definition flatten4 (a : ndarray4 A) : list A :=
  concat (map (fun r => concat (map (@concat A) r)) (data4 a)).

(** [np.reshape(a, (-1, m, k))]: the leading length is inferred, which
    NumPy refuses when [m * k] is 0 or does not divide the size. *)
Definition reshape4_to3 (a : ndarray4 A) (m k : nat) : result (ndarray3 A) :=
  if (m * k =? 0) || negb (size4 a mod (m * k) =? 0) then Raise ValueError
  else
    let n := size4 a / (m * k) in
    let buf := flatten4 a in
    Ok (mk3 n m k (tabulate n (fun i => tabulate m (fun j => tabulate k (fun l =>
          nth ((i * m + j) * k + l) buf dflt))))).

(** [np.reshape(a, (n, m, k, j))]: the sizes must agree. *)
Definition reshape3_to4 (a : ndarray3 A) (n m k j : nat) : result (ndarray4 A) :=
  if size3 a =? n * m * k * j then
    let buf := flatten3 a in
    Ok (mk4 n m k j (tabulate n (fun i0 => tabulate m (fun i1 => tabulate k (fun i2 =>
          tabulate j (fun i3 => nth (((i0 * m + i1) * k + i2) * j + i3) buf dflt))))))
  else Raise ValueError.

(** [a.swapaxes(1, 2)] on rank 3. *)
Definition swapaxes12 (a : ndarray3 A) : ndarray3 A :=
  mk3 (dim3_0 a) (dim3_2 a) (dim3_1 a)
    (tabulate (dim3_0 a) (fun i => tabulate (dim3_2 a) (fun k => tabulate (dim3_1 a) (fun j =>
       at3 (data3 a) i j k)))).

(** [np.transpose(m)] on rank 2. *)
Definition np_transpose (m : ndarray2 A) : ndarray2 A :=
  mk2 (cols2 m) (rows2 m)
    (tabulate (cols2 m) (fun j => tabulate (rows2 m) (fun i => at2 (data2 m) i j))).

(** [a[:, :, t]] on rank 3. *)
Definition slice_last (a : ndarray3 A) (t : nat) : result (ndarray2 A) :=
  if t <? dim3_2 a
  then Ok (mk2 (dim3_0 a) (dim3_1 a)
             (tabulate (dim3_0 a) (fun i => tabulate (dim3_1 a) (fun j => at3 (data3 a) i j t))))
  else Raise IndexError.
End Arrays.

(** ** The collaborators

    What the source imports and this file does not define: NumPy's float
    arithmetic and random generator, MNE, scikit-learn's [_cov] and SciPy's
    [fractional_matrix_power].  One record holds them, so that a run can be
    evaluated against any implementation of them. *)

(** The dictionary stored in a [raw_eeg_<part>.npy] file. *)
Record RawFile (F : Type) : Type := {
  rf_ch_names : list string;
  rf_sfreq : Z;
  rf_ch_types : list string;
  rf_raw_eeg_data : list (list F) }.

Arguments rf_ch_names {F} r.
Arguments rf_sfreq {F} r.
Arguments rf_ch_types {F} r.
Arguments rf_raw_eeg_data {F} r.

(** A row of an MNE events array: sample, previous value, marker. *)
Definition event : Type := (Z * Z * Z)%type.
Definition marker (e : event) : Z := snd e.

(** What the source reads off an [mne.Epochs] object: [info['ch_names']],
    [times], [events] and [get_data()] (epochs x channels x time points). *)
Record EpochsObj (F : Type) : Type := {
  ep_ch_names : list string;
  ep_times : list F;
  ep_events : list event;
  ep_data : ndarray3 F }.

Arguments ep_ch_names {F} e.
Arguments ep_times {F} e.
Arguments ep_events {F} e.
Arguments ep_data {F} e.

Record Externals : Type := {
  (** float64 and the float operations the source leaves to NumPy *)
  scalar : Type;
  f_zero : scalar;
  f_nan : scalar;
  (** the state of the memory [np.empty] takes its buffers from *)
  Memory : Type;
  (** [np.empty((n, m, k))]: what the cells of the new buffer hold, of
      which nothing is known, and the memory afterwards *)
  np_empty : Memory -> nat -> nat -> nat -> (nat -> nat -> nat -> scalar) * Memory;
  (** the mean of a non-empty sequence of floats *)
  f_mean : list scalar -> scalar;
  (** the inner product computed by [@] *)
  f_dot : list scalar -> list scalar -> scalar;
  (** the state of the global generator [np.random] *)
  RandomState : Type;
  (** [np.random.seed(seed=n)] *)
  random_seed : Z -> RandomState;
  (** the order in which [sklearn.utils.shuffle] takes [n] samples, and the
      generator's state afterwards *)
  random_permutation : RandomState -> nat -> list nat * RandomState;
  (** [np.load(path, allow_pickle=True).item()] *)
  np_load : string -> result (RawFile scalar);
  Info : Type;
  Raw : Type;
  mne_create_info : list string -> Z -> list string -> result Info;
  mne_RawArray : list (list scalar) -> Info -> result Raw;
  (** [mne.find_events(raw, stim_channel='stim')] *)
  mne_find_events : Raw -> result (list event);
  (** [raw.info['ch_names']] *)
  raw_ch_names : Raw -> list string;
  mne_pick_channels_regexp : list string -> string -> list nat;
  (** [raw.pick_channels(names)] *)
  raw_pick_channels : Raw -> list string -> result Raw;
  (** [mne.Epochs(raw, events, tmin=-.2, tmax=.8, baseline=(None,0),
      preload=True)] *)
  mne_Epochs : Raw -> list event -> result (EpochsObj scalar);
  (** [epochs.resample(sfreq)] *)
  epochs_resample : EpochsObj scalar -> Z -> result (EpochsObj scalar);
  (** [sklearn.discriminant_analysis._cov(X, shrinkage='auto')] *)
  sk_cov : ndarray2 scalar -> result (ndarray2 scalar);
  (** [scipy.linalg.fractional_matrix_power(A, -0.5)] *)
  fractional_matrix_power_neg_half : ndarray2 scalar -> result (ndarray2 scalar);
  (** what the operating system answers to [os.makedirs(d)] and to the
      write of [np.save(path, ...)]: it lets them through or raises *)
  sys_makedirs : string -> result unit;
  sys_save : string -> result unit }.

(** ** The world of a run *)

(** The calls [epoching] makes on MNE, in the order made. *)
Inductive mne_call : Type :=
| CallFindEvents
| CallPickChannels
| CallEpochs
| CallResample (target_sfreq : Z).

(** The dictionary [save_prepr] hands to [np.save]. *)
Record output_record (F : Type) : Type := {
  preprocessed_eeg_data : ndarray4 F;
  out_ch_names : list string;
  out_times : list F }.

Arguments preprocessed_eeg_data {F} o.
Arguments out_ch_names {F} o.
Arguments out_times {F} o.

(** A location of the store of array objects. *)
Definition loc : Type := nat.

Record world (E : Externals) : Type := {
  (** the global generator [np.random] *)
  w_rng : RandomState E;
  (** the memory [np.empty] allocates from *)
  w_mem : Memory E;
  (** the rank-4 array objects alive, by location *)
  w_heap : list (ndarray4 (scalar E));
  (** the directories created *)
  w_dirs : list string;
  (** the files written, the latest first *)
  w_files : list (string * output_record (scalar E));
  (** the MNE calls made, the latest first *)
  w_calls : list mne_call;
  (** the orders [shuffle] has drawn, the latest first *)
  w_draws : list (list nat) }.

Arguments w_rng {E} w.
Arguments w_mem {E} w.
Arguments w_heap {E} w.
Arguments w_dirs {E} w.
Arguments w_files {E} w.
Arguments w_calls {E} w.
Arguments w_draws {E} w.

Section Monad.
Variable E : Externals.

(** A computation reads and updates the world and returns or raises; what
    it did to the world before raising stays done. *)
Definition M (A : Type) : Type := world E -> result A * world E.

Definition ret {A} (a : A) : M A := fun w => (Ok a, w).
Definition raise {A} (e : exn) : M A := fun w => (Raise e, w).
Definition lift {A} (r : result A) : M A := fun w => (r, w).

Definition bindM {A B} (c : M A) (k : A -> M B) : M B :=
  fun w =>
    match c w with
    | (Ok a, w') => k a w'
    | (Raise e, w') => (Raise e, w')
    end.

Fixpoint foldM {A S} (body : A -> S -> M S) (l : list A) (s : S) : M S :=
  match l with
  | [] => ret s
  | x :: t => bindM (body x s) (fun s' => foldM body t s')
  end.

Definition set_rng (g : RandomState E) : M unit :=
  fun w => (Ok tt, {| w_rng := g; w_mem := w_mem w; w_heap := w_heap w;
                      w_dirs := w_dirs w; w_files := w_files w;
                      w_calls := w_calls w; w_draws := w_draws w |}).

Definition log_call (c : mne_call) : M unit :=
  fun w => (Ok tt, {| w_rng := w_rng w; w_mem := w_mem w; w_heap := w_heap w;
                      w_dirs := w_dirs w; w_files := w_files w;
                      w_calls := c :: w_calls w; w_draws := w_draws w |}).

(** A new array object: its location is the next free one. *)
Definition alloc (a : ndarray4 (scalar E)) : M loc :=
  fun w => (Ok (length (w_heap w)),
            {| w_rng := w_rng w; w_mem := w_mem w; w_heap := w_heap w ++ [a];
               w_dirs := w_dirs w; w_files := w_files w;
               w_calls := w_calls w; w_draws := w_draws w |}).

Definition deref (l : loc) : M (ndarray4 (scalar E)) :=
  fun w => match nth_error (w_heap w) l with
           | Some a => (Ok a, w)
           | None => (Raise (OtherError "dangling reference"), w)
           end.

(** [np.empty((n, m, k))]: a buffer of that shape with whatever the
    memory holds. *)
Definition np_empty3 (n m k : nat) : M (ndarray3 (scalar E)) :=
  fun w =>
    let (cell, mem) := np_empty E (w_mem w) n m k in
    (Ok (mk3 n m k (tabulate n (fun i => tabulate m (fun j => tabulate k (cell i j))))),
     {| w_rng := w_rng w; w_mem := mem; w_heap := w_heap w;
        w_dirs := w_dirs w; w_files := w_files w;
        w_calls := w_calls w; w_draws := w_draws w |}).

(** [os.path.isdir(d)]. *)
Definition os_path_isdir (d : string) : M bool :=
  fun w => (Ok (existsb (String.eqb d) (w_dirs w)), w).

(** [os.makedirs(d)]: the directory exists afterwards, unless the
    operating system raises. *)
Definition os_makedirs (d : string) : M unit :=
  fun w =>
    match sys_makedirs E d with
    | Ok _ => (Ok tt, {| w_rng := w_rng w; w_mem := w_mem w; w_heap := w_heap w;
                         w_dirs := d :: w_dirs w; w_files := w_files w;
                         w_calls := w_calls w; w_draws := w_draws w |})
    | Raise e => (Raise e, w)
    end.

(** [np.save(path, dict)]: the file is written, unless the operating
    system raises. *)
Definition np_save (path : string) (d : output_record (scalar E)) : M unit :=
  fun w =>
    match sys_save E path with
    | Ok _ => (Ok tt, {| w_rng := w_rng w; w_mem := w_mem w; w_heap := w_heap w;
                         w_dirs := w_dirs w; w_files := (path, d) :: w_files w;
                         w_calls := w_calls w; w_draws := w_draws w |})
    | Raise e => (Raise e, w)
    end.

(** [sklearn.utils.shuffle(a)]: the elements of [a] in the order the
    generator draws. *)
Definition shuffle {A} (d : A) (a : list A) : M (list A) :=
  fun w =>
    let (perm, g) := random_permutation E (w_rng w) (length a) in
    (Ok (map (fun j => nth j a d) perm),
     {| w_rng := g; w_mem := w_mem w; w_heap := w_heap w;
        w_dirs := w_dirs w; w_files := w_files w;
        w_calls := w_calls w; w_draws := perm :: w_draws w |}).

(** Two worlds that differ at most in what the memory holds. *)
Definition same_but_mem (w1 w2 : world E) : Prop :=
  w_rng w1 = w_rng w2 /\ w_heap w1 = w_heap w2 /\ w_dirs w1 = w_dirs w2 /\
  w_files w1 = w_files w2 /\ w_calls w1 = w_calls w2 /\ w_draws w1 = w_draws w2.

(** A computation that what the memory holds does not influence: from
    two such worlds it returns or raises the same and leaves two such
    worlds. *)
Definition mem_blind {A} (c : M A) : Prop :=
  forall w1 w2, same_but_mem w1 w2 ->
    fst (c w1) = fst (c w2) /\ same_but_mem (snd (c w1)) (snd (c w2)).
End Monad.

Arguments ret {E A} a.
Arguments raise {E A} e.
Arguments lift {E A} r.
Arguments bindM {E A B} c k.
Arguments foldM {E A S} body l s.
Arguments shuffle E {A} d a.
Arguments mem_blind {E A} c.

Notation "x <- c ;; k" := (bindM c (fun x => k))
  (at level 61, c at next level, right associativity) : py_scope.
Notation "' p <- c ;; k" := (bindM c (fun x => match x with p => k end))
  (at level 61, p pattern, c at next level, right associativity) : py_scope.
Notation "c ;;; k" := (bindM c (fun _ => k))
  (at level 61, right associativity) : py_scope.

(** ** Paths *)

(** [format(n, '02')]. *)
Definition format02 (n : Z) : string :=
  let s := NilZero.string_of_int (Z.to_int n) in
  if String.length s <? 2 then "0" ++ s else s.

Definition last_char (s : string) : option ascii :=
  match rev (list_ascii_of_string s) with
  | c :: _ => Some c
  | [] => None
  end.

Definition is_slash (c : option ascii) : bool :=
  match c with
  | Some c => Ascii.eqb c "/"%char
  | None => false
  end.

(** [os.path.join(a, b)] on POSIX. *)
Definition path_join2 (a b : string) : string :=
  if is_slash (match b with String c _ => Some c | EmptyString => None end) then b
  else if (String.eqb a "") || is_slash (last_char a) then a ++ b
  else a ++ "/" ++ b.

Definition os_path_join (parts : list string) : string :=
  match parts with
  | [] => ""
  | p :: rest => fold_left path_join2 rest p
  end.

(** ** The input arguments *)

Record Args : Type := {
  sub : Z;
  n_ses : Z;
  sfreq : Z;
  mvnn_dim : string;
  project_dir : string }.

(** * [epoching] *)

Section Epoching.
Variable E : Externals.
Local Abbreviation F := (scalar E).

(** The reserved marker of target (catch) trials. *)
Definition target_marker : Z := 99999%Z.

(** [max_rep]: 20 for the test partition, 2 otherwise. *)
Definition max_rep_of (data_part : string) : nat :=
  if String.eqb data_part "test" then 20 else 2.

Definition raw_eeg_path (args : Args) (data_part : string) (s : nat) : string :=
  os_path_join [project_dir args;
    os_path_join ["eeg_dataset"; "raw_data";
                  ("sub-" ++ format02 (sub args))%string;
                  ("ses-" ++ format02 (Z.of_nat (s + 1)))%string;
                  ("raw_eeg_" ++ data_part ++ ".npy")%string]].

(** The body of the loop over image conditions: condition [i] gets at
    most [max_rep] of its epochs, in the order [shuffle] draws. *)
Definition sort_condition (events img_cond : list Z) (data : ndarray3 F)
    (max_rep : nat) (i : nat) (sorted_data : ndarray4 F) : M E (ndarray4 F) :=
  let idx := np_where_eq events (nth i img_cond 0%Z) in
  idx <- shuffle E 0 idx ;;
  let idx := firstn max_rep idx in
  sel <- lift (take3 data idx) ;;
  lift (setitem4 (f_zero E) sorted_data i sel).

(** The positions of the epochs one pass of that loop selects for
    condition [i] when the generator is in state [g]: the first [max_rep]
    of the condition's epochs, in the order drawn. *)
Definition drawn (events img_cond : list Z) (max_rep : nat) (g : RandomState E)
    (i : nat) : list nat :=
  let idx := np_where_eq events (nth i img_cond 0%Z) in
  firstn max_rep (map (fun j => nth j idx 0) (fst (random_permutation E g (length idx)))).

(** The first three blocks of the loop over sessions: load the session's
    recording, find its events, keep the occipital and posterior
    channels, reject the target trials, epoch and resample. *)
Definition load_epochs (args : Args) (data_part : string) (s : nat)
    : M E (EpochsObj F) :=
  eeg_data <- lift (np_load E (raw_eeg_path args data_part s)) ;;
  info <- lift (mne_create_info E (rf_ch_names eeg_data) (rf_sfreq eeg_data)
                  (rf_ch_types eeg_data)) ;;
  raw <- lift (mne_RawArray E (rf_raw_eeg_data eeg_data) info) ;;
  log_call E CallFindEvents ;;;
  events <- lift (mne_find_events E raw) ;;
  let chan_idx := mne_pick_channels_regexp E (raw_ch_names E raw) "^O *|^P *" in
  new_chans <- lift (mapR (py_index (raw_ch_names E raw)) chan_idx) ;;
  log_call E CallPickChannels ;;;
  raw <- lift (raw_pick_channels E raw new_chans) ;;
  let idx_target := np_where_eq (map marker events) target_marker in
  let events := np_delete events idx_target in
  log_call E CallEpochs ;;;
  epochs <- lift (mne_Epochs E raw events) ;;
  if (sfreq args <? 1000)%Z
  then log_call E (CallResample (sfreq args)) ;;;
       lift (epochs_resample E epochs (sfreq args))
  else ret epochs.

(** The block "Sorting the data": the epochs grouped by image condition. *)
Definition sort_data (data_part : string) (epochs : EpochsObj F)
    : M E (ndarray4 F * list Z) :=
  let data := ep_data epochs in
  let events := map marker (ep_events epochs) in
  let img_cond := np_unique events in
  let max_rep := max_rep_of data_part in
  let sorted_data :=
    full4 (f_zero E) (length img_cond) max_rep (dim3_1 data) (dim3_2 data) in
  sorted_data <- foldM (sort_condition events img_cond data max_rep)
                   (seq 0 (length img_cond)) sorted_data ;;
  ret (sorted_data, img_cond).

(** The body of the loop over sessions. *)
Definition epoching_session (args : Args) (data_part : string) (s : nat)
    : M E (ndarray4 F * list Z * list string * list F) :=
  epochs <- load_epochs args data_part s ;;
  let ch_names := ep_ch_names epochs in
  let times := ep_times epochs in
  '(sorted_data, img_cond) <- sort_data data_part epochs ;;
  ret (sorted_data, img_cond, ch_names, times).

(** None of the collaborators [epoching] calls raises [e]. *)
Definition collaborators_never_raise (e : exn) : Prop :=
  (forall path, np_load E path <> Raise e) /\
  (forall names rate types, mne_create_info E names rate types <> Raise e) /\
  (forall data info, mne_RawArray E data info <> Raise e) /\
  (forall raw, mne_find_events E raw <> Raise e) /\
  (forall raw names, raw_pick_channels E raw names <> Raise e) /\
  (forall raw events, mne_Epochs E raw events <> Raise e) /\
  (forall epochs rate, epochs_resample E epochs rate <> Raise e).

(** The variables the loop over sessions assigns.  [ch_names] and [times]
    are unbound until the first session has been processed. *)
Record epoching_vars : Type := {
  epoched_data : list (ndarray4 F);
  img_conditions : list (list Z);
  ch_names_times : option (list string * list F) }.

Definition epoching (args : Args) (data_part : string)
    : M E (list (ndarray4 F) * list (list Z) * list string * list F) :=
  set_rng E (random_seed E 20200220) ;;;
  vars <- foldM (fun s vars =>
            '(sorted_data, img_cond, ch_names, times) <-
               epoching_session args data_part s ;;
            ret {| epoched_data := epoched_data vars ++ [sorted_data];
                   img_conditions := img_conditions vars ++ [img_cond];
                   ch_names_times := Some (ch_names, times) |})
          (py_range (n_ses args))
          {| epoched_data := []; img_conditions := []; ch_names_times := None |} ;;
  match ch_names_times vars with
  | Some (ch_names, times) =>
      ret (epoched_data vars, img_conditions vars, ch_names, times)
  | None => raise UnboundLocalError
  end.

(** What the loop over sessions has done after [k] passes started in
    world [w0]: [ws] are the worlds between the passes, [cs] and [ts] the
    channel names and time axes the sessions gave. *)
Definition sessions_done (args : Args) (data_part : string) (w0 : world E) (k : nat)
    (vars : epoching_vars) (w1 : world E) : Prop :=
  exists (ws : list (world E)) (cs : list (list string)) (ts : list (list F)),
    length ws = S k /\ length cs = k /\ length ts = k /\
    length (epoched_data vars) = k /\ length (img_conditions vars) = k /\
    nth 0 ws w0 = w0 /\ nth k ws w0 = w1 /\
    (forall s, s < k ->
       epoching_session args data_part s (nth s ws w0)
       = (Ok (nth s (epoched_data vars) (full4 (f_zero E) 0 0 0 0),
              nth s (img_conditions vars) [], nth s cs [], nth s ts []),
          nth (S s) ws w0)) /\
    ch_names_times vars
    = match k with
      | 0 => None
      | S k' => Some (nth k' cs [], nth k' ts [])
      end.
End Epoching.

Arguments epoched_data {E} e.
Arguments img_conditions {E} e.
Arguments ch_names_times {E} e.

(** * [mvnn] *)

Section Mvnn.
Variable E : Externals.
Local Abbreviation F := (scalar E).

(** NumPy's mean of a sequence of floats: [nan] when it is empty. *)
Definition mean_of (l : list F) : F :=
  match l with
  | [] => f_nan E
  | _ => f_mean E l
  end.

(** [np.mean([m0, m1, ...], axis=0)] on a list of matrices.  The mean of
    the empty list is a 0-d [nan], held here as a 1 x 1 array, which
    broadcasts the same way. *)
Definition np_mean_list (ms : list (ndarray2 F)) : result (ndarray2 F) :=
  match ms with
  | [] => Ok (mk2 1 1 [[f_nan E]])
  | m0 :: _ =>
      if forallb (fun m => (rows2 m =? rows2 m0) && (cols2 m =? cols2 m0)) ms
      then Ok (mk2 (rows2 m0) (cols2 m0)
                 (tabulate (rows2 m0) (fun i => tabulate (cols2 m0) (fun j =>
                    f_mean E (map (fun m => at2 (f_zero E) (data2 m) i j) ms)))))
      else Raise ValueError
  end.

(** [a.mean(axis=0)] on rank 3. *)
Definition mean_axis0 (a : ndarray3 F) : ndarray2 F :=
  mk2 (dim3_1 a) (dim3_2 a)
    (tabulate (dim3_1 a) (fun i => tabulate (dim3_2 a) (fun j =>
       mean_of (map (fun m => at2 (f_zero E) m i j) (data3 a))))).

(** [x @ w] for [x] of rank 3 and [w] of rank 2. *)
Definition matmul3 (x : ndarray3 F) (w : ndarray2 F) : result (ndarray3 F) :=
  if dim3_2 x =? rows2 w then
    Ok (mk3 (dim3_0 x) (dim3_1 x) (cols2 w)
          (tabulate (dim3_0 x) (fun n => tabulate (dim3_1 x) (fun i =>
             tabulate (cols2 w) (fun j =>
               f_dot E (nth i (nth n (data3 x) []) [])
                       (map (fun row => nth j row (f_zero E)) (data2 w)))))))
  else Raise ValueError.


(** The body of the loop over image conditions: [sigma_cond[i]] gets the
    mean covariance of condition [i], over time points or over epochs;
    with any other [mvnn_dim] it keeps what [np.empty] left. *)
Definition cond_cov (args : Args) (cond_data : ndarray3 F) (i : nat)
    (sigma_cond : ndarray3 F) : result (ndarray3 F) :=
  if String.eqb (mvnn_dim args) "time" then
    let! covs := mapR (fun t => let! x := slice_last (f_zero E) cond_data t in
                                sk_cov E x)
                   (seq 0 (dim3_2 cond_data)) in
    let! m := np_mean_list covs in
    setitem3 (f_zero E) sigma_cond i m
  else if String.eqb (mvnn_dim args) "epochs" then
    let! covs := mapR (fun e => let! x := getitem3 cond_data e in
                                sk_cov E (np_transpose (f_zero E) x))
                   (seq 0 (dim3_0 cond_data)) in
    let! m := np_mean_list covs in
    setitem3 (f_zero E) sigma_cond i m
  else Ok sigma_cond.

(** The body of the loop over data partitions. *)
Definition part_cov (args : Args) (session_data : list (ndarray4 F)) (ch0 : nat)
    (p : nat) (sigma_part : ndarray3 F) : M E (ndarray3 F) :=
  part <- lift (py_index session_data p) ;;
  sigma_cond <- np_empty3 E (dim4_0 part) ch0 ch0 ;;
  sigma_cond <-
    lift (foldR (fun i sigma_cond =>
                   let! cond_data := getitem4 part i in
                   cond_cov args cond_data i sigma_cond)
                (seq 0 (dim4_0 part)) sigma_cond) ;;
  lift (setitem3 (f_zero E) sigma_part p (mean_axis0 sigma_cond)).

(** [sigma_inv] of one session. *)
Definition session_sigma_inv (args : Args) (session_data : list (ndarray4 F))
    : M E (ndarray2 F) :=
  first <- lift (py_index session_data 0) ;;
  let ch0 := dim4_2 first in
  sigma_part <- np_empty3 E (length session_data) ch0 ch0 ;;
  sigma_part <-
    foldM (part_cov args session_data ch0) (seq 0 (dim3_0 sigma_part)) sigma_part ;;
  let sigma_tot := mean_axis0 sigma_part in
  lift (fractional_matrix_power_neg_half E sigma_tot).

(** [np.reshape((np.reshape(x, (-1, x.shape[2], x.shape[3])).swapaxes(1, 2)
    @ sigma_inv).swapaxes(1, 2), x.shape)]. *)
Definition whiten (x : ndarray4 F) (sigma_inv : ndarray2 F) : result (ndarray4 F) :=
  let! r := reshape4_to3 (f_zero E) x (dim4_2 x) (dim4_3 x) in
  let! y := matmul3 (swapaxes12 (f_zero E) r) sigma_inv in
  reshape3_to4 (f_zero E) (swapaxes12 (f_zero E) y)
    (dim4_0 x) (dim4_1 x) (dim4_2 x) (dim4_3 x).

(** The body of the loop over sessions.  [epoched_test] and
    [epoched_train] are lists of references to the caller's arrays; the
    whitened arrays are new objects of the store. *)
Definition mvnn_session (args : Args) (epoched_test epoched_train : list loc)
    (s : nat) (vars : list loc * list loc) : M E (list loc * list loc) :=
  let (whitened_test, whitened_train) := vars in
  l0 <- lift (py_index epoched_test s) ;;
  l1 <- lift (py_index epoched_train s) ;;
  d0 <- deref E l0 ;;
  d1 <- deref E l1 ;;
  let session_data := [d0; d1] in
  sigma_inv <- session_sigma_inv args session_data ;;
  w0 <- lift (whiten d0 sigma_inv) ;;
  a0 <- alloc E w0 ;;
  w1 <- lift (whiten d1 sigma_inv) ;;
  a1 <- alloc E w1 ;;
  ret (whitened_test ++ [a0], whitened_train ++ [a1]).

Definition mvnn (args : Args) (epoched_test epoched_train : list loc)
    : M E (list loc * list loc) :=
  foldM (mvnn_session args epoched_test epoched_train) (py_range (n_ses args)) ([], []).

(** The store only grows from [w] to [w']: an array object reachable in
    [w] is the same array in [w']. *)
Definition heap_extends (w w' : world E) : Prop :=
  exists fresh, w_heap w' = w_heap w ++ fresh.

(** Session [s] of [outputs] is an array object created after [w], well
    formed, and of the shape of session [s] of [inputs]. *)
Definition whitened_like (w w' : world E) (inputs outputs : list loc) (s : nat) : Prop :=
  exists l_in l_out a b,
    nth_error inputs s = Some l_in /\ nth_error outputs s = Some l_out /\
    nth_error (w_heap w') l_in = Some a /\ nth_error (w_heap w') l_out = Some b /\
    length (w_heap w) <= l_out /\ shape4 b = shape4 a /\ wf4 b.

(** Session [s] of the outputs is session [s] of the inputs whitened:
    both partitions by the one matrix estimated from the two of them.  The
    estimate was made in the world [v] the session started in: the store
    held the objects created before the session's outputs, and the rest
    was as in [w'] but for the memory. *)
Definition session_whitened (args : Args) (w' : world E)
    (epoched_test epoched_train whitened_test whitened_train : list loc) (s : nat) : Prop :=
  exists l0 l1 o0 o1 d0 d1 sigma_inv y0 y1,
    nth_error epoched_test s = Some l0 /\ nth_error epoched_train s = Some l1 /\
    nth_error whitened_test s = Some o0 /\ nth_error whitened_train s = Some o1 /\
    nth_error (w_heap w') l0 = Some d0 /\ nth_error (w_heap w') l1 = Some d1 /\
    nth_error (w_heap w') o0 = Some y0 /\ nth_error (w_heap w') o1 = Some y1 /\
    (exists v v',
        session_sigma_inv args [d0; d1] v = (Ok sigma_inv, v') /\
        w_heap v = firstn o0 (w_heap w') /\ w_rng v = w_rng w' /\
        w_dirs v = w_dirs w' /\ w_files v = w_files w' /\ w_calls v = w_calls w') /\
    whiten d0 sigma_inv = Ok y0 /\ whiten d1 sigma_inv = Ok y1.
End Mvnn.

(** * [save_prepr] *)

Section SavePrepr.
Variable E : Externals.
Local Abbreviation F := (scalar E).

(** The loop merging the test data: the sessions' arrays side by side
    along the repetition axis.  [None] is the unbound [merged_test]. *)
Definition merge_test_step (whitened_test : list (ndarray4 F)) (s : nat)
    (merged_test : option (ndarray4 F)) : result (option (ndarray4 F)) :=
  if s =? 0 then
    let! x := py_index whitened_test s in Ok (Some x)
  else
    match merged_test with
    | Some m =>
        let! x := py_index whitened_test s in
        let! m' := np_append4_axis1 m x in
        Ok (Some m')
    | None => Raise UnboundLocalError
    end.

Definition merge_test (args : Args) (whitened_test : list (ndarray4 F))
    : result (option (ndarray4 F)) :=
  foldR (merge_test_step whitened_test) (py_range (n_ses args)) None.

(** The loop concatenating the training data and its labels along the
    condition axis.  [None] is the unbound pair of variables. *)
Definition concat_train_step (whitened_train : list (ndarray4 F))
    (img_conditions_train : list (list Z)) (s : nat)
    (vars : option (ndarray4 F * list Z)) : result (option (ndarray4 F * list Z)) :=
  if s =? 0 then
    let! white_data := py_index whitened_train s in
    let! img_cond := py_index img_conditions_train s in
    Ok (Some (white_data, img_cond))
  else
    match vars with
    | Some (white_data, img_cond) =>
        let! x := py_index whitened_train s in
        let! white_data' := np_append4_axis0 white_data x in
        let! c := py_index img_conditions_train s in
        Ok (Some (white_data', img_cond ++ c))
    | None => Raise UnboundLocalError
    end.

Definition concat_train (args : Args) (whitened_train : list (ndarray4 F))
    (img_conditions_train : list (list Z)) : result (option (ndarray4 F * list Z)) :=
  foldR (concat_train_step whitened_train img_conditions_train)
        (py_range (n_ses args)) None.

(** The loop over [r]: the rows of [white_data] at [idx], stacked along
    axis 0 into [ordered_data].  [None] is the unbound [ordered_data];
    with an empty [idx] the variable keeps its value. *)
Definition gather_step (white_data : ndarray4 F) (idx : list nat) (r : nat)
    (ordered_data : option (ndarray3 F)) : result (option (ndarray3 F)) :=
  if r =? 0 then
    let! row := getitem4 white_data (nth r idx 0) in Ok (Some row)
  else
    match ordered_data with
    | Some od =>
        let! row := getitem4 white_data (nth r idx 0) in
        let! od' := np_append3_axis0 od row in
        Ok (Some od')
    | None => Raise UnboundLocalError
    end.

Definition gather (white_data : ndarray4 F) (idx : list nat)
    (ordered_data : option (ndarray3 F)) : result (option (ndarray3 F)) :=
  foldR (gather_step white_data idx) (seq 0 (length idx)) ordered_data.

(** What [gather] builds from a non-empty [idx]: the rows of [white_data]
    at [idx], one after the other along axis 0. *)
Definition stacked (white_data : ndarray4 F) (idx : list nat) : ndarray3 F :=
  mk3 (length idx * dim4_1 white_data) (dim4_2 white_data) (dim4_3 white_data)
    (concat (map (fun j => nth j (data4 white_data) []) idx)).

(** The body of the loop over [i]: the rows labelled [i + 1] go to row
    [i] of [merged_train]. *)
Definition merge_condition (white_data : ndarray4 F) (img_cond : list Z) (i : nat)
    (vars : ndarray4 F * option (ndarray3 F))
    : result (ndarray4 F * option (ndarray3 F)) :=
  let (merged_train, ordered_data) := vars in
  let idx := np_where_eq img_cond (Z.of_nat (i + 1)) in
  let! ordered_data := gather white_data idx ordered_data in
  match ordered_data with
  | Some od =>
      let! merged_train := setitem4 (f_zero E) merged_train i od in
      Ok (merged_train, Some od)
  | None => Raise UnboundLocalError
  end.

(** [merged_train] before its repetitions are shuffled. *)
Definition merge_train (white_data : ndarray4 F) (img_cond : list Z)
    : result (ndarray4 F) :=
  let n := length (np_unique img_cond) in
  let merged_train :=
    full4 (f_zero E) n (dim4_1 white_data * 2) (dim4_2 white_data) (dim4_3 white_data) in
  let! vars := foldR (merge_condition white_data img_cond) (seq 0 n)
                 (merged_train, None) in
  Ok (fst vars).

(** The invariant of that loop: [merged_train] keeps the shape it was
    created with, and has as many rows as that shape says. *)
Definition merged_inv (mt0 mt : ndarray4 F) : Prop :=
  shape4 mt = shape4 mt0 /\ length (data4 mt) = dim4_0 mt0.

Definition save_dir_of (args : Args) : string :=
  os_path_join ["eeg_dataset"; "preprocessed_data"; ("sub-" ++ format02 (sub args))%string].
Definition file_name_test : string := "preprocessed_eeg_test.npy".
Definition file_name_train : string := "preprocessed_eeg_training.npy".

(** Shuffle the repetition axis, wrap, create the directory if it is
    missing and save. *)
Definition shuffle_and_save (args : Args) (merged : ndarray4 F) (file_name : string)
    (ch_names : list string) (times : list F) : M E unit :=
  idx <- shuffle E 0 (seq 0 (dim4_1 merged)) ;;
  merged <- lift (take4_axis1 merged idx) ;;
  let dict := {| preprocessed_eeg_data := merged;
                 out_ch_names := ch_names;
                 out_times := times |} in
  let dir := os_path_join [project_dir args; save_dir_of args] in
  isdir <- os_path_isdir E dir ;;
  (if negb isdir then os_makedirs E dir else ret tt) ;;;
  np_save E (os_path_join [project_dir args; save_dir_of args; file_name]) dict.

Definition save_prepr (args : Args) (whitened_test whitened_train : list (ndarray4 F))
    (img_conditions_train : list (list Z)) (ch_names : list string) (times : list F)
    : M E unit :=
  merged_test <- lift (merge_test args whitened_test) ;;
  match merged_test with
  | None => raise UnboundLocalError
  | Some merged_test =>
      shuffle_and_save args merged_test file_name_test ch_names times ;;;
      vars <- lift (concat_train args whitened_train img_conditions_train) ;;
      match vars with
      | None => raise UnboundLocalError
      | Some (white_data, img_cond) =>
          merged_train <- lift (merge_train white_data img_cond) ;;
          shuffle_and_save args merged_train file_name_train ch_names times
      end
  end.
End SavePrepr.

(** * The pipeline *)

Section Pipeline.
Variable E : Externals.

(** A comprehension over a computation. *)
Fixpoint mapM {A B} (f : A -> M E B) (l : list A) : M E (list B) :=
  match l with
  | [] => ret []
  | x :: t => y <- f x ;; ys <- mapM f t ;; ret (y :: ys)
  end.

(** Modelled from the spec: the driver script that calls the three
    functions is not among the sources.  The specification's control flow
    is followed: the Segmenter runs on the test and on the training
    partition, the Noise Normalizer on every session's pair of tensors,
    and the Consolidator once, on all the whitened pairs, with the
    training labels and the shared channel names and time axis. *)
Definition pipeline (args : Args) : M E unit :=
  '(epoched_test, _, ch_names, times) <- epoching E args "test" ;;
  '(epoched_train, img_conditions_train, _, _) <- epoching E args "training" ;;
  test_refs <- mapM (alloc E) epoched_test ;;
  train_refs <- mapM (alloc E) epoched_train ;;
  '(whitened_test, whitened_train) <- mvnn E args test_refs train_refs ;;
  whitened_test <- mapM (deref E) whitened_test ;;
  whitened_train <- mapM (deref E) whitened_train ;;
  save_prepr E args whitened_test whitened_train img_conditions_train ch_names times.
End Pipeline.

(** * A small implementation of the collaborators

    Integers stand for floats; a recording is a list of named channels, of
    which the one named [stim] carries the markers; an epoch is the one
    sample at its event.  It serves to run the functions on concrete
    recordings. *)

Module Demo.
Record raw : Type := { r_names : list string; r_data : list (list Z) }.

Definition sum (l : list Z) : Z := fold_right Z.add 0%Z l.

Definition mean (l : list Z) : Z := (sum l / Z.of_nat (length l))%Z.

Definition dot (u v : list Z) : Z := sum (map (fun p => (fst p * snd p)%Z) (combine u v)).

(** Generator states are counters: an even state draws the identity
    order, an odd one the reverse order. *)
Definition permutation (g : Z) (n : nat) : list nat * Z :=
  (if Z.even g then seq 0 n else rev (seq 0 n), Z.succ g).

Fixpoint lookup {A} (k : string) (l : list (string * A)) : option A :=
  match l with
  | [] => None
  | (k', v) :: t => if String.eqb k k' then Some v else lookup k t
  end.

Definition load (files : list (string * RawFile Z)) (path : string)
    : result (RawFile Z) :=
  match lookup path files with
  | Some f => Ok f
  | None => Raise NotFoundError
  end.

(** An event at every sample where the stim channel is not 0. *)
Fixpoint events_from (t : nat) (stim : list Z) : list event :=
  match stim with
  | [] => []
  | v :: rest =>
      if Z.eqb v 0 then events_from (S t) rest
      else (Z.of_nat t, 0%Z, v) :: events_from (S t) rest
  end.

Definition find_events (r : raw) : result (list event) :=
  match lookup "stim" (combine (r_names r) (r_data r)) with
  | Some stim => Ok (events_from 0 stim)
  | None => Raise (OtherError "no stim channel")
  end.

Definition starts_with_O_or_P (name : string) : bool :=
  match name with
  | String c _ => Ascii.eqb c "O"%char || Ascii.eqb c "P"%char
  | EmptyString => false
  end.

Fixpoint positions_from (i : nat) (names : list string) : list nat :=
  match names with
  | [] => []
  | n :: t =>
      if starts_with_O_or_P n then i :: positions_from (S i) t
      else positions_from (S i) t
  end.

Definition pick_channels (r : raw) (names : list string) : result raw :=
  let kept := filter (fun p => existsb (String.eqb (fst p)) names)
                (combine (r_names r) (r_data r)) in
  Ok {| r_names := map fst kept; r_data := map snd kept |}.

Definition sample (e : event) : nat := Z.to_nat (fst (fst e)).

(** As [mne.Epochs] does, it raises [ValueError] when there is no
    event to epoch. *)
Definition make_epochs (r : raw) (events : list event) : result (EpochsObj Z) :=
  match events with
  | [] => Raise ValueError
  | _ =>
      Ok {| ep_ch_names := r_names r;
            ep_times := [0%Z];
            ep_events := events;
            ep_data := mk3 (length events) (length (r_data r)) 1
                         (map (fun e => map (fun row => [nth (sample e) row 0%Z]) (r_data r))
                              events) |}
  end.

(** A memory state is a number, which every cell of the next buffer
    holds. *)
Definition empty (mem : Z) (n m k : nat) : (nat -> nat -> nat -> Z) * Z :=
  (fun _ _ _ => mem, Z.succ mem).

(** The channel-by-channel products of the columns of [x], summed over
    its rows. *)
Definition cov (x : ndarray2 Z) : result (ndarray2 Z) :=
  Ok (mk2 (cols2 x) (cols2 x)
        (tabulate (cols2 x) (fun i => tabulate (cols2 x) (fun j =>
           sum (map (fun row => (nth i row 0 * nth j row 0)%Z) (data2 x)))))).

Definition ext (files : list (string * RawFile Z)) : Externals := {|
  scalar := Z;
  f_zero := 0%Z;
  f_nan := (-1)%Z;
  Memory := Z;
  np_empty := empty;
  f_mean := mean;
  f_dot := dot;
  RandomState := Z;
  random_seed := fun seed => seed;
  random_permutation := permutation;
  np_load := load files;
  Info := list string;
  Raw := raw;
  mne_create_info := fun names _ _ => Ok names;
  mne_RawArray := fun data names => Ok {| r_names := names; r_data := data |};
  mne_find_events := find_events;
  raw_ch_names := r_names;
  mne_pick_channels_regexp := fun names _ => positions_from 0 names;
  raw_pick_channels := pick_channels;
  mne_Epochs := make_epochs;
  epochs_resample := fun e _ => Ok e;
  sk_cov := cov;
  fractional_matrix_power_neg_half := fun m => Ok m;
  sys_makedirs := fun _ => Ok tt;
  sys_save := fun _ => Ok tt |}.

(** The empty world with the generator in state [g]. *)
Definition world_at (files : list (string * RawFile Z)) (g : Z) : world (ext files) :=
  {| w_rng := (g : RandomState (ext files)); w_mem := (0%Z : Memory (ext files));
     w_heap := []; w_dirs := []; w_files := []; w_calls := []; w_draws := [] |}.

Definition world0 (files : list (string * RawFile Z)) : world (ext files) :=
  world_at files 0.

(** A recording of channels [O1], [P3], [Fz] and [stim], sampled at
    [rate] Hz, whose stim channel is [markers]. *)
Definition recording (rate : Z) (markers : list Z) : RawFile Z := {|
  rf_ch_names := ["O1"; "P3"; "Fz"; "stim"];
  rf_sfreq := rate;
  rf_ch_types := ["eeg"; "eeg"; "eeg"; "stim"];
  rf_raw_eeg_data :=
    [map (fun t => Z.of_nat (10 + t)) (seq 0 (length markers));
     map (fun t => Z.of_nat (100 + 2 * t)) (seq 0 (length markers));
     map (fun t => Z.of_nat (7 * t)) (seq 0 (length markers));
     markers] |}.

Definition args_of (n : Z) (rate : Z) : Args := {|
  sub := 1; n_ses := n; sfreq := rate; mvnn_dim := "time"; project_dir := "/data" |}.

(** The files of a subject with one session, whose recording of
    [data_part] is sampled at [rate] Hz and carries [markers]. *)
Definition one_session (data_part : string) (rate : Z) (markers : list Z)
    : list (string * RawFile Z) :=
  [(raw_eeg_path (args_of 1 100) data_part 0, recording rate markers)].

(** A rank-4 array of the given shape whose cell [(i, j, k, l)] holds
    [base + 1000 i + 100 j + 10 k + l]. *)
Definition tensor (base : Z) (n m k j : nat) : ndarray4 Z :=
  mk4 n m k j
    (tabulate n (fun i0 => tabulate m (fun i1 => tabulate k (fun i2 => tabulate j (fun i3 =>
       (base + Z.of_nat (1000 * i0 + 100 * i1 + 10 * i2 + i3))%Z))))).

(** The sessions the examples run on. *)
Definition session_5335 := one_session "training" 1000 [5; 3; 3; 5; 99999]%Z.
Definition session_53357 := one_session "training" 1000 [5; 3; 3; 5; 7]%Z.
Definition session_44 := one_session "test" 1000 [4; 4]%Z.
Definition session_500Hz := one_session "training" 500 [5; 5]%Z.

(** Whitened training tensors of two, three and four sessions, each of
    two repetitions, one channel and one time point. *)
Definition two_sessions : list (ndarray4 Z) :=
  [tensor 0 2 2 1 1; tensor 5000 2 2 1 1].
Definition three_sessions : list (ndarray4 Z) :=
  [tensor 0 1 2 1 1; tensor 5000 1 2 1 1; tensor 7000 1 2 1 1].
Definition four_sessions : list (ndarray4 Z) :=
  [tensor 0 1 2 1 1; tensor 1000 1 2 1 1; tensor 2000 1 2 1 1; tensor 3000 1 2 1 1].

(** A store that holds a test tensor of shape (2, 2, 2, 3) at location 0
    and a training tensor of shape (3, 2, 2, 3) at location 1. *)
Definition store : world (ext []) :=
  {| w_rng := (0%Z : RandomState (ext [])); w_mem := (0%Z : Memory (ext []));
     w_dirs := []; w_files := []; w_calls := []; w_draws := [];
     w_heap := [tensor 0 2 2 2 3; tensor 5000 3 2 2 3] |}.

(** The files of a subject with two sessions: the test recordings show
    each of two images once, the training recordings twice. *)
Definition two_session_subject : list (string * RawFile Z) :=
  [(raw_eeg_path (args_of 2 1000) "test" 0, recording 1000 [1; 2]%Z);
   (raw_eeg_path (args_of 2 1000) "test" 1, recording 1000 [2; 1]%Z);
   (raw_eeg_path (args_of 2 1000) "training" 0, recording 1000 [1; 2; 2; 1]%Z);
   (raw_eeg_path (args_of 2 1000) "training" 1, recording 1000 [2; 1; 99999; 1; 2]%Z)].

(** The empty world with the generator in state [g] and the memory in
    state [mem]. *)
Definition world_with (files : list (string * RawFile Z)) (g mem : Z)
    : world (ext files) :=
  {| w_rng := (g : RandomState (ext files)); w_mem := (mem : Memory (ext files));
     w_heap := []; w_dirs := []; w_files := []; w_calls := []; w_draws := [] |}.

(** The epochs of [session_5335], as [mne.Epochs] makes them here. *)
Definition epochs_5335 : EpochsObj Z := {|
  ep_ch_names := ["O1"; "P3"];
  ep_times := [0%Z];
  ep_events := [(0, 0, 5); (1, 0, 3); (2, 0, 3); (3, 0, 5)]%Z;
  ep_data := mk3 4 2 1 [[[10]; [100]]; [[11]; [102]]; [[12]; [104]]; [[13]; [106]]]%Z |}.
End Demo.

(** * Facts about the integer arrays *)

Lemma where_from_spec (a : list Z) (v : Z) (i j : nat) :
  In j (where_from i a v) <-> i <= j /\ nth_error a (j - i) = Some v.
Proof.
  revert i. induction a as [|x t IH]; intros i; simpl.
  - split; [tauto|]. intros [_ H]. destruct (j - i); discriminate.
  - destruct (Z.eqb_spec x v) as [->|Hne]; simpl; rewrite IH.
    + split.
      * intros [->|[Hle H]].
        -- split; [lia|]. now rewrite Nat.sub_diag.
        -- split; [lia|]. replace (j - i) with (S (j - S i)) by lia. exact H.
      * intros [Hle H]. destruct (Nat.eq_dec i j) as [->|Hij]; [now left|right].
        split; [lia|]. replace (j - i) with (S (j - S i)) in H by lia. exact H.
    + split.
      * intros [Hle H]. split; [lia|].
        replace (j - i) with (S (j - S i)) by lia. exact H.
      * intros [Hle H]. destruct (Nat.eq_dec i j) as [->|Hij].
        -- rewrite Nat.sub_diag in H. simpl in H. congruence.
        -- split; [lia|]. replace (j - i) with (S (j - S i)) in H by lia. exact H.
Qed.

Lemma np_where_eq_spec (a : list Z) (v : Z) (j : nat) :
  In j (np_where_eq a v) <-> nth_error a j = Some v.
Proof.
  unfold np_where_eq. rewrite where_from_spec, Nat.sub_0_r.
  split; [tauto|]. intros H; split; [lia|exact H].
Qed.

Lemma np_where_eq_lt (a : list Z) (v : Z) (j : nat) :
  In j (np_where_eq a v) -> j < length a.
Proof.
  rewrite np_where_eq_spec. intros H. apply nth_error_Some. congruence.
Qed.

Lemma where_from_length (a : list Z) (v : Z) (i : nat) :
  length (where_from i a v) = count_occ Z.eq_dec a v.
Proof.
  revert i. induction a as [|x t IH]; intros i; simpl; [reflexivity|].
  destruct (Z.eqb_spec x v), (Z.eq_dec x v); try contradiction; simpl;
    now rewrite IH.
Qed.

Lemma np_where_eq_length (a : list Z) (v : Z) :
  length (np_where_eq a v) = count_occ Z.eq_dec a v.
Proof. apply where_from_length. Qed.

Lemma np_where_eq_nil (a : list Z) (v : Z) :
  ~ In v a -> np_where_eq a v = [].
Proof.
  intros H. apply length_zero_iff_nil. rewrite np_where_eq_length.
  now apply count_occ_not_In.
Qed.

Lemma delete_from_fresh {A} (a : list A) (i j : nat) (idx : list nat) :
  j < i -> delete_from i a (j :: idx) = delete_from i a idx.
Proof.
  revert i. induction a as [|x t IH]; intros i Hj; simpl; [reflexivity|].
  destruct (Nat.eqb_spec i j); [lia|]. simpl.
  destruct (existsb (Nat.eqb i) idx); rewrite IH by lia; reflexivity.
Qed.

Lemma delete_where_from {A} (f : A -> Z) (v : Z) (a : list A) (i : nat) :
  delete_from i a (where_from i (map f a) v) = filter (fun x => negb (Z.eqb (f x) v)) a.
Proof.
  revert i. induction a as [|x t IH]; intros i; simpl; [reflexivity|].
  destruct (Z.eqb (f x) v) eqn:Hx; simpl.
  - rewrite Nat.eqb_refl. simpl. rewrite delete_from_fresh by lia. apply IH.
  - destruct (existsb (Nat.eqb i) (where_from (S i) (map f t) v)) eqn:Hex.
    + apply existsb_exists in Hex. destruct Hex as [j [Hj Hij]].
      apply Nat.eqb_eq in Hij. subst j. apply where_from_spec in Hj. lia.
    + now rewrite IH.
Qed.

(** Rejecting the target trials leaves exactly the events with another
    marker. *)
Lemma reject_targets_spec (events : list event) (e : event) :
  In e (np_delete events (np_where_eq (map marker events) target_marker))
  <-> In e events /\ marker e <> target_marker.
Proof.
  unfold np_delete, np_where_eq. rewrite delete_where_from, filter_In.
  rewrite negb_true_iff, Z.eqb_neq. tauto.
Qed.

Lemma insert_unique_In (x y : Z) (l : list Z) :
  In y (insert_unique x l) <-> y = x \/ In y l.
Proof.
  induction l as [|z t IH]; simpl.
  - intuition congruence.
  - destruct (Z.ltb_spec x z); simpl; [intuition congruence|].
    destruct (Z.eqb_spec x z); simpl; [intuition congruence|].
    rewrite IH. intuition congruence.
Qed.

Lemma insert_unique_sorted (x : Z) (l : list Z) :
  Sorted Z.lt l -> Sorted Z.lt (insert_unique x l).
Proof.
  induction l as [|z t IH]; simpl; intros Hs.
  - repeat constructor.
  - destruct (Z.ltb_spec x z).
    + constructor; [exact Hs|]. now constructor.
    + destruct (Z.eqb_spec x z); [exact Hs|].
      inversion Hs as [|? ? Ht Hhd]; subst.
      constructor; [now apply IH|].
      destruct t as [|u t']; simpl.
      * constructor. lia.
      * inversion Hhd; subst.
        destruct (Z.ltb_spec x u); [constructor; lia|].
        destruct (Z.eqb_spec x u); constructor; lia.
Qed.

Lemma np_unique_In (a : list Z) (y : Z) : In y (np_unique a) <-> In y a.
Proof.
  unfold np_unique. induction a as [|x t IH]; simpl; [tauto|].
  rewrite insert_unique_In, IH. intuition congruence.
Qed.

Lemma np_unique_sorted (a : list Z) : StronglySorted Z.lt (np_unique a).
Proof.
  apply Sorted_StronglySorted; [exact Z.lt_trans|].
  unfold np_unique. induction a as [|x t IH]; simpl; [constructor|].
  now apply insert_unique_sorted.
Qed.

Lemma strictly_sorted_NoDup (l : list Z) : StronglySorted Z.lt l -> NoDup l.
Proof.
  induction 1 as [|x l Hs IH Hall]; constructor; [|exact IH].
  intros Hin. rewrite Forall_forall in Hall. specialize (Hall x Hin). lia.
Qed.

Lemma np_unique_NoDup (a : list Z) : NoDup (np_unique a).
Proof. apply strictly_sorted_NoDup, np_unique_sorted. Qed.

(** * Facts about results, loops and computations *)

Lemma bindR_Ok_inv {A B} (r : result A) (k : A -> result B) (b : B) :
  bindR r k = Ok b -> exists a, r = Ok a /\ k a = Ok b.
Proof. destruct r as [a|e]; simpl; [eauto|discriminate]. Qed.

Lemma foldR_app {A S} (body : A -> S -> result S) (l1 l2 : list A) (s : S) :
  foldR body (l1 ++ l2) s = let! s' := foldR body l1 s in foldR body l2 s'.
Proof.
  revert s. induction l1 as [|x t IH]; intros s; simpl; [reflexivity|].
  destruct (body x s); simpl; [apply IH|reflexivity].
Qed.

(** A property kept by every step that returns holds when the loop returns. *)
Lemma foldR_inv {A S} (P : S -> Prop) (body : A -> S -> result S) (l : list A) :
  (forall x s s', In x l -> P s -> body x s = Ok s' -> P s') ->
  forall s s', P s -> foldR body l s = Ok s' -> P s'.
Proof.
  induction l as [|x t IH]; simpl; intros Hstep s s' Hs H.
  - congruence.
  - apply bindR_Ok_inv in H. destruct H as [s1 [H1 H2]].
    apply (IH (fun y u u' Hy => Hstep y u u' (or_intror Hy)) s1 s'); [|exact H2].
    eapply Hstep; eauto.
Qed.

Lemma bindM_Ok_inv {E A B} (c : M E A) (k : A -> M E B) w b w' :
  bindM c k w = (Ok b, w') ->
  exists a w1, c w = (Ok a, w1) /\ k a w1 = (Ok b, w').
Proof.
  unfold bindM. destruct (c w) as [[a|e] w1]; [eauto|discriminate].
Qed.

Lemma bindM_Ok {E A B} {c : M E A} {w a w1} (k : A -> M E B) :
  c w = (Ok a, w1) -> bindM c k w = k a w1.
Proof. unfold bindM. now intros ->. Qed.

Lemma bindM_Raise {E A B} {c : M E A} {w e w1} (k : A -> M E B) :
  c w = (Raise e, w1) -> bindM c k w = (Raise e, w1).
Proof. unfold bindM. now intros ->. Qed.

Lemma lift_Ok_inv {E A} (r : result A) (w w' : world E) (a : A) :
  lift r w = (Ok a, w') -> r = Ok a /\ w' = w.
Proof. unfold lift. intros H. inversion H. auto. Qed.

(** A relation between the world before and after, reflexive, transitive
    and kept by every step, returning or raising, holds of the loop. *)
Lemma foldM_world {E A S} (Q : world E -> world E -> Prop)
    (body : A -> S -> M E S) (l : list A) :
  (forall w, Q w w) ->
  (forall w1 w2 w3, Q w1 w2 -> Q w2 w3 -> Q w1 w3) ->
  (forall x s w r w', In x l -> body x s w = (r, w') -> Q w w') ->
  forall s w r w', foldM body l s w = (r, w') -> Q w w'.
Proof.
  intros Hrefl Htrans. induction l as [|x t IH]; simpl; intros Hstep s w r w' H.
  - unfold ret in H. inversion H; subst. apply Hrefl.
  - unfold bindM in H. destruct (body x s w) as [[s1|e] w1] eqn:Hb.
    + apply Htrans with w1; [eapply Hstep; eauto|].
      eapply IH; [|exact H]. intros; eapply Hstep; eauto.
    + inversion H; subst. eapply Hstep; eauto.
Qed.

(** A property of the loop's variables kept by every step that returns. *)
Lemma foldM_inv {E A S} (P : S -> Prop) (body : A -> S -> M E S) (l : list A) :
  (forall x s w s' w', In x l -> P s -> body x s w = (Ok s', w') -> P s') ->
  forall s w s' w', P s -> foldM body l s w = (Ok s', w') -> P s'.
Proof.
  induction l as [|x t IH]; simpl; intros Hstep s w s' w' Hs H.
  - unfold ret in H. inversion H; subst. exact Hs.
  - apply bindM_Ok_inv in H. destruct H as [s1 [w1 [H1 H2]]].
    apply (IH (fun y u v u' v' Hy => Hstep y u v u' v' (or_intror Hy)) s1 w1 s' w');
      [|exact H2].
    eapply Hstep; eauto.
Qed.

(** * Facts about the float arrays *)

Lemma length_tabulate {A} (n : nat) (f : nat -> A) : length (tabulate n f) = n.
Proof. unfold tabulate. now rewrite length_map, length_seq. Qed.

Lemma nth_tabulate {A} (n i : nat) (f : nat -> A) (d : A) :
  i < n -> nth i (tabulate n f) d = f i.
Proof.
  intros Hi. unfold tabulate.
  rewrite (nth_indep _ d (f 0)) by now rewrite length_map, length_seq.
  rewrite map_nth, seq_nth by exact Hi. reflexivity.
Qed.

Lemma forallb_tabulate {A} (p : A -> bool) (n : nat) (f : nat -> A) :
  (forall i, i < n -> p (f i) = true) -> forallb p (tabulate n f) = true.
Proof.
  intros H. apply forallb_forall. intros x Hx. unfold tabulate in Hx.
  apply in_map_iff in Hx. destruct Hx as [i [<- Hi]]. apply in_seq in Hi.
  apply H. lia.
Qed.

Lemma forallb_repeat {A} (p : A -> bool) (x : A) (n : nat) :
  p x = true -> forallb p (repeat x n) = true.
Proof.
  intros H. apply forallb_forall. intros y Hy. apply repeat_spec in Hy. now subst.
Qed.

Lemma rect1_tabulate {A} (n : nat) (f : nat -> A) : rect1 n (tabulate n f) = true.
Proof. unfold rect1. rewrite length_tabulate. apply Nat.eqb_refl. Qed.

Lemma rect2_tabulate {A} (n m : nat) (f : nat -> list A) :
  (forall i, i < n -> rect1 m (f i) = true) -> rect2 n m (tabulate n f) = true.
Proof.
  intros H. unfold rect2. rewrite length_tabulate, Nat.eqb_refl. simpl.
  now apply forallb_tabulate.
Qed.

Lemma rect3_tabulate {A} (n m k : nat) (f : nat -> list (list A)) :
  (forall i, i < n -> rect2 m k (f i) = true) -> rect3 n m k (tabulate n f) = true.
Proof.
  intros H. unfold rect3. rewrite length_tabulate, Nat.eqb_refl. simpl.
  now apply forallb_tabulate.
Qed.

Lemma rect4_tabulate {A} (n m k j : nat) (f : nat -> list (list (list A))) :
  (forall i, i < n -> rect3 m k j (f i) = true) -> rect4 n m k j (tabulate n f) = true.
Proof.
  intros H. unfold rect4. rewrite length_tabulate, Nat.eqb_refl. simpl.
  now apply forallb_tabulate.
Qed.

Lemma rect3_tabulate3 {A} (n m k : nat) (f : nat -> nat -> nat -> A) :
  rect3 n m k (tabulate n (fun i => tabulate m (fun j => tabulate k (f i j)))) = true.
Proof.
  apply rect3_tabulate; intros. apply rect2_tabulate; intros. apply rect1_tabulate.
Qed.

Lemma rect1_repeat {A} (x : A) (n : nat) : rect1 n (repeat x n) = true.
Proof. unfold rect1. rewrite repeat_length. apply Nat.eqb_refl. Qed.

Lemma rect2_repeat {A} (x : A) (n m : nat) : rect2 n m (repeat (repeat x m) n) = true.
Proof.
  unfold rect2. rewrite repeat_length, Nat.eqb_refl. simpl.
  apply forallb_repeat, rect1_repeat.
Qed.

Lemma rect3_repeat {A} (x : A) (n m k : nat) :
  rect3 n m k (repeat (repeat (repeat x k) m) n) = true.
Proof.
  unfold rect3. rewrite repeat_length, Nat.eqb_refl. simpl.
  apply forallb_repeat, rect2_repeat.
Qed.

Lemma wf4_full4 {A} (x : A) (n m k j : nat) : wf4 (full4 x n m k j).
Proof.
  unfold wf4, full4, rect4. simpl. rewrite repeat_length, Nat.eqb_refl. simpl.
  apply forallb_repeat, rect3_repeat.
Qed.

Lemma length_set_nth {B} (i : nat) (x : B) (l : list B) :
  length (set_nth i x l) = length l.
Proof.
  revert i. induction l as [|y t IH]; intros [|i]; simpl; auto.
Qed.

Lemma nth_set_nth_same {B} (i : nat) (x d : B) (l : list B) :
  i < length l -> nth i (set_nth i x l) d = x.
Proof.
  revert i. induction l as [|y t IH]; intros [|i]; simpl; intros H;
    try lia; auto. apply IH. lia.
Qed.

Lemma nth_set_nth_other {B} (i j : nat) (x d : B) (l : list B) :
  i <> j -> nth j (set_nth i x l) d = nth j l d.
Proof.
  revert i j. induction l as [|y t IH]; intros [|i] [|j]; simpl; intros H;
    try lia; auto.
Qed.

Lemma forallb_set_nth {B} (p : B -> bool) (i : nat) (x : B) (l : list B) :
  p x = true -> forallb p l = true -> forallb p (set_nth i x l) = true.
Proof.
  revert i. induction l as [|y t IH]; intros [|i] Hx Hl; simpl in *; auto;
    apply andb_true_iff in Hl; destruct Hl as [Hy Ht]; apply andb_true_iff; auto.
Qed.

Lemma rect4_set_nth {A} (n m k j i : nat) (row : list (list (list A))) l :
  rect3 m k j row = true -> rect4 n m k j l = true ->
  rect4 n m k j (set_nth i row l) = true.
Proof.
  unfold rect4. intros Hrow H. apply andb_true_iff in H. destruct H as [Hn Hall].
  rewrite length_set_nth, Hn. simpl. now apply forallb_set_nth.
Qed.

Lemma broadcast3_rect {A} (d : A) (v : ndarray3 A) (n m k : nat) row :
  broadcast3 d v n m k = Ok row -> rect3 n m k row = true.
Proof.
  unfold broadcast3. destruct (_ && _); [|discriminate].
  intros H. inversion H; subst. apply rect3_tabulate3.
Qed.

Lemma setitem4_shape {A} (d : A) (a a' : ndarray4 A) (i : nat) (v : ndarray3 A) :
  setitem4 d a i v = Ok a' -> shape4 a' = shape4 a.
Proof.
  unfold setitem4. destruct (i <? dim4_0 a); [|discriminate].
  intros H. apply bindR_Ok_inv in H. destruct H as [row [_ H]].
  inversion H; subst. reflexivity.
Qed.

Lemma setitem4_wf {A} (d : A) (a a' : ndarray4 A) (i : nat) (v : ndarray3 A) :
  wf4 a -> setitem4 d a i v = Ok a' -> wf4 a'.
Proof.
  unfold setitem4, wf4. intros Hwf. destruct (i <? dim4_0 a); [|discriminate].
  intros H. apply bindR_Ok_inv in H. destruct H as [row [Hrow H]].
  inversion H; subst. simpl. apply rect4_set_nth; [|exact Hwf].
  eapply broadcast3_rect; eauto.
Qed.

(** * Facts about [epoching] *)

Section EpochingFacts.
Variable E : Externals.
Local Abbreviation F := (scalar E).

(** What a returning run of the loading block went through: the events
    found, the epochs made from those that are not target trials, and
    the resampling, made exactly when [sfreq args < 1000]. *)
Lemma load_epochs_Ok (args : Args) (data_part : string) (s : nat) w epochs w' :
  load_epochs E args data_part s w = (Ok epochs, w') ->
  exists eeg_data raw0 raw events e0,
    np_load E (raw_eeg_path args data_part s) = Ok eeg_data /\
    mne_find_events E raw0 = Ok events /\
    mne_Epochs E raw
      (np_delete events (np_where_eq (map marker events) target_marker)) = Ok e0 /\
    (((sfreq args < 1000)%Z /\ epochs_resample E e0 (sfreq args) = Ok epochs /\
      w_calls w' = [CallResample (sfreq args); CallEpochs; CallPickChannels;
                    CallFindEvents] ++ w_calls w)
     \/
     ((1000 <= sfreq args)%Z /\ epochs = e0 /\
      w_calls w' = [CallEpochs; CallPickChannels; CallFindEvents] ++ w_calls w)) /\
    w_rng w' = w_rng w /\ w_heap w' = w_heap w /\
    w_dirs w' = w_dirs w /\ w_files w' = w_files w.
Proof.
  unfold load_epochs, bindM, lift, log_call, ret. intros H.
  destruct (np_load E (raw_eeg_path args data_part s)) as [eeg_data|] eqn:Hload;
    [|discriminate].
  destruct (mne_create_info E _ _ _) as [info|]; [|discriminate].
  destruct (mne_RawArray E _ info) as [raw0|]; [|discriminate].
  destruct (mne_find_events E raw0) as [events|] eqn:Hev; [|discriminate].
  destruct (mapR _ _) as [new_chans|]; [|discriminate].
  destruct (raw_pick_channels E raw0 new_chans) as [raw|]; [|discriminate].
  destruct (mne_Epochs E raw _) as [e0|] eqn:Hep; [|discriminate].
  exists eeg_data, raw0, raw, events, e0.
  split; [reflexivity|]. split; [exact Hev|]. split; [exact Hep|].
  destruct (Z.ltb_spec (sfreq args) 1000).
  - destruct (epochs_resample E e0 (sfreq args)) as [e1|] eqn:Hre; [|discriminate].
    inversion H; subst. simpl. split; [left; auto|auto].
  - inversion H; subst. simpl. split; [right; auto|auto].
Qed.
End EpochingFacts.

Lemma foldM_total {E A S} (P : S -> Prop) (body : A -> S -> M E S) (l : list A) :
  (forall x s w, In x l -> P s -> exists s' w', body x s w = (Ok s', w') /\ P s') ->
  forall s w, P s -> exists s' w', foldM body l s w = (Ok s', w') /\ P s'.
Proof.
  induction l as [|x t IH]; simpl; intros Hstep s w Hs.
  - exists s, w. split; [reflexivity|exact Hs].
  - destruct (Hstep x s w (or_introl eq_refl) Hs) as [s1 [w1 [H1 P1]]].
    destruct (IH (fun y u v Hy => Hstep y u v (or_intror Hy)) s1 w1 P1)
      as [s2 [w2 [H2 P2]]].
    exists s2, w2. split; [|exact P2]. unfold bindM. now rewrite H1.
Qed.

Lemma In_firstn {A} (n : nat) (l : list A) (x : A) : In x (firstn n l) -> In x l.
Proof.
  intros H. rewrite <- (firstn_skipn n l). apply in_or_app. now left.
Qed.

Section SortDataFacts.
Variable E : Externals.
Local Abbreviation F := (scalar E).

Lemma sort_condition_Ok (events img_cond : list Z) (data : ndarray3 F)
    (max_rep i : nat) (sd sd' : ndarray4 F) w w' :
  sort_condition E events img_cond data max_rep i sd w = (Ok sd', w') ->
  exists sel, setitem4 (f_zero E) sd i sel = Ok sd'.
Proof.
  unfold sort_condition, bindM, shuffle, lift. intros H.
  destruct (random_permutation E (w_rng w) _) as [perm g].
  destruct (take3 data _) as [sel|]; [|discriminate].
  exists sel. destruct (setitem4 _ sd i sel); inversion H; reflexivity.
Qed.

(** Whenever the sorting block returns, the tensor has one row per
    image condition and [max_rep] repetitions in each. *)
Lemma sort_data_shape (data_part : string) (epochs : EpochsObj F) w sorted img_cond w' :
  sort_data E data_part epochs w = (Ok (sorted, img_cond), w') ->
  img_cond = np_unique (map marker (ep_events epochs)) /\
  shape4 sorted = (length img_cond, max_rep_of data_part,
                   dim3_1 (ep_data epochs), dim3_2 (ep_data epochs)) /\
  wf4 sorted.
Proof.
  unfold sort_data. intros H. apply bindM_Ok_inv in H.
  destruct H as [sd [w1 [Hloop H]]]. unfold ret in H. inversion H; subst. clear H.
  split; [reflexivity|].
  set (sd0 := full4 _ _ _ _ _) in Hloop.
  assert (Hinv : shape4 sorted = shape4 sd0 /\ wf4 sorted).
  { revert Hloop. apply foldM_inv with (P := fun a => shape4 a = shape4 sd0 /\ wf4 a).
    - intros i a v a' v' _ [Hsh Hwf] Hstep.
      apply sort_condition_Ok in Hstep. destruct Hstep as [sel Hset].
      split; [rewrite <- Hsh; eapply setitem4_shape; eauto
             |eapply setitem4_wf; eauto].
    - split; [reflexivity|apply wf4_full4]. }
  destruct Hinv as [Hsh Hwf]. split; [exact Hsh|exact Hwf].
Qed.


(** The sorting block returns when every image condition has at least
    [max_rep] epochs. *)
Lemma sort_data_returns (data_part : string) (epochs : EpochsObj F) w :
  (forall g n, Permutation (fst (random_permutation E g n)) (seq 0 n)) ->
  dim3_0 (ep_data epochs) = length (ep_events epochs) ->
  (forall c, In c (map marker (ep_events epochs)) ->
             max_rep_of data_part <= count_occ Z.eq_dec (map marker (ep_events epochs)) c) ->
  exists sorted w',
    sort_data E data_part epochs w
    = (Ok (sorted, np_unique (map marker (ep_events epochs))), w').
Proof.
  intros Hperm Hlen Hcount. unfold sort_data.
  set (events := map marker (ep_events epochs)).
  set (img_cond := np_unique events).
  set (cap := max_rep_of data_part).
  set (data := ep_data epochs).
  set (sd0 := full4 _ _ _ _ _).
  destruct (foldM_total
              (fun a : ndarray4 F => shape4 a = shape4 sd0)
              (sort_condition E events img_cond data cap) (seq 0 (length img_cond)))
    with (s := sd0) (w := w) as [sd [w1 [Hf _]]].
  - intros i a v Hi Ha. apply in_seq in Hi.
    assert (Hi' : i < length img_cond) by lia.
    unfold sort_condition, bindM, shuffle, lift.
    set (idx := np_where_eq events (nth i img_cond 0%Z)).
    specialize (Hperm (w_rng v) (length idx)).
    destruct (random_permutation E (w_rng v) (length idx)) as [perm g]. simpl in Hperm.
    assert (Hc : In (nth i img_cond 0%Z) events).
    { apply np_unique_In. apply nth_In. exact Hi'. }
    assert (Hsel : forall j, In j (firstn cap (map (fun j => nth j idx 0) perm)) ->
                             j < dim3_0 data).
    { intros j Hj. apply In_firstn in Hj. apply in_map_iff in Hj.
      destruct Hj as [p [<- Hp]].
      apply (Permutation_in _ Hperm), in_seq in Hp.
      unfold data. rewrite Hlen. rewrite <- (length_map marker).
      apply (np_where_eq_lt events (nth i img_cond 0%Z)). apply nth_In.
      exact (proj2 Hp). }
    unfold take3. rewrite (proj2 (forallb_forall _ _)).
    2:{ intros j Hj. apply Nat.ltb_lt. now apply Hsel. }
    unfold setitem4. inversion Ha as [[Ha0 Ha1 Ha2 Ha3]].
    simpl in Ha0, Ha1, Ha2, Ha3. rewrite Ha0, Ha1, Ha2, Ha3.
    rewrite (proj2 (Nat.ltb_lt _ _)) by lia.
    unfold broadcast3, bc_ok. simpl.
    rewrite length_firstn, length_map, (Permutation_length Hperm), length_seq.
    unfold idx. rewrite np_where_eq_length.
    rewrite Nat.min_l by (apply Hcount; exact Hc).
    rewrite !Nat.eqb_refl. simpl.
    eexists _, _. split; [reflexivity|]. reflexivity.
  - reflexivity.
  - unfold bindM. rewrite Hf. unfold ret. eauto.
Qed.
End SortDataFacts.

(** * Facts about broadcasting and stacking *)

Lemma tabulate_ext {A} (n : nat) (f g : nat -> A) :
  (forall i, i < n -> f i = g i) -> tabulate n f = tabulate n g.
Proof.
  intros H. unfold tabulate. apply map_ext_in. intros i Hi. apply in_seq in Hi.
  apply H. lia.
Qed.

Lemma tabulate_nth {A} (l : list A) (d : A) (n : nat) :
  length l = n -> tabulate n (fun i => nth i l d) = l.
Proof.
  intros Hn. apply (nth_ext _ _ d d).
  - now rewrite length_tabulate.
  - intros i Hi. rewrite length_tabulate in Hi.
    rewrite nth_tabulate by exact Hi. reflexivity.
Qed.

Lemma rect1_length {A} (n : nat) (l : list A) : rect1 n l = true -> length l = n.
Proof. unfold rect1. apply Nat.eqb_eq. Qed.

Lemma rect2_inv {A} (n m : nat) (l : list (list A)) :
  rect2 n m l = true ->
  length l = n /\ forall i, i < n -> rect1 m (nth i l []) = true.
Proof.
  unfold rect2. intros H. apply andb_true_iff in H. destruct H as [Hn Hall].
  apply Nat.eqb_eq in Hn. split; [exact Hn|]. intros i Hi.
  rewrite forallb_forall in Hall. apply Hall, nth_In. lia.
Qed.

Lemma rect3_inv {A} (n m k : nat) (l : list (list (list A))) :
  rect3 n m k l = true ->
  length l = n /\ forall i, i < n -> rect2 m k (nth i l []) = true.
Proof.
  unfold rect3. intros H. apply andb_true_iff in H. destruct H as [Hn Hall].
  apply Nat.eqb_eq in Hn. split; [exact Hn|]. intros i Hi.
  rewrite forallb_forall in Hall. apply Hall, nth_In. lia.
Qed.

Lemma rect4_inv {A} (n m k j : nat) (l : list (list (list (list A)))) :
  rect4 n m k j l = true ->
  length l = n /\ forall i, i < n -> rect3 m k j (nth i l []) = true.
Proof.
  unfold rect4. intros H. apply andb_true_iff in H. destruct H as [Hn Hall].
  apply Nat.eqb_eq in Hn. split; [exact Hn|]. intros i Hi.
  rewrite forallb_forall in Hall. apply Hall, nth_In. lia.
Qed.

Lemma rect3_app {A} (n n' m k : nat) (l l' : list (list (list A))) :
  rect3 n m k l = true -> rect3 n' m k l' = true -> rect3 (n + n') m k (l ++ l') = true.
Proof.
  unfold rect3. intros H H'. apply andb_true_iff in H, H'.
  destruct H as [Hn Hall], H' as [Hn' Hall']. apply Nat.eqb_eq in Hn, Hn'.
  rewrite length_app, forallb_app, Hall, Hall', Hn, Hn', Nat.eqb_refl. reflexivity.
Qed.

Lemma tabulate2_at2 {A} (d : A) (n m : nat) (l : list (list A)) :
  rect2 n m l = true ->
  tabulate n (fun i => tabulate m (fun j => at2 d l i j)) = l.
Proof.
  intros H. apply rect2_inv in H. destruct H as [Hn Hrows].
  transitivity (tabulate n (fun i => nth i l [])); [|now apply tabulate_nth].
  apply tabulate_ext. intros i Hi.
  unfold at2. apply tabulate_nth, rect1_length, Hrows, Hi.
Qed.

Lemma tabulate3_at3 {A} (d : A) (n m k : nat) (l : list (list (list A))) :
  rect3 n m k l = true ->
  tabulate n (fun i => tabulate m (fun j => tabulate k (fun x => at3 d l i j x))) = l.
Proof.
  intros H. apply rect3_inv in H. destruct H as [Hn Hrows].
  transitivity (tabulate n (fun i => nth i l [])); [|now apply tabulate_nth].
  apply tabulate_ext. intros i Hi.
  unfold at3. apply tabulate2_at2, Hrows, Hi.
Qed.

(** A well-formed source of the target's shape is assigned as it is. *)
Lemma broadcast3_same {A} (d : A) (v : ndarray3 A) :
  wf3 v -> broadcast3 d v (dim3_0 v) (dim3_1 v) (dim3_2 v) = Ok (data3 v).
Proof.
  intros Hwf. unfold broadcast3, bc_ok, bc_ix. rewrite !Nat.eqb_refl. simpl.
  f_equal. now apply tabulate3_at3.
Qed.

Lemma getitem4_Ok {A} (a : ndarray4 A) (i : nat) :
  i < dim4_0 a ->
  getitem4 a i = Ok (mk3 (dim4_1 a) (dim4_2 a) (dim4_3 a) (nth i (data4 a) [])).
Proof. intros H. unfold getitem4. now rewrite (proj2 (Nat.ltb_lt _ _) H). Qed.

Lemma getitem4_wf {A} (a : ndarray4 A) (i : nat) (r : ndarray3 A) :
  wf4 a -> getitem4 a i = Ok r -> wf3 r.
Proof.
  unfold getitem4, wf4, wf3. intros Hwf.
  destruct (Nat.ltb_spec i (dim4_0 a)) as [Hi|Hi]; [|discriminate].
  intros H. inversion H; subst. simpl. apply rect4_inv in Hwf. now apply Hwf.
Qed.

Lemma firstn_S_nth {A} (d : A) (l : list A) (n : nat) :
  n < length l -> firstn (S n) l = firstn n l ++ [nth n l d].
Proof.
  revert n. induction l as [|x t IH]; intros n Hn; simpl in Hn; [lia|].
  destruct n as [|n]; [reflexivity|].
  change (firstn (S (S n)) (x :: t)) with (x :: firstn (S n) t).
  rewrite IH by lia. reflexivity.
Qed.

Section MergeFacts.
Variable E : Externals.
Local Abbreviation F := (scalar E).

Lemma gather_prefix (white_data : ndarray4 F) (idx : list nat) od (n : nat) :
  (forall j, In j idx -> j < dim4_0 white_data) ->
  n <= length idx ->
  foldR (gather_step E white_data idx) (seq 0 n) od
  = Ok (match n with 0 => od | _ => Some (stacked E white_data (firstn n idx)) end).
Proof.
  intros Hidx. induction n as [|n IH]; intros Hn; [reflexivity|].
  rewrite seq_S, foldR_app, IH by lia.
  assert (Hj : nth n idx 0 < dim4_0 white_data) by (apply Hidx, nth_In; lia).
  cbn [bindR foldR Nat.add]. unfold gather_step.
  rewrite (firstn_S_nth 0) by lia.
  destruct n as [|n].
  - cbn [Nat.eqb firstn app]. rewrite (getitem4_Ok _ _ Hj). cbn [bindR].
    unfold stacked. cbn [map concat length].
    rewrite app_nil_r, Nat.mul_1_l. reflexivity.
  - cbn [Nat.eqb]. rewrite (getitem4_Ok _ _ Hj). cbn [bindR].
    unfold np_append3_axis0, stacked. cbn [dim3_0 dim3_1 dim3_2 data3].
    rewrite !Nat.eqb_refl. cbn [andb bindR].
    rewrite map_app, concat_app, length_app. cbn [map concat length].
    rewrite app_nil_r.
    f_equal. f_equal. f_equal. lia.
Qed.

Lemma gather_spec (white_data : ndarray4 F) (idx : list nat) od :
  (forall j, In j idx -> j < dim4_0 white_data) ->
  gather E white_data idx od
  = Ok (match idx with [] => od | _ => Some (stacked E white_data idx) end).
Proof.
  intros Hidx. unfold gather. rewrite gather_prefix by auto.
  rewrite firstn_all. destruct idx; reflexivity.
Qed.
End MergeFacts.

Lemma foldR_total {A S} (P : S -> Prop) (body : A -> S -> result S) (l : list A) :
  (forall x s, In x l -> P s -> exists s', body x s = Ok s' /\ P s') ->
  forall s, P s -> exists s', foldR body l s = Ok s' /\ P s'.
Proof.
  induction l as [|x t IH]; simpl; intros Hstep s Hs.
  - eauto.
  - destruct (Hstep x s (or_introl eq_refl) Hs) as [s1 [H1 P1]].
    destruct (IH (fun y u Hy => Hstep y u (or_intror Hy)) s1 P1) as [s2 [H2 P2]].
    exists s2. rewrite H1. simpl. auto.
Qed.

Section MergeTrainFacts.
Variable E : Externals.
Local Abbreviation F := (scalar E).

Lemma stacked_wf (white_data : ndarray4 F) (idx : list nat) :
  wf4 white_data -> (forall j, In j idx -> j < dim4_0 white_data) ->
  wf3 (stacked E white_data idx).
Proof.
  unfold wf4, wf3, stacked. simpl. intros Hwf Hidx.
  apply rect4_inv in Hwf. destruct Hwf as [_ Hrows].
  induction idx as [|j t IH]; [reflexivity|].
  simpl. apply rect3_app.
  - apply Hrows, Hidx. now left.
  - apply IH. intros k Hk. apply Hidx. now right.
Qed.

(** One pass of the loop over [i]: what was gathered, what was assigned. *)
Lemma merge_condition_Ok (white_data : ndarray4 F) (img_cond : list Z) (i : nat)
    mt od mt' od' :
  merge_condition E white_data img_cond i (mt, od) = Ok (mt', od') ->
  exists o row,
    gather E white_data (np_where_eq img_cond (Z.of_nat (i + 1))) od = Ok (Some o) /\
    od' = Some o /\ i < dim4_0 mt /\
    broadcast3 (f_zero E) o (dim4_1 mt) (dim4_2 mt) (dim4_3 mt) = Ok row /\
    mt' = mk4 (dim4_0 mt) (dim4_1 mt) (dim4_2 mt) (dim4_3 mt) (set_nth i row (data4 mt)).
Proof.
  unfold merge_condition. intros H.
  apply bindR_Ok_inv in H. destruct H as [[o|] [Hg H]]; [|discriminate].
  apply bindR_Ok_inv in H. destruct H as [m [Hset H]]. inversion H; subst.
  unfold setitem4 in Hset. destruct (Nat.ltb_spec i (dim4_0 mt)) as [Hi|Hi]; [|discriminate].
  apply bindR_Ok_inv in Hset. destruct Hset as [row [Hrow Hset]]. inversion Hset; subst.
  exists o, row. auto.
Qed.

Lemma merge_condition_inv white_data img_cond i mt0 mt od mt' od' :
  merged_inv E mt0 mt ->
  merge_condition E white_data img_cond i (mt, od) = Ok (mt', od') ->
  merged_inv E mt0 mt'.
Proof.
  intros [Hsh Hlen] H. apply merge_condition_Ok in H.
  destruct H as [o [row [_ [_ [_ [_ ->]]]]]]. split.
  - rewrite <- Hsh. reflexivity.
  - simpl. now rewrite length_set_nth.
Qed.

(** Rows outside the positions visited are not touched. *)
Lemma merge_loop_frame white_data img_cond (l : list nat) mt0 mt od mt' od' (j : nat) :
  ~ In j l -> merged_inv E mt0 mt ->
  foldR (merge_condition E white_data img_cond) l (mt, od) = Ok (mt', od') ->
  merged_inv E mt0 mt' /\ nth j (data4 mt') [] = nth j (data4 mt) [].
Proof.
  intros Hj Hinv H.
  apply (foldR_inv (fun s => merged_inv E mt0 (fst s) /\
                             nth j (data4 (fst s)) [] = nth j (data4 mt) [])
           (merge_condition E white_data img_cond) l) with (s := (mt, od)) (s' := (mt', od'));
    [|simpl; auto|exact H].
  intros i [m o] [m' o'] Hi [Hm Hrow] Hstep. simpl in *. split.
  - eapply merge_condition_inv; eauto.
  - apply merge_condition_Ok in Hstep.
    destruct Hstep as [o1 [row [_ [_ [_ [_ ->]]]]]]. simpl.
    rewrite nth_set_nth_other; [exact Hrow|]. intros ->. contradiction.
Qed.

Lemma foldR_app_Ok {A S} (body : A -> S -> result S) (l1 l2 : list A) (s s' : S) :
  foldR body (l1 ++ l2) s = Ok s' ->
  exists s1, foldR body l1 s = Ok s1 /\ foldR body l2 s1 = Ok s'.
Proof. rewrite foldR_app. apply bindR_Ok_inv. Qed.

(** What row [i] holds when the loop returns: the value gathered when
    [i] was visited, broadcast to a row. *)
Lemma merge_loop_row white_data img_cond (n i : nat) mt0 od0 mt' od' :
  i < n -> merged_inv E mt0 mt0 ->
  foldR (merge_condition E white_data img_cond) (seq 0 n) (mt0, od0) = Ok (mt', od') ->
  exists mt od o,
    foldR (merge_condition E white_data img_cond) (seq 0 i) (mt0, od0) = Ok (mt, od) /\
    gather E white_data (np_where_eq img_cond (Z.of_nat (i + 1))) od = Ok (Some o) /\
    i < dim4_0 mt0 /\
    broadcast3 (f_zero E) o (dim4_1 mt0) (dim4_2 mt0) (dim4_3 mt0)
    = Ok (nth i (data4 mt') []) /\
    foldR (merge_condition E white_data img_cond) (seq 0 (S i)) (mt0, od0)
    = Ok (mk4 (dim4_0 mt0) (dim4_1 mt0) (dim4_2 mt0) (dim4_3 mt0)
            (set_nth i (nth i (data4 mt') []) (data4 mt)), Some o) /\
    merged_inv E mt0 mt'.
Proof.
  intros Hi Hinv0 H.
  replace n with (i + (1 + (n - S i))) in H by lia.
  rewrite !seq_app in H. simpl seq in H.
  apply foldR_app_Ok in H. destruct H as [[mt od] [Ha H]].
  apply foldR_app_Ok in H. destruct H as [[mt1 od1] [Hb Hc]].
  cbn [foldR] in Hb. apply bindR_Ok_inv in Hb. destruct Hb as [s1 [Hb Heq]].
  inversion Heq; subst s1. clear Heq.
  assert (Hinv : merged_inv E mt0 mt).
  { eapply merge_loop_frame with (j := n); [|exact Hinv0|exact Ha].
    rewrite in_seq. lia. }
  assert (Hinv1 : merged_inv E mt0 mt1) by (eapply merge_condition_inv; eauto).
  apply merge_condition_Ok in Hb.
  destruct Hb as [o [row [Hg [-> [Hlt [Hbc ->]]]]]].
  destruct Hinv as [Hsh Hlen]. inversion Hsh as [[H0 H1 H2 H3]].
  rewrite H0, H1, H2, H3 in *.
  assert (Hni : ~ In i (seq (i + 1) (n - S i))) by (rewrite in_seq; lia).
  destruct (merge_loop_frame white_data img_cond _ _ _ _ _ _ i Hni Hinv1 Hc)
    as [Hinv' Hrow].
  simpl in Hrow. rewrite nth_set_nth_same in Hrow by lia.
  exists mt, od, o. rewrite Hrow.
  split; [exact Ha|]. split; [exact Hg|]. split; [exact Hlt|].
  split; [exact Hbc|]. split; [|exact Hinv'].
  rewrite seq_S, foldR_app, Ha. cbn [bindR foldR Nat.add]. unfold merge_condition.
  rewrite Hg. cbn [bindR]. unfold setitem4. rewrite H0, H1, H2, H3.
  rewrite (proj2 (Nat.ltb_lt _ _) Hlt), Hbc. reflexivity.
Qed.

Lemma merged_inv_full4 (n m k j : nat) :
  merged_inv E (full4 (f_zero E) n m k j) (full4 (f_zero E) n m k j).
Proof. split; [reflexivity|]. simpl. apply repeat_length. Qed.

(** Whenever the merge returns, the merged tensor has one row per distinct
    label and twice the repetitions of [white_data]. *)
Lemma merge_train_shape (white_data : ndarray4 F) (img_cond : list Z) merged :
  merge_train E white_data img_cond = Ok merged ->
  shape4 merged = (length (np_unique img_cond), dim4_1 white_data * 2,
                   dim4_2 white_data, dim4_3 white_data) /\
  wf4 merged.
Proof.
  unfold merge_train. intros H. apply bindR_Ok_inv in H.
  destruct H as [[mt od] [Hloop H]]. inversion H; subst. clear H. simpl.
  set (mt0 := full4 _ _ _ _ _) in Hloop.
  apply (foldR_inv (fun s => shape4 (fst s) = shape4 mt0 /\ wf4 (fst s))
           (merge_condition E white_data img_cond)
           (seq 0 (length (np_unique img_cond))))
    with (s := (mt0, None)) (s' := (merged, od)); [| |exact Hloop].
  - intros i [m o] [m' o'] _ [Hsh Hwf] Hstep. simpl in *.
    unfold merge_condition in Hstep. apply bindR_Ok_inv in Hstep.
    destruct Hstep as [[o1|] [_ Hstep]]; [|discriminate].
    apply bindR_Ok_inv in Hstep. destruct Hstep as [m1 [Hset Heq]].
    inversion Heq; subst. split.
    + rewrite <- Hsh. eapply setitem4_shape; eauto.
    + eapply setitem4_wf; eauto.
  - split; [reflexivity|apply wf4_full4].
Qed.

(** The first pass looks up label 1: when no row carries it, nothing has
    been gathered yet and the assignment finds [ordered_data] unbound. *)
Lemma merge_train_first_label_absent (white_data : ndarray4 F) (img_cond : list Z) :
  0 < length (np_unique img_cond) -> ~ In 1%Z img_cond ->
  merge_train E white_data img_cond = Raise UnboundLocalError.
Proof.
  intros Hn H1. unfold merge_train.
  destruct (length (np_unique img_cond)) as [|n]; [lia|].
  cbn [seq foldR]. unfold merge_condition at 1.
  change (Z.of_nat (0 + 1)) with 1%Z. rewrite (np_where_eq_nil _ _ H1).
  reflexivity.
Qed.

(** A label of [1..C] that no row carries leaves [ordered_data] as the
    previous pass left it: its row is a copy of the row above. *)
Lemma merge_train_stale_row (white_data : ndarray4 F) (img_cond : list Z) merged (i : nat) :
  merge_train E white_data img_cond = Ok merged ->
  0 < i < length (np_unique img_cond) ->
  ~ In (Z.of_nat (i + 1)) img_cond ->
  nth i (data4 merged) [] = nth (i - 1) (data4 merged) [].
Proof.
  unfold merge_train. intros H Hi Habs. apply bindR_Ok_inv in H.
  destruct H as [[mt od] [Hloop H]]. inversion H; subst. clear H. simpl.
  set (n := length (np_unique img_cond)) in *.
  set (mt0 := full4 _ _ _ _ _) in Hloop.
  assert (Hinv0 : merged_inv E mt0 mt0) by apply merged_inv_full4.
  destruct (merge_loop_row white_data img_cond n i mt0 None merged od)
    as [mt1 [od1 [o1 [Hpre1 [Hg1 [_ [Hbc1 _]]]]]]]; [lia|exact Hinv0|exact Hloop|].
  destruct (merge_loop_row white_data img_cond n (i - 1) mt0 None merged od)
    as [mt2 [od2 [o2 [_ [_ [_ [Hbc2 [Hpre2 _]]]]]]]]; [lia|exact Hinv0|exact Hloop|].
  replace (S (i - 1)) with i in Hpre2 by lia.
  rewrite Hpre1 in Hpre2. inversion Hpre2; subst od1.
  rewrite (np_where_eq_nil _ _ Habs) in Hg1.
  rewrite gather_spec in Hg1 by (intros j []).
  inversion Hg1; subst o1. congruence.
Qed.

(** When every label of [1..C] is carried by exactly two rows, the merge
    returns, and row [c - 1] holds those two rows one after the other. *)
Lemma merge_train_two_sessions (white_data : ndarray4 F) (img_cond : list Z) :
  wf4 white_data -> dim4_0 white_data = length img_cond ->
  (forall i, i < length (np_unique img_cond) ->
             count_occ Z.eq_dec img_cond (Z.of_nat (i + 1)) = 2) ->
  exists merged,
    merge_train E white_data img_cond = Ok merged /\
    forall i, i < length (np_unique img_cond) ->
      nth i (data4 merged) []
      = data3 (stacked E white_data (np_where_eq img_cond (Z.of_nat (i + 1)))).
Proof.
  intros Hwf Hlen Hcount. unfold merge_train.
  set (n := length (np_unique img_cond)) in *.
  set (mt0 := full4 _ _ _ _ _).
  assert (Hinv0 : merged_inv E mt0 mt0) by apply merged_inv_full4.
  assert (Hidx : forall c j, In j (np_where_eq img_cond c) -> j < dim4_0 white_data).
  { intros c j Hj. rewrite Hlen. eapply np_where_eq_lt; eauto. }
  assert (Hgather : forall i od, i < n ->
             exists o, gather E white_data (np_where_eq img_cond (Z.of_nat (i + 1))) od
                       = Ok (Some o) /\
                       o = stacked E white_data (np_where_eq img_cond (Z.of_nat (i + 1))) /\
                       dim3_0 o = dim4_1 white_data * 2).
  { intros i od Hi. rewrite gather_spec by apply Hidx.
    specialize (Hcount i Hi). rewrite <- np_where_eq_length in Hcount.
    destruct (np_where_eq img_cond (Z.of_nat (i + 1))) as [|j1 t] eqn:Hw;
      [discriminate|].
    eexists. split; [reflexivity|]. split; [reflexivity|].
    unfold stacked. cbn [dim3_0]. rewrite Hcount. lia. }
  destruct (foldR_total (fun s => merged_inv E mt0 (fst s))
              (merge_condition E white_data img_cond) (seq 0 n))
    with (s := (mt0, @None (ndarray3 F))) as [[merged od] [Hloop Hinv]].
  - intros i [mt od] Hi [Hsh Hl]. apply in_seq in Hi. simpl in Hsh, Hl.
    unfold merge_condition.
    destruct (Hgather i od) as [o [Hg [Ho Hd]]]; [lia|]. rewrite Hg. cbn [bindR].
    unfold setitem4. inversion Hsh as [[H0 H1 H2 H3]]. rewrite H0, H1, H2, H3.
    unfold mt0 at 1. cbn [full4 dim4_0]. rewrite (proj2 (Nat.ltb_lt _ _)) by lia.
    unfold mt0. cbn [full4 dim4_1 dim4_2 dim4_3].
    rewrite <- Hd. replace (dim4_2 white_data) with (dim3_1 o) by (subst o; reflexivity).
    replace (dim4_3 white_data) with (dim3_2 o) by (subst o; reflexivity).
    rewrite broadcast3_same by (subst o; apply stacked_wf; [exact Hwf|apply Hidx]).
    cbn [bindR]. eexists. split; [reflexivity|].
    split; [reflexivity|]. simpl. rewrite length_set_nth. exact Hl.
  - exact Hinv0.
  - exists merged. rewrite Hloop. split; [reflexivity|]. intros i Hi.
    destruct (merge_loop_row white_data img_cond n i mt0 None merged od)
      as [mt1 [od1 [o1 [_ [Hg1 [_ [Hbc1 _]]]]]]]; [exact Hi|exact Hinv0|exact Hloop|].
    destruct (Hgather i od1 Hi) as [o [Hg [Ho Hd]]].
    rewrite Hg in Hg1. inversion Hg1; subst o1.
    unfold mt0 in Hbc1. cbn [full4 dim4_1 dim4_2 dim4_3] in Hbc1.
    rewrite <- Hd in Hbc1.
    replace (dim4_2 white_data) with (dim3_1 o) in Hbc1 by (subst o; reflexivity).
    replace (dim4_3 white_data) with (dim3_2 o) in Hbc1 by (subst o; reflexivity).
    rewrite broadcast3_same in Hbc1
      by (subst o; apply stacked_wf; [exact Hwf|apply Hidx]).
    inversion Hbc1 as [Hrow]. subst o.
    first [reflexivity | symmetry; exact Hrow | exact Hrow].
Qed.
End MergeTrainFacts.

(** * Which exceptions the merge can raise *)

Lemma foldR_Raise_inv {A S} (body : A -> S -> result S) (l : list A) (s : S) (e : exn) :
  foldR body l s = Raise e -> exists x s1, In x l /\ body x s1 = Raise e.
Proof.
  revert s. induction l as [|x t IH]; simpl; intros s H; [discriminate|].
  destruct (body x s) as [s1|e1] eqn:Hb; simpl in H.
  - destruct (IH _ H) as [y [s2 [Hy H2]]]. eauto.
  - inversion H; subst. eauto.
Qed.

Lemma bindR_Raise_inv {A B} (r : result A) (k : A -> result B) (e : exn) :
  bindR r k = Raise e -> r = Raise e \/ exists a, r = Ok a /\ k a = Raise e.
Proof.
  destruct r as [a|e1]; simpl; intros H; [right; eauto|left].
  inversion H; reflexivity.
Qed.

Section MergeErrors.
Variable E : Externals.
Local Abbreviation F := (scalar E).

Lemma merge_train_raises (white_data : ndarray4 F) (img_cond : list Z) (e : exn) :
  merge_train E white_data img_cond = Raise e ->
  e = UnboundLocalError \/ e = ValueError \/ e = IndexError.
Proof.
  unfold merge_train. intros H. apply bindR_Raise_inv in H.
  destruct H as [H|[a [_ H]]]; [|discriminate].
  apply foldR_Raise_inv in H. destruct H as [i [[mt od] [_ H]]].
  unfold merge_condition in H. apply bindR_Raise_inv in H.
  destruct H as [H|[o [_ H]]].
  - unfold gather in H. apply foldR_Raise_inv in H.
    destruct H as [r [o [_ H]]]. unfold gather_step in H.
    assert (Hget : forall j e', getitem4 white_data j = Raise e' -> e' = IndexError).
    { intros j e'. unfold getitem4. destruct (_ <? _); intros Hj; inversion Hj; auto. }
    destruct (r =? 0).
    + apply bindR_Raise_inv in H. destruct H as [H|[row [_ H]]]; [|discriminate].
      apply Hget in H. auto.
    + destruct o as [o|]; [|inversion H; auto].
      apply bindR_Raise_inv in H. destruct H as [H|[row [_ H]]].
      * apply Hget in H. auto.
      * apply bindR_Raise_inv in H. destruct H as [H|[a [_ H]]]; [|discriminate].
        unfold np_append3_axis0 in H. destruct (_ && _); inversion H; auto.
  - destruct o as [o|]; [|inversion H; auto].
    apply bindR_Raise_inv in H. destruct H as [H|[a [_ H]]]; [|discriminate].
    unfold setitem4 in H. destruct (_ <? _); [|inversion H; auto].
    apply bindR_Raise_inv in H. destruct H as [H|[a [_ H]]]; [|discriminate].
    unfold broadcast3 in H. destruct (_ && _); inversion H; auto.
Qed.
End MergeErrors.

(** * Labels that are not [1..C] *)

Lemma strictly_sorted_ext (l1 l2 : list Z) :
  StronglySorted Z.lt l1 -> StronglySorted Z.lt l2 ->
  (forall x, In x l1 <-> In x l2) -> l1 = l2.
Proof.
  intros H1. revert l2. induction H1 as [|x1 t1 Ht1 IH Hall1]; intros l2 H2 Hiff.
  - destruct l2 as [|x2 t2]; [reflexivity|]. exfalso. apply (Hiff x2). now left.
  - destruct H2 as [|x2 t2 Ht2 Hall2].
    + exfalso. apply (Hiff x1). now left.
    + rewrite Forall_forall in Hall1, Hall2.
      assert (Hx : x1 = x2).
      { destruct (proj1 (Hiff x1) (or_introl eq_refl)) as [->|Hin1]; [reflexivity|].
        destruct (proj2 (Hiff x2) (or_introl eq_refl)) as [->|Hin2]; [reflexivity|].
        specialize (Hall1 _ Hin2). specialize (Hall2 _ Hin1). lia. }
      subst x2. f_equal. apply IH; [exact Ht2|]. intros x. split; intros Hin.
      * destruct (proj1 (Hiff x) (or_intror Hin)) as [->|H]; [|exact H].
        specialize (Hall1 _ Hin). lia.
      * destruct (proj2 (Hiff x) (or_intror Hin)) as [->|H]; [|exact H].
        specialize (Hall2 _ Hin). lia.
Qed.

(** The labels [1..n] in ascending order. *)
Lemma dense_sorted (a n : nat) : StronglySorted Z.lt (map Z.of_nat (seq a n)).
Proof.
  revert a. induction n as [|n IH]; intros a; simpl; constructor; [apply IH|].
  apply Forall_forall. intros x Hx. apply in_map_iff in Hx.
  destruct Hx as [k [<- Hk]]. apply in_seq in Hk. lia.
Qed.

Lemma existsb_false_forall {A} (f : A -> bool) (l : list A) :
  existsb f l = false -> forall x, In x l -> f x = false.
Proof.
  intros H x Hx. destruct (f x) eqn:Hf; [|reflexivity].
  rewrite <- H. symmetry. apply existsb_exists. eauto.
Qed.

(** Labels that are not exactly [1..C] miss one of [1..C]. *)
Lemma not_dense_missing (img_cond : list Z) :
  np_unique img_cond <> map Z.of_nat (seq 1 (length (np_unique img_cond))) ->
  exists i, i < length (np_unique img_cond) /\ ~ In (Z.of_nat (i + 1)) img_cond.
Proof.
  set (n := length (np_unique img_cond)). intros Hne.
  destruct (existsb (fun i => negb (existsb (Z.eqb (Z.of_nat (i + 1))) img_cond)) (seq 0 n))
    eqn:Hex.
  - apply existsb_exists in Hex. destruct Hex as [i [Hi Hneg]].
    apply in_seq in Hi. exists i. split; [lia|].
    intros Hin. apply negb_true_iff in Hneg.
    assert (Ht : existsb (Z.eqb (Z.of_nat (i + 1))) img_cond = true).
    { apply existsb_exists. exists (Z.of_nat (i + 1)). split; [exact Hin|apply Z.eqb_refl]. }
    congruence.
  - exfalso. apply Hne.
    assert (Hall : forall i, i < n -> In (Z.of_nat (i + 1)) img_cond).
    { intros i Hi.
      assert (Hf := existsb_false_forall _ _ Hex i).
      destruct (existsb (Z.eqb (Z.of_nat (i + 1))) img_cond) eqn:Hb.
      - apply existsb_exists in Hb. destruct Hb as [x [Hx Heq]].
        apply Z.eqb_eq in Heq. now subst x.
      - cbv beta in Hf. rewrite Hb in Hf. simpl in Hf.
        assert (true = false) by (apply Hf, in_seq; lia). discriminate. }
    assert (Hincl : incl (map Z.of_nat (seq 1 n)) (np_unique img_cond)).
    { intros x Hx. apply in_map_iff in Hx. destruct Hx as [k [<- Hk]].
      apply in_seq in Hk. apply np_unique_In.
      replace k with ((k - 1) + 1) by lia. apply Hall. lia. }
    apply strictly_sorted_ext; [apply np_unique_sorted|apply dense_sorted|].
    intros x. split; [|apply Hincl].
    apply (NoDup_length_incl (l := map Z.of_nat (seq 1 n))); [| |exact Hincl].
    + apply strictly_sorted_NoDup, dense_sorted.
    + rewrite length_map, length_seq. reflexivity.
Qed.

(** * Facts about the concatenation of the training sessions *)

Lemma rect4_app {A} (n n' m k j : nat) (l l' : list (list (list (list A)))) :
  rect4 n m k j l = true -> rect4 n' m k j l' = true ->
  rect4 (n + n') m k j (l ++ l') = true.
Proof.
  unfold rect4. intros H H'. apply andb_true_iff in H, H'.
  destruct H as [Hn Hall], H' as [Hn' Hall']. apply Nat.eqb_eq in Hn, Hn'.
  rewrite length_app, forallb_app, Hall, Hall', Hn, Hn', Nat.eqb_refl. reflexivity.
Qed.

Lemma py_index_Ok {A} (l : list A) (i : nat) (x : A) :
  py_index l i = Ok x <-> nth_error l i = Some x.
Proof.
  unfold py_index. destruct (nth_error l i); split; intros H; inversion H; reflexivity.
Qed.

Lemma firstn_S_nth_error {A} (l : list A) (n : nat) (x : A) :
  nth_error l n = Some x -> firstn (S n) l = firstn n l ++ [x].
Proof.
  revert n. induction l as [|y t IH]; intros [|n] H; simpl in H; try discriminate.
  - inversion H. reflexivity.
  - change (firstn (S (S n)) (y :: t)) with (y :: firstn (S n) t).
    rewrite (IH _ H). reflexivity.
Qed.

Section ConcatTrainFacts.
Variable E : Externals.
Local Abbreviation F := (scalar E).

Variable whitened_train : list (ndarray4 F).
Variable img_conditions_train : list (list Z).

(** Each session's tensor is well formed and has one row per label. *)
Hypothesis sessions_wf : Forall wf4 whitened_train.
Hypothesis sessions_labelled :
  forall s t c, nth_error whitened_train s = Some t ->
                nth_error img_conditions_train s = Some c ->
                dim4_0 t = length c.

(** What the loop has built after [n] sessions. *)
Lemma concat_train_prefix (n : nat) vars :
  foldR (concat_train_step E whitened_train img_conditions_train) (seq 0 n) None = Ok vars ->
  match vars with
  | None => n = 0
  | Some (white_data, img_cond) =>
      0 < n /\ wf4 white_data /\ dim4_0 white_data = length img_cond /\
      data4 white_data = concat (map (@data4 F) (firstn n whitened_train)) /\
      img_cond = concat (firstn n img_conditions_train) /\
      (forall t, nth_error whitened_train 0 = Some t ->
                 dim4_1 white_data = dim4_1 t)
  end.
Proof.
  revert vars. induction n as [|n IH]; intros vars H.
  - simpl in H. inversion H. reflexivity.
  - rewrite seq_S, foldR_app in H. apply bindR_Ok_inv in H.
    destruct H as [v [Hpre H]]. specialize (IH _ Hpre).
    cbn [foldR Nat.add] in H. apply bindR_Ok_inv in H. destruct H as [v' [H Hv]].
    inversion Hv; subst v'. clear Hv. unfold concat_train_step in H.
    destruct n as [|n].
    + cbn [Nat.eqb] in H.
      apply bindR_Ok_inv in H. destruct H as [x [Hx H]].
      apply bindR_Ok_inv in H. destruct H as [c [Hc H]].
      apply py_index_Ok in Hx, Hc. inversion H; subst. clear H.
      rewrite (firstn_S_nth_error _ _ _ Hx), (firstn_S_nth_error _ _ _ Hc).
      cbn [firstn app map concat]. rewrite !app_nil_r.
      split; [lia|]. split.
      { rewrite Forall_forall in sessions_wf. apply sessions_wf.
        eapply nth_error_In; eauto. }
      split; [eapply sessions_labelled; eauto|].
      split; [reflexivity|]. split; [reflexivity|].
      intros t Ht. congruence.
    + cbn [Nat.eqb] in H.
      destruct v as [[white_data img_cond]|]; [|discriminate].
      destruct IH as [_ [Hwf [Hlen [Hdata [Himg Hfirst]]]]].
      apply bindR_Ok_inv in H. destruct H as [x [Hx H]].
      apply bindR_Ok_inv in H. destruct H as [w' [Happ H]].
      apply bindR_Ok_inv in H. destruct H as [c [Hc H]].
      apply py_index_Ok in Hx, Hc. inversion H; subst vars. clear H.
      assert (Hwfx : wf4 x).
      { rewrite Forall_forall in sessions_wf. apply sessions_wf.
        eapply nth_error_In; eauto. }
      assert (Hlenx : dim4_0 x = length c) by (eapply sessions_labelled; eauto).
      unfold np_append4_axis0 in Happ.
      destruct (_ && _) eqn:Hdims; [|discriminate]. inversion Happ; subst w'. clear Happ.
      rewrite (firstn_S_nth_error _ _ _ Hx), (firstn_S_nth_error _ _ _ Hc).
      apply andb_true_iff in Hdims. destruct Hdims as [Hdims H3].
      apply andb_true_iff in Hdims. destruct Hdims as [H1 H2].
      apply Nat.eqb_eq in H1, H2, H3.
      cbn [dim4_0 dim4_1 dim4_2 dim4_3 data4]. split; [lia|]. split.
      { unfold wf4 in *. cbn [dim4_0 dim4_1 dim4_2 dim4_3 data4].
        apply rect4_app; [exact Hwf|].
        rewrite H1, H2, H3. exact Hwfx. }
      split; [rewrite length_app; lia|]. split.
      { rewrite map_app, concat_app, Hdata. cbn [map concat]. now rewrite app_nil_r. }
      split; [rewrite Himg, concat_app; cbn [concat]; now rewrite app_nil_r|exact Hfirst].
Qed.

Lemma concat_train_spec (args : Args) white_data img_cond :
  concat_train E args whitened_train img_conditions_train
  = Ok (Some (white_data, img_cond)) ->
  let n := Z.to_nat (n_ses args) in
  wf4 white_data /\ dim4_0 white_data = length img_cond /\
  data4 white_data = concat (map (@data4 F) (firstn n whitened_train)) /\
  img_cond = concat (firstn n img_conditions_train) /\
  (forall t, nth_error whitened_train 0 = Some t -> dim4_1 white_data = dim4_1 t).
Proof.
  unfold concat_train, py_range. intros H. apply concat_train_prefix in H.
  simpl. tauto.
Qed.
End ConcatTrainFacts.

(** * Facts about [mvnn] *)

Lemma foldM_app {E A S} (body : A -> S -> M E S) (l1 l2 : list A) (s : S) (w : world E) :
  foldM body (l1 ++ l2) s w = bindM (foldM body l1 s) (fun s' => foldM body l2 s') w.
Proof.
  revert s w. induction l1 as [|x t IH]; intros s w; simpl; [reflexivity|].
  unfold bindM. destruct (body x s w) as [[s1|e] w1]; [|reflexivity].
  rewrite IH. reflexivity.
Qed.

Lemma rect4_tabulate4 {A} (n m k j : nat) (f : nat -> nat -> nat -> nat -> A) :
  rect4 n m k j
    (tabulate n (fun i0 => tabulate m (fun i1 => tabulate k (fun i2 =>
       tabulate j (f i0 i1 i2))))) = true.
Proof. apply rect4_tabulate; intros. apply rect3_tabulate3. Qed.

Section MvnnFacts.
Variable E : Externals.
Local Abbreviation F := (scalar E).

(** The whitened tensor has the shape of the tensor it comes from. *)
Lemma whiten_shape (x y : ndarray4 F) (sigma_inv : ndarray2 F) :
  whiten E x sigma_inv = Ok y -> shape4 y = shape4 x /\ wf4 y.
Proof.
  unfold whiten. intros H.
  apply bindR_Ok_inv in H. destruct H as [r [_ H]].
  apply bindR_Ok_inv in H. destruct H as [z [_ H]].
  unfold reshape3_to4 in H. destruct (_ =? _); [|discriminate].
  inversion H; subst. split; [reflexivity|].
  unfold wf4. simpl. apply rect4_tabulate4.
Qed.

(** Whitening returns for a tensor with channels and time points and a
    square matrix over its channels. *)
Lemma whiten_returns (x : ndarray4 F) (sigma_inv : ndarray2 F) :
  dim4_2 x * dim4_3 x <> 0 ->
  rows2 sigma_inv = dim4_2 x -> cols2 sigma_inv = dim4_2 x ->
  exists y, whiten E x sigma_inv = Ok y.
Proof.
  intros Hpos Hr Hc. unfold whiten, reshape4_to3.
  rewrite (proj2 (Nat.eqb_neq _ _) Hpos). unfold size4.
  replace (dim4_0 x * dim4_1 x * dim4_2 x * dim4_3 x)
    with (dim4_0 x * dim4_1 x * (dim4_2 x * dim4_3 x)) by lia.
  rewrite Nat.Div0.mod_mul, Nat.eqb_refl, Nat.div_mul by exact Hpos.
  cbn [orb negb bindR]. unfold matmul3, swapaxes12. cbn [dim3_0 dim3_1 dim3_2].
  rewrite Hr, Nat.eqb_refl. cbn [bindR]. unfold reshape3_to4, size3.
  cbn [dim3_0 dim3_1 dim3_2]. rewrite Hc.
  rewrite (proj2 (Nat.eqb_eq _ _)) by lia. eauto.
Qed.

Lemma same_but_mem_refl (w : world E) : same_but_mem E w w.
Proof. repeat split. Qed.

Lemma same_but_mem_trans (w1 w2 w3 : world E) :
  same_but_mem E w1 w2 -> same_but_mem E w2 w3 -> same_but_mem E w1 w3.
Proof.
  intros (H1 & H2 & H3 & H4 & H5 & H6) (G1 & G2 & G3 & G4 & G5 & G6).
  repeat split; congruence.
Qed.


(** [np.empty] returns a buffer of the shape asked for and touches the
    memory only. *)
Lemma np_empty3_run (n m k : nat) (w : world E) :
  exists a w',
    np_empty3 E n m k w = (Ok a, w') /\
    dim3_0 a = n /\ dim3_1 a = m /\ dim3_2 a = k /\ length (data3 a) = n /\
    same_but_mem E w w'.
Proof.
  unfold np_empty3. destruct (np_empty E (w_mem w) n m k) as [cell mem].
  eexists _, _. split; [reflexivity|]. cbn [dim3_0 dim3_1 dim3_2 data3].
  rewrite length_tabulate. repeat split.
Qed.

(** The estimation of the covariance touches the memory only. *)
Lemma part_cov_world (args : Args) (session_data : list (ndarray4 F)) (ch0 p : nat)
    (sigma_part : ndarray3 F) w r w' :
  part_cov E args session_data ch0 p sigma_part w = (r, w') -> same_but_mem E w w'.
Proof.
  unfold part_cov, bindM, lift. intros H.
  destruct (py_index session_data p) as [part|e].
  2:{ inversion H; subst. apply same_but_mem_refl. }
  destruct (np_empty3_run (dim4_0 part) ch0 ch0 w) as (a & w1 & -> & _ & _ & _ & _ & Hw) in H.
  destruct (foldR _ _ a) as [sc|e]; inversion H; subst; exact Hw.
Qed.

Lemma session_sigma_inv_world (args : Args) (session_data : list (ndarray4 F)) w r w' :
  session_sigma_inv E args session_data w = (r, w') -> same_but_mem E w w'.
Proof.
  unfold session_sigma_inv. unfold bindM at 1. unfold lift at 1. intros H.
  destruct (py_index session_data 0) as [first|e].
  2:{ inversion H; subst. apply same_but_mem_refl. }
  unfold bindM at 1 in H.
  destruct (np_empty3_run (length session_data) (dim4_2 first) (dim4_2 first) w)
    as (a & w1 & Ha & _ & _ & _ & _ & Hw).
  rewrite Ha in H. unfold bindM at 1 in H.
  destruct (foldM _ _ a w1) as [[sp|e] w2] eqn:Hloop.
  - unfold lift in H. inversion H; subst.
    apply (same_but_mem_trans _ _ _ Hw).
    revert Hloop. apply (foldM_world (same_but_mem E)).
    + apply same_but_mem_refl.
    + apply same_but_mem_trans.
    + intros x sg v r0 v' _. apply part_cov_world.
  - inversion H; subst. apply (same_but_mem_trans _ _ _ Hw).
    revert Hloop. apply (foldM_world (same_but_mem E)).
    + apply same_but_mem_refl.
    + apply same_but_mem_trans.
    + intros x sg v r0 v' _. apply part_cov_world.
Qed.

(** One session: the two inputs are read, two new objects are appended
    to the store, and nothing else changes but the memory. *)
Lemma mvnn_session_Ok (args : Args) (epoched_test epoched_train : list loc) (s : nat)
    wt wtr wt' wtr' w w' :
  mvnn_session E args epoched_test epoched_train s (wt, wtr) w = (Ok (wt', wtr'), w') ->
  exists l0 l1 d0 d1 sigma_inv w0 w1,
    nth_error epoched_test s = Some l0 /\ nth_error epoched_train s = Some l1 /\
    nth_error (w_heap w) l0 = Some d0 /\ nth_error (w_heap w) l1 = Some d1 /\
    (exists v', session_sigma_inv E args [d0; d1] w = (Ok sigma_inv, v')) /\
    whiten E d0 sigma_inv = Ok w0 /\ whiten E d1 sigma_inv = Ok w1 /\
    w_heap w' = w_heap w ++ [w0; w1] /\
    wt' = wt ++ [length (w_heap w)] /\ wtr' = wtr ++ [S (length (w_heap w))] /\
    w_rng w' = w_rng w /\ w_dirs w' = w_dirs w /\ w_files w' = w_files w /\
    w_calls w' = w_calls w.
Proof.
  unfold mvnn_session, bindM, lift, deref, alloc, ret. intros H.
  destruct (py_index epoched_test s) as [l0|] eqn:H0; [|discriminate].
  destruct (py_index epoched_train s) as [l1|] eqn:H1; [|discriminate].
  apply py_index_Ok in H0, H1.
  destruct (nth_error (w_heap w) l0) as [d0|] eqn:Hd0; [|discriminate].
  destruct (nth_error (w_heap w) l1) as [d1|] eqn:Hd1; [|discriminate].
  destruct (session_sigma_inv E args [d0; d1] w) as [[sigma_inv|] v] eqn:Hs; [|discriminate].
  apply session_sigma_inv_world in Hs as Hv.
  destruct Hv as (Hv1 & Hv2 & Hv3 & Hv4 & Hv5 & Hv6).
  destruct (whiten E d0 sigma_inv) as [w0|] eqn:Hw0; [|discriminate].
  cbn [w_heap] in H.
  destruct (whiten E d1 sigma_inv) as [w1|] eqn:Hw1; [|discriminate].
  inversion H; subst. cbn [w_heap w_rng w_dirs w_files w_calls].
  exists l0, l1, d0, d1, sigma_inv, w0, w1.
  rewrite <- app_assoc, length_app, <- Hv2. cbn [length app].
  replace (length (w_heap w) + 1) with (S (length (w_heap w))) by lia.
  repeat split; eauto.
Qed.

Lemma heap_extends_lookup (w w' : world E) (l : loc) a :
  heap_extends E w w' -> nth_error (w_heap w) l = Some a ->
  nth_error (w_heap w') l = Some a.
Proof.
  intros [fresh ->] H. rewrite nth_error_app1; [exact H|].
  apply nth_error_Some. congruence.
Qed.

Lemma mvnn_prefix (args : Args) (epoched_test epoched_train : list loc) (n : nat)
    w wt wtr w' :
  foldM (mvnn_session E args epoched_test epoched_train) (seq 0 n) ([], []) w
  = (Ok (wt, wtr), w') ->
  heap_extends E w w' /\ length wt = n /\ length wtr = n /\
  (forall s, s < n -> whitened_like E w w' epoched_test wt s /\
                      whitened_like E w w' epoched_train wtr s) /\
  w_rng w' = w_rng w /\ w_dirs w' = w_dirs w /\ w_files w' = w_files w /\
  w_calls w' = w_calls w.
Proof.
  revert wt wtr w'. induction n as [|n IH]; intros wt wtr w' H.
  - simpl in H. unfold ret in H. inversion H; subst.
    split; [exists []; now rewrite app_nil_r|]. repeat split; auto; lia.
  - rewrite seq_S, foldM_app in H. apply bindM_Ok_inv in H.
    destruct H as [[wt1 wtr1] [w1 [Hpre H]]].
    destruct (IH _ _ _ Hpre) as [Hext [Hl1 [Hl2 [Hold [Hr [Hd [Hf Hc]]]]]]].
    cbn [foldM Nat.add] in H. apply bindM_Ok_inv in H.
    destruct H as [[wt2 wtr2] [w2 [Hstep H]]]. unfold ret in H. inversion H; subst.
    clear H. apply mvnn_session_Ok in Hstep.
    destruct Hstep as (l0 & l1 & d0 & d1 & sg & o0 & o1 & Hi0 & Hi1 & Hd0 & Hd1 & _
                       & Hw0 & Hw1 & Hheap & -> & -> & Hr' & Hd' & Hf' & Hc').
    assert (Hext1 : heap_extends E w1 w') by (now exists [o0; o1]).
    assert (Hext' : heap_extends E w w').
    { destruct Hext as [f1 Hf1]. exists (f1 ++ [o0; o1]).
      rewrite Hheap, Hf1, app_assoc. reflexivity. }
    assert (Hlen : length (w_heap w) <= length (w_heap w1)).
    { destruct Hext as [f1 Hf1]. rewrite Hf1, length_app. lia. }
    apply whiten_shape in Hw0, Hw1.
    split; [exact Hext'|]. rewrite !length_app. cbn [length].
    split; [lia|]. split; [lia|]. split; [|repeat split; congruence].
    intros s Hs. destruct (Nat.eq_dec s (length wt1)) as [->|Hne].
    + split.
      * exists l0, (length (w_heap w1)), d0, o0.
        rewrite nth_error_app2, Nat.sub_diag by lia.
        repeat split; try tauto; try lia.
        -- (eapply heap_extends_lookup; [exact Hext1|eassumption]).
        -- rewrite Hheap, nth_error_app2, Nat.sub_diag by lia. reflexivity.
      * exists l1, (S (length (w_heap w1))), d1, o1.
        rewrite nth_error_app2 by lia.
        replace (length wt1 - length wtr1) with 0 by lia.
        repeat split; try tauto; try lia.
        -- (eapply heap_extends_lookup; [exact Hext1|eassumption]).
        -- rewrite Hheap, nth_error_app2 by lia.
           replace (S (length (w_heap w1)) - length (w_heap w1)) with 1 by lia.
           reflexivity.
    + destruct (Hold s) as [Ht Htr]; [lia|]. split.
      * destruct Ht as [li [lo [a [b [H1 [H2 [H3 [H4 H5]]]]]]]].
        exists li, lo, a, b. rewrite nth_error_app1 by lia.
        repeat split; try tauto;
          (eapply heap_extends_lookup; [exact Hext1|eassumption]).
      * destruct Htr as [li [lo [a [b [H1 [H2 [H3 [H4 H5]]]]]]]].
        exists li, lo, a, b. rewrite nth_error_app1 by lia.
        repeat split; try tauto;
          (eapply heap_extends_lookup; [exact Hext1|eassumption]).
Qed.
End MvnnFacts.

(** * Facts about the small implementation of the collaborators *)

Lemma demo_permutation_perm (g : Z) (n : nat) :
  Permutation (fst (Demo.permutation g n)) (seq 0 n).
Proof.
  unfold Demo.permutation. simpl. destruct (Z.even g); [reflexivity|].
  apply Permutation_sym, Permutation_rev.
Qed.

Lemma demo_epochs_events (r : Demo.raw) (events : list event) (e : EpochsObj Z) :
  Demo.make_epochs r events = Ok e -> incl (ep_events e) events.
Proof.
  unfold Demo.make_epochs. intros H. destruct events as [|ev rest]; [discriminate|].
  inversion H. simpl. apply incl_refl.
Qed.

(** * The claims about [epoching] *)

Lemma epoching_session_Ok (E : Externals) (args : Args) (data_part : string) (s : nat)
    w sorted_data img_cond ch_names times w' :
  epoching_session E args data_part s w = (Ok (sorted_data, img_cond, ch_names, times), w') ->
  exists epochs w1,
    load_epochs E args data_part s w = (Ok epochs, w1) /\
    sort_data E data_part epochs w1 = (Ok (sorted_data, img_cond), w').
Proof.
  unfold epoching_session. intros H. apply bindM_Ok_inv in H.
  destruct H as [epochs [w1 [Hload H]]]. apply bindM_Ok_inv in H.
  destruct H as [[sd ic] [w2 [Hsort H]]]. unfold ret in H. inversion H; subst.
  eauto.
Qed.

Lemma epoching_sessions_inv (E : Externals) (args : Args) (data_part : string)
    (P : ndarray4 (scalar E) -> list Z -> Prop) w tensors conds ch_names times w' :
  (forall s v sorted_data img_cond c t v',
      epoching_session E args data_part s v = (Ok (sorted_data, img_cond, c, t), v') ->
      P sorted_data img_cond) ->
  epoching E args data_part w = (Ok (tensors, conds, ch_names, times), w') ->
  Forall2 P tensors conds.
Proof.
  intros Hsession H. unfold epoching in H.
  apply bindM_Ok_inv in H. destruct H as [[] [w0 [_ H]]].
  apply bindM_Ok_inv in H. destruct H as [vars [w1 [Hloop H]]].
  destruct (ch_names_times vars) as [[c t]|]; [|discriminate].
  unfold ret in H. inversion H; subst. clear H.
  revert Hloop.
  apply (foldM_inv (fun v => Forall2 P (epoched_data v) (img_conditions v))).
  - intros s v v1 v' v1' _ Hv Hstep. apply bindM_Ok_inv in Hstep.
    destruct Hstep as [[[[sd ic] c'] t'] [v2 [Hs Hret]]].
    unfold ret in Hret. inversion Hret; subst. simpl.
    apply Forall2_app; [exact Hv|]. constructor; [|constructor].
    eapply Hsession; eauto.
  - constructor.
Qed.

(** A comprehension over list indexing that returns: every index is in
    range. *)
Lemma mapR_py_index_Ok {A} (d : A) (l : list A) (idx : list nat) (ys : list A) :
  mapR (py_index l) idx = Ok ys ->
  ys = map (fun i => nth i l d) idx /\ forall i, In i idx -> i < length l.
Proof.
  revert ys. induction idx as [|i t IH]; intros ys H; cbn [mapR] in H.
  - inversion H. split; [reflexivity|]. intros i [].
  - apply bindR_Ok_inv in H. destruct H as (y & Hy & H).
    apply bindR_Ok_inv in H. destruct H as (ys' & Hys & H). inversion H; subst.
    destruct (IH ys' Hys) as [-> Hlt]. apply py_index_Ok in Hy.
    split.
    + cbn [map]. f_equal. symmetry. now apply nth_error_nth.
    + intros j [<-|Hj]; [|now apply Hlt]. apply nth_error_Some. now rewrite Hy.
Qed.

(** A loop over [range(n)], with an invariant that knows the pass. *)
Lemma foldM_prefix_inv {E St} (I : nat -> St -> world E -> Prop)
    (body : nat -> St -> M E St) (n : nat) (s0 : St) (w0 : world E) :
  I 0 s0 w0 ->
  (forall k s w s' w', k < n -> I k s w -> body k s w = (Ok s', w') -> I (S k) s' w') ->
  forall s' w', foldM body (seq 0 n) s0 w0 = (Ok s', w') -> I n s' w'.
Proof.
  intros H0. induction n as [|n IH]; intros Hstep s' w' H.
  - cbn in H. unfold ret in H. inversion H; subst. exact H0.
  - rewrite seq_S, foldM_app in H. apply bindM_Ok_inv in H.
    destruct H as (s1 & w1 & H1 & H2). cbn [foldM Nat.add] in H2.
    apply bindM_Ok_inv in H2. destruct H2 as (s2 & w2 & H2 & Hret).
    unfold ret in Hret. inversion Hret; subst.
    apply (Hstep n s1 w1); [lia| |exact H2].
    apply IH; [|exact H1]. intros k s w t v Hk. apply Hstep. lia.
Qed.

Lemma foldR_prefix_inv {St} (I : nat -> St -> Prop) (body : nat -> St -> result St)
    (n : nat) (s0 : St) :
  I 0 s0 ->
  (forall k s s', k < n -> I k s -> body k s = Ok s' -> I (S k) s') ->
  forall s', foldR body (seq 0 n) s0 = Ok s' -> I n s'.
Proof.
  intros H0. induction n as [|n IH]; intros Hstep s' H.
  - cbn in H. inversion H; subst. exact H0.
  - rewrite seq_S in H. apply foldR_app_Ok in H.
    destruct H as (s1 & H1 & H2). cbn [foldR Nat.add] in H2.
    apply bindR_Ok_inv in H2. destruct H2 as (s2 & H2 & Hret).
    inversion Hret; subst.
    apply (Hstep n s1); [lia| |exact H2].
    apply IH; [|exact H1]. intros k s t Hk. apply Hstep. lia.
Qed.

Section EpochingSessions.
Variable E : Externals.
Local Abbreviation F := (scalar E).
Variables (args : Args) (data_part : string).

Lemma epoching_loop_prefix (n : nat) w0 vars w1 :
  foldM (fun s vars =>
           '(sorted_data, img_cond, ch_names, times) <-
              epoching_session E args data_part s ;;
           ret {| epoched_data := epoched_data vars ++ [sorted_data];
                  img_conditions := img_conditions vars ++ [img_cond];
                  ch_names_times := Some (ch_names, times) |})
    (seq 0 n)
    {| epoched_data := []; img_conditions := []; ch_names_times := None |} w0
  = (Ok vars, w1) ->
  sessions_done E args data_part w0 n vars w1.
Proof.
  apply (foldM_prefix_inv (sessions_done E args data_part w0)).
  - exists [w0], [], []. cbn. repeat split; try reflexivity. intros s Hs. lia.
  - intros k v w v' w' _ (ws & cs & ts & Hws & Hcs & Hts & Hed & Hic & H0 & Hk & Hall & _) Hb.
    apply bindM_Ok_inv in Hb. destruct Hb as ([[[sd ic] c] t] & w2 & Hsess & Hret).
    unfold ret in Hret. inversion Hret; subst v' w2. clear Hret.
    exists (ws ++ [w']), (cs ++ [c]), (ts ++ [t]). cbn [epoched_data img_conditions
      ch_names_times].
    rewrite !length_app. cbn [length].
    split; [lia|]. split; [lia|]. split; [lia|]. split; [lia|]. split; [lia|].
    split; [rewrite app_nth1 by lia; exact H0|].
    split; [rewrite app_nth2 by lia; replace (S k - length ws) with 0 by lia; reflexivity|].
    split.
    + intros s Hs. destruct (Nat.eq_dec s k) as [->|Hne].
      * rewrite (app_nth1 ws) by lia. rewrite (app_nth2 ws) by lia.
        rewrite !app_nth2 by lia.
        rewrite Hed, Hic, Hcs, Hts, Hws, !Nat.sub_diag. cbn [nth]. rewrite Hk. exact Hsess.
      * rewrite !app_nth1 by lia. apply Hall. lia.
    + rewrite !app_nth2 by lia. rewrite Hcs, Hts, Nat.sub_diag. reflexivity.
Qed.
End EpochingSessions.


(** The loading block, call by call: every intermediate value of a run
    that returns. *)
Lemma load_epochs_inv (E : Externals) (args : Args) (data_part : string) (s : nat)
    w epochs w' :
  load_epochs E args data_part s w = (Ok epochs, w') ->
  exists eeg_data info raw0 found raw e0,
    np_load E (raw_eeg_path args data_part s) = Ok eeg_data /\
    mne_create_info E (rf_ch_names eeg_data) (rf_sfreq eeg_data) (rf_ch_types eeg_data)
    = Ok info /\
    mne_RawArray E (rf_raw_eeg_data eeg_data) info = Ok raw0 /\
    mne_find_events E raw0 = Ok found /\
    (forall c, In c (mne_pick_channels_regexp E (raw_ch_names E raw0) "^O *|^P *") ->
               c < length (raw_ch_names E raw0)) /\
    raw_pick_channels E raw0
      (map (fun c => nth c (raw_ch_names E raw0) "")
         (mne_pick_channels_regexp E (raw_ch_names E raw0) "^O *|^P *")) = Ok raw /\
    mne_Epochs E raw (filter (fun ev => negb (marker ev =? target_marker)%Z) found) = Ok e0 /\
    (epochs = e0 \/ epochs_resample E e0 (sfreq args) = Ok epochs).
Proof.
  unfold load_epochs, bindM, lift, log_call, ret. intros H.
  destruct (np_load E (raw_eeg_path args data_part s)) as [eeg_data|] eqn:Hload;
    [|discriminate].
  destruct (mne_create_info E _ _ _) as [info|] eqn:Hinfo; [|discriminate].
  destruct (mne_RawArray E _ info) as [raw0|] eqn:Hraw; [|discriminate].
  destruct (mne_find_events E raw0) as [events|] eqn:Hev; [|discriminate].
  destruct (mapR _ _) as [new_chans|] eqn:Hch; [|discriminate].
  destruct (raw_pick_channels E raw0 new_chans) as [raw|] eqn:Hpick; [|discriminate].
  destruct (mne_Epochs E raw _) as [e0|] eqn:Hep; [|discriminate].
  apply (mapR_py_index_Ok "") in Hch. destruct Hch as [-> Hlt].
  unfold np_delete, np_where_eq in Hep. rewrite delete_where_from in Hep.
  exists eeg_data, info, raw0, events, raw, e0.
  repeat (split; [first [assumption|reflexivity]|]).
  destruct (sfreq args <? 1000)%Z.
  - destruct (epochs_resample E e0 (sfreq args)) as [e1|] eqn:Hre; [|discriminate].
    inversion H; subst. now right.
  - inversion H; subst. now left.
Qed.



(** What the condition axis of one session is, given that the epoching
    collaborators return epochs of events they were given ([mne.Epochs])
    or had ([resample]). *)
Lemma session_condition_axis (E : Externals) (args : Args) (data_part : string)
    (s : nat) w sorted_data img_cond ch_names times w' :
  (forall raw events e, mne_Epochs E raw events = Ok e -> incl (ep_events e) events) ->
  (forall e z e', epochs_resample E e z = Ok e' -> ep_events e' = ep_events e) ->
  epoching_session E args data_part s w = (Ok (sorted_data, img_cond, ch_names, times), w') ->
  exists (epochs : EpochsObj (scalar E)) (w1 : world E) (eeg_data : RawFile (scalar E))
         (info : Info E) (raw0 : Raw E) (found : list event),
    load_epochs E args data_part s w = (Ok epochs, w1) /\
    sort_data E data_part epochs w1 = (Ok (sorted_data, img_cond), w') /\
    np_load E (raw_eeg_path args data_part s) = Ok eeg_data /\
    mne_create_info E (rf_ch_names eeg_data) (rf_sfreq eeg_data) (rf_ch_types eeg_data)
    = Ok info /\
    mne_RawArray E (rf_raw_eeg_data eeg_data) info = Ok raw0 /\
    mne_find_events E raw0 = Ok found /\
    img_cond = np_unique (map marker (ep_events epochs)) /\
    StronglySorted Z.lt img_cond /\ NoDup img_cond /\
    (forall m, In m img_cond <-> In m (map marker (ep_events epochs))) /\
    (forall m, In m img_cond -> In m (map marker found)) /\
    ~ In target_marker img_cond /\
    dim4_0 sorted_data = length img_cond.
Proof.
  intros Hsub Hres H. apply epoching_session_Ok in H.
  destruct H as [epochs [w1 [Hload Hsort]]].
  pose proof (load_epochs_inv E args data_part s w epochs w1 Hload)
    as (eeg & info & raw0 & found & raw & e0 & Hfile & Hinfo & Hraw & Hfound & _ & _
        & Hep & Hcase).
  pose proof (sort_data_shape E data_part epochs w1 sorted_data img_cond w' Hsort)
    as [Himg [Hshape _]].
  assert (Hev : ep_events epochs = ep_events e0).
  { destruct Hcase as [->|Hr]; [reflexivity|eapply Hres; eauto]. }
  assert (Hkept : forall ev, In ev (ep_events epochs) ->
                             In ev found /\ marker ev <> target_marker).
  { intros ev Hin. rewrite Hev in Hin. apply (Hsub _ _ _ Hep) in Hin.
    apply filter_In in Hin. destruct Hin as [Hin Hne]. split; [exact Hin|].
    intros Heq. rewrite Heq, Z.eqb_refl in Hne. discriminate. }
  exists epochs, w1, eeg, info, raw0, found.
  split; [exact Hload|]. split; [exact Hsort|]. split; [exact Hfile|].
  split; [exact Hinfo|]. split; [exact Hraw|]. split; [exact Hfound|].
  split; [exact Himg|]. subst img_cond.
  split; [apply np_unique_sorted|]. split; [apply np_unique_NoDup|].
  split; [intros m; apply np_unique_In|]. split; [|split].
  - intros m Hm. apply np_unique_In, in_map_iff in Hm. destruct Hm as [ev [<- Hin]].
    apply in_map. now apply Hkept.
  - intros Hm. apply np_unique_In, in_map_iff in Hm. destruct Hm as [ev [Heq Hin]].
    now apply (Hkept ev Hin).
  - inversion Hshape. reflexivity.
Qed.

(** C5.  For every session and partition, the condition axis of the
    tensor [epoching] builds is the strictly ascending, duplicate-free
    enumeration of the markers of that session's epochs: the epochs are
    the ones the loading block made from the session's recording, the list
    of conditions is [np.unique] of their markers, the tensor has one row
    per condition, every marker is that of an event found in the
    recording, and none is the target marker 99999.  That holds of every
    tensor and condition list [epoching] returns, session by session, in
    the worlds the sessions ran in, one after the other from the seeded
    one to the last.  The epoching collaborators are taken to return
    epochs of events they were given ([mne.Epochs]) or had ([resample]). *)
Theorem epoching_condition_axis (E : Externals) (args : Args) (data_part : string) :
  (forall raw events e, mne_Epochs E raw events = Ok e -> incl (ep_events e) events) ->
  (forall e z e', epochs_resample E e z = Ok e' -> ep_events e' = ep_events e) ->
  (forall s w sorted_data img_cond ch_names times w',
      epoching_session E args data_part s w
      = (Ok (sorted_data, img_cond, ch_names, times), w') ->
      exists (epochs : EpochsObj (scalar E)) (w1 : world E)
             (eeg_data : RawFile (scalar E)) (info : Info E) (raw0 : Raw E)
             (found : list event),
        load_epochs E args data_part s w = (Ok epochs, w1) /\
        sort_data E data_part epochs w1 = (Ok (sorted_data, img_cond), w') /\
        np_load E (raw_eeg_path args data_part s) = Ok eeg_data /\
        mne_create_info E (rf_ch_names eeg_data) (rf_sfreq eeg_data)
          (rf_ch_types eeg_data) = Ok info /\
        mne_RawArray E (rf_raw_eeg_data eeg_data) info = Ok raw0 /\
        mne_find_events E raw0 = Ok found /\
        img_cond = np_unique (map marker (ep_events epochs)) /\
        StronglySorted Z.lt img_cond /\ NoDup img_cond /\
        (forall m, In m img_cond <-> In m (map marker (ep_events epochs))) /\
        (forall m, In m img_cond -> In m (map marker found)) /\
        ~ In target_marker img_cond /\
        dim4_0 sorted_data = length img_cond) /\
  (forall w tensors conds ch_names times w',
      epoching E args data_part w = (Ok (tensors, conds, ch_names, times), w') ->
      length tensors = Z.to_nat (n_ses args) /\ length conds = Z.to_nat (n_ses args) /\
      let w0 := snd (set_rng E (random_seed E 20200220) w) in
      exists ws : list (world E),
        length ws = S (Z.to_nat (n_ses args)) /\
        nth 0 ws w0 = w0 /\ nth (Z.to_nat (n_ses args)) ws w0 = w' /\
        forall s, s < Z.to_nat (n_ses args) ->
          exists (epochs : EpochsObj (scalar E)) (v1 : world E)
                 (eeg_data : RawFile (scalar E)) (info : Info E) (raw0 : Raw E)
                 (found : list event),
            load_epochs E args data_part s (nth s ws w0) = (Ok epochs, v1) /\
            sort_data E data_part epochs v1
            = (Ok (nth s tensors (full4 (f_zero E) 0 0 0 0), nth s conds []),
               nth (S s) ws w0) /\
            np_load E (raw_eeg_path args data_part s) = Ok eeg_data /\
            mne_create_info E (rf_ch_names eeg_data) (rf_sfreq eeg_data)
              (rf_ch_types eeg_data) = Ok info /\
            mne_RawArray E (rf_raw_eeg_data eeg_data) info = Ok raw0 /\
            mne_find_events E raw0 = Ok found /\
            nth s conds [] = np_unique (map marker (ep_events epochs)) /\
            StronglySorted Z.lt (nth s conds []) /\ NoDup (nth s conds []) /\
            (forall m, In m (nth s conds []) <-> In m (map marker (ep_events epochs))) /\
            (forall m, In m (nth s conds []) -> In m (map marker found)) /\
            ~ In target_marker (nth s conds []) /\
            dim4_0 (nth s tensors (full4 (f_zero E) 0 0 0 0)) = length (nth s conds [])).
Proof.
  intros Hsub Hres. split.
  - intros s w sd ic c t w'. now apply session_condition_axis.
  - intros w tensors conds c t w' H. unfold epoching in H.
    apply bindM_Ok_inv in H. destruct H as ([] & w0 & Hseed & H).
    apply bindM_Ok_inv in H. destruct H as (vars & w1 & Hloop & H).
    unfold py_range in Hloop. apply epoching_loop_prefix in Hloop.
    destruct Hloop as (ws & cs & ts & Hws & _ & _ & Hed & Hic & Hfirst & Hlast & Hall & Hct).
    destruct (ch_names_times vars) as [[c0 t0]|]; [|discriminate].
    unfold ret in H. injection H as <- <- _ _ <-.
    split; [exact Hed|]. split; [exact Hic|].
    assert (Hw0 : snd (set_rng E (random_seed E 20200220) w) = w0) by now rewrite Hseed.
    cbv zeta. rewrite Hw0.
    exists ws. split; [exact Hws|]. split; [exact Hfirst|]. split; [exact Hlast|].
    intros s Hs. specialize (Hall s Hs).
    exact (session_condition_axis E args data_part s _ _ _ _ _ _ Hsub Hres Hall).
Qed.

(** A training session whose recording carries the markers 5, 3, 3, 5 and
    one target trial. *)
Lemma epoching_condition_axis_witness :
  length [mk4 2 2 2 1 [[[[11]; [102]]; [[12]; [104]]]; [[[13]; [106]]; [[10]; [100]]]]%Z]
  = Z.to_nat (n_ses (Demo.args_of 1 100)) /\
  length [[3; 5]%Z] = Z.to_nat (n_ses (Demo.args_of 1 100)) /\
  let w0 := snd (set_rng (Demo.ext Demo.session_5335)
                   (random_seed (Demo.ext Demo.session_5335) 20200220)
                   (Demo.world0 Demo.session_5335)) in
  exists ws : list (world (Demo.ext Demo.session_5335)),
    length ws = S (Z.to_nat (n_ses (Demo.args_of 1 100))) /\
    nth 0 ws w0 = w0 /\
    nth (Z.to_nat (n_ses (Demo.args_of 1 100))) ws w0
    = snd (epoching (Demo.ext Demo.session_5335) (Demo.args_of 1 100) "training"
             (Demo.world0 Demo.session_5335)) /\
    forall s, s < Z.to_nat (n_ses (Demo.args_of 1 100)) ->
      exists (epochs : EpochsObj Z) (v1 : world (Demo.ext Demo.session_5335))
             (eeg_data : RawFile Z) (info : list string) (raw0 : Demo.raw)
             (found : list event),
        load_epochs (Demo.ext Demo.session_5335) (Demo.args_of 1 100) "training" s
          (nth s ws w0) = (Ok epochs, v1) /\
        sort_data (Demo.ext Demo.session_5335) "training" epochs v1
        = (Ok (nth s [mk4 2 2 2 1 [[[[11]; [102]]; [[12]; [104]]];
                                   [[[13]; [106]]; [[10]; [100]]]]%Z]
                 (full4 0%Z 0 0 0 0), nth s [[3; 5]%Z] []), nth (S s) ws w0) /\
        Demo.load Demo.session_5335 (raw_eeg_path (Demo.args_of 1 100) "training" s)
        = Ok eeg_data /\
        Ok (rf_ch_names eeg_data) = Ok info /\
        Ok {| Demo.r_names := info; Demo.r_data := rf_raw_eeg_data eeg_data |} = Ok raw0 /\
        Demo.find_events raw0 = Ok found /\
        nth s [[3; 5]%Z] [] = np_unique (map marker (ep_events epochs)) /\
        StronglySorted Z.lt (nth s [[3; 5]%Z] []) /\ NoDup (nth s [[3; 5]%Z] []) /\
        (forall m, In m (nth s [[3; 5]%Z] []) <-> In m (map marker (ep_events epochs))) /\
        (forall m, In m (nth s [[3; 5]%Z] []) -> In m (map marker found)) /\
        ~ In target_marker (nth s [[3; 5]%Z] []) /\
        dim4_0 (nth s [mk4 2 2 2 1 [[[[11]; [102]]; [[12]; [104]]];
                                    [[[13]; [106]]; [[10]; [100]]]]%Z]
                  (full4 0%Z 0 0 0 0))
        = length (nth s [[3; 5]%Z] []).
Proof.
  apply (proj2 (epoching_condition_axis (Demo.ext Demo.session_5335)
                  (Demo.args_of 1 100) "training"
                  (fun raw events e => demo_epochs_events raw events e)
                  (fun e z e' H => f_equal (fun r => match r with
                                                     | Ok x => ep_events x
                                                     | Raise _ => ep_events e
                                                     end) (eq_sym H)))
           (Demo.world0 Demo.session_5335) _ [[3; 5]%Z] ["O1"; "P3"] [0%Z]
           (snd (epoching (Demo.ext Demo.session_5335) (Demo.args_of 1 100) "training"
                   (Demo.world0 Demo.session_5335)))).
  etransitivity; [apply surjective_pairing|]. f_equal; vm_compute; reflexivity.
Defined.

(** C3 (amended).  In a run of the loading block that returns, resampling
    is invoked exactly when the configured sample rate is below the fixed
    constant 1000, whatever the recording's own sample rate, and with the
    configured rate as its target; for a recording sampled at 1000 Hz this
    is "exactly when the recording's rate exceeds the configured one".
    When it is not invoked, the epochs returned are the ones [mne.Epochs]
    made. *)
Theorem resample_iff_target_below_1000 (E : Externals) (args : Args) (data_part : string)
    (s : nat) w epochs w' :
  load_epochs E args data_part s w = (Ok epochs, w') ->
  exists (eeg_data : RawFile (scalar E)) (calls : list mne_call),
    np_load E (raw_eeg_path args data_part s) = Ok eeg_data /\
    w_calls w' = calls ++ w_calls w /\
    (In (CallResample (sfreq args)) calls <-> (sfreq args < 1000)%Z) /\
    (forall z, In (CallResample z) calls -> z = sfreq args) /\
    (rf_sfreq eeg_data = 1000%Z ->
     (In (CallResample (sfreq args)) calls <-> (sfreq args < rf_sfreq eeg_data)%Z)) /\
    ((1000 <= sfreq args)%Z ->
     exists (raw : Raw E) (events : list event), mne_Epochs E raw events = Ok epochs).
Proof.
  intros H. apply load_epochs_Ok in H.
  destruct H as (eeg & raw0 & raw & found & e0 & Hload & _ & Hep & Hcase & _).
  exists eeg.
  destruct Hcase as [[Hlt [Hres Hcalls]]|[Hge [-> Hcalls]]].
  - exists [CallResample (sfreq args); CallEpochs; CallPickChannels; CallFindEvents].
    split; [exact Hload|]. split; [exact Hcalls|]. split; [|split; [|split]].
    + split; [intros _; exact Hlt|intros _; now left].
    + intros z [Hz|[Hz|[Hz|[Hz|[]]]]]; inversion Hz; reflexivity.
    + intros ->. split; [intros _; exact Hlt|intros _; now left].
    + lia.
  - exists [CallEpochs; CallPickChannels; CallFindEvents].
    split; [exact Hload|]. split; [exact Hcalls|]. split; [|split; [|split]].
    + split; [|lia]. intros [Hz|[Hz|[Hz|[]]]]; discriminate.
    + intros z [Hz|[Hz|[Hz|[]]]]; discriminate.
    + intros ->. split; [|lia]. intros [Hz|[Hz|[Hz|[]]]]; discriminate.
    + intros _. eauto.
Qed.

(** A recording sampled at 1000 Hz, epoched for a configured rate of 100 Hz. *)
Lemma resample_iff_target_below_1000_witness :
  exists (eeg_data : RawFile Z) (calls : list mne_call),
    Demo.load Demo.session_5335 (raw_eeg_path (Demo.args_of 1 100) "training" 0)
    = Ok eeg_data /\
    w_calls (snd (load_epochs (Demo.ext Demo.session_5335) (Demo.args_of 1 100)
                    "training" 0 (Demo.world0 Demo.session_5335)))
    = calls ++ [] /\
    (In (CallResample 100) calls <-> (100 < 1000)%Z) /\
    (forall z, In (CallResample z) calls -> z = 100%Z) /\
    (rf_sfreq eeg_data = 1000%Z ->
     (In (CallResample 100) calls <-> (100 < rf_sfreq eeg_data)%Z)) /\
    ((1000 <= 100)%Z ->
     exists (raw : Demo.raw) (events : list event),
       Demo.make_epochs raw events
       = Ok {| ep_ch_names := ["O1"; "P3"]; ep_times := [0%Z];
               ep_events := [(0, 0, 5); (1, 0, 3); (2, 0, 3); (3, 0, 5)]%Z;
               ep_data := mk3 4 2 1 [[[10]; [100]]; [[11]; [102]]; [[12]; [104]];
                                     [[13]; [106]]]%Z |}).
Proof.
  apply (resample_iff_target_below_1000 (Demo.ext Demo.session_5335)
           (Demo.args_of 1 100) "training" 0 (Demo.world0 Demo.session_5335)
           {| ep_ch_names := ["O1"; "P3"]; ep_times := [0%Z];
              ep_events := [(0, 0, 5); (1, 0, 3); (2, 0, 3); (3, 0, 5)]%Z;
              ep_data := mk3 4 2 1 [[[10]; [100]]; [[11]; [102]]; [[12]; [104]];
                                    [[13]; [106]]]%Z |}
           (snd (load_epochs (Demo.ext Demo.session_5335) (Demo.args_of 1 100)
                   "training" 0 (Demo.world0 Demo.session_5335)))).
  vm_compute. reflexivity.
Defined.

(** C3, as stated, fails: a recording sampled at 500 Hz and a configured
    rate of 600 Hz.  The recording's rate does not exceed the configured
    one, and resampling is invoked all the same. *)
Lemma resample_not_iff_native_exceeds_target :
  Demo.load Demo.session_500Hz (raw_eeg_path (Demo.args_of 1 600) "training" 0)
  = Ok (Demo.recording 500 [5; 5]%Z) /\
  ~ (rf_sfreq (Demo.recording 500 [5; 5]%Z) > sfreq (Demo.args_of 1 600))%Z /\
  In (CallResample 600)
     (w_calls (snd (load_epochs (Demo.ext Demo.session_500Hz) (Demo.args_of 1 600)
                      "training" 0 (Demo.world0 Demo.session_500Hz)))).
Proof.
  split; [reflexivity|]. split; [simpl; lia|]. vm_compute. now left.
Qed.

(** C2 (amended).  The repetition axis of every tensor [epoching] returns
    has exactly the length of the cap, 20 for the test partition and 2 for
    the training partition.  The sorting block returns when every image
    condition has at least as many epochs as the cap, and the length is
    then the minimum of the cap and the epochs available. *)
Theorem epoching_repetition_axis (E : Externals) (args : Args) (data_part : string) :
  (max_rep_of "test" = 20 /\ max_rep_of "training" = 2) /\
  (forall w tensors conds ch_names times w',
      epoching E args data_part w = (Ok (tensors, conds, ch_names, times), w') ->
      Forall (fun t => dim4_1 t = max_rep_of data_part /\ wf4 t) tensors) /\
  (forall (epochs : EpochsObj (scalar E)) w,
      (forall g n, Permutation (fst (random_permutation E g n)) (seq 0 n)) ->
      dim3_0 (ep_data epochs) = length (ep_events epochs) ->
      (forall c, In c (map marker (ep_events epochs)) ->
                 max_rep_of data_part
                 <= count_occ Z.eq_dec (map marker (ep_events epochs)) c) ->
      exists sorted_data w',
        sort_data E data_part epochs w
        = (Ok (sorted_data, np_unique (map marker (ep_events epochs))), w') /\
        forall c, In c (map marker (ep_events epochs)) ->
          dim4_1 sorted_data
          = Nat.min (max_rep_of data_part)
                    (count_occ Z.eq_dec (map marker (ep_events epochs)) c)).
Proof.
  split; [split; reflexivity|]. split.
  - intros w tensors conds ch_names times w' H.
    apply (epoching_sessions_inv E args data_part
             (fun t _ => dim4_1 t = max_rep_of data_part /\ wf4 t)) in H.
    + clear - H. induction H; constructor; auto.
    + intros s v sd ic c t v' Hs. apply epoching_session_Ok in Hs.
      destruct Hs as [epochs [v1 [_ Hsort]]]. apply sort_data_shape in Hsort.
      destruct Hsort as [_ [Hshape Hwf]]. inversion Hshape. auto.
  - intros epochs w Hperm Hlen Hcount.
    destruct (sort_data_returns E data_part epochs w Hperm Hlen Hcount)
      as [sd [w' Hsort]].
    exists sd, w'. split; [exact Hsort|]. intros c Hc.
    apply sort_data_shape in Hsort. destruct Hsort as [_ [Hshape _]].
    inversion Hshape as [[H0 H1 H2 H3]]. rewrite H1. symmetry.
    apply Nat.min_l, Hcount, Hc.
Qed.

(** A training session in which both image conditions have two epochs. *)
Lemma epoching_repetition_axis_witness :
  fst (epoching (Demo.ext Demo.session_5335) (Demo.args_of 1 100) "training"
         (Demo.world0 Demo.session_5335))
  = Ok ([mk4 2 2 2 1 [[[[11]; [102]]; [[12]; [104]]]; [[[13]; [106]]; [[10]; [100]]]]%Z],
        [[3; 5]%Z], ["O1"; "P3"], [0%Z]) /\
  Forall (fun t => dim4_1 t = max_rep_of "training" /\ wf4 t)
    [mk4 2 2 2 1 [[[[11]; [102]]; [[12]; [104]]]; [[[13]; [106]]; [[10]; [100]]]]%Z] /\
  exists sorted_data w',
    sort_data (Demo.ext Demo.session_5335) "training" Demo.epochs_5335
      (Demo.world0 Demo.session_5335)
    = (Ok (sorted_data, np_unique (map marker (ep_events Demo.epochs_5335))), w') /\
    forall c, In c (map marker (ep_events Demo.epochs_5335)) ->
      dim4_1 sorted_data
      = Nat.min (max_rep_of "training")
                (count_occ Z.eq_dec (map marker (ep_events Demo.epochs_5335)) c).
Proof.
  split; [vm_compute; reflexivity|]. split.
  - apply (proj1 (proj2 (epoching_repetition_axis (Demo.ext Demo.session_5335)
                           (Demo.args_of 1 100) "training"))
             (Demo.world0 Demo.session_5335) _ [[3; 5]%Z] ["O1"; "P3"] [0%Z]
             (snd (epoching (Demo.ext Demo.session_5335) (Demo.args_of 1 100) "training"
                     (Demo.world0 Demo.session_5335)))).
    vm_compute. reflexivity.
  - apply (proj2 (proj2 (epoching_repetition_axis (Demo.ext Demo.session_5335)
                           (Demo.args_of 1 100) "training"))
             Demo.epochs_5335 (Demo.world0 Demo.session_5335)).
    + exact demo_permutation_perm.
    + reflexivity.
    + intros c [<-|[<-|[<-|[<-|[]]]]]; vm_compute; lia.
Defined.

(** C2, as stated, fails.  In a training session with the markers
    5, 3, 3, 5, 7 the condition 7 has one epoch, and the repetition axis
    has length 2, not [min 2 1]: the one epoch is repeated.  In a test
    session with the markers 4, 4 the condition has two epochs, fewer than
    the cap 20, and [epoching] raises [ValueError] instead of returning. *)
Lemma repetition_axis_not_min :
  (count_occ Z.eq_dec [5; 3; 3; 5; 7]%Z 7%Z = 1 /\
   fst (epoching (Demo.ext Demo.session_53357) (Demo.args_of 1 100) "training"
          (Demo.world0 Demo.session_53357))
   = Ok ([mk4 3 2 2 1 [[[[11]; [102]]; [[12]; [104]]];
                       [[[13]; [106]]; [[10]; [100]]];
                       [[[14]; [108]]; [[14]; [108]]]]%Z],
         [[3; 5; 7]%Z], ["O1"; "P3"], [0%Z]) /\
   2 <> Nat.min (max_rep_of "training") 1) /\
  (count_occ Z.eq_dec [4; 4]%Z 4%Z = 2 /\
   fst (epoching (Demo.ext Demo.session_44) (Demo.args_of 1 100) "test"
          (Demo.world0 Demo.session_44))
   = Raise ValueError).
Proof.
  split; (split; [reflexivity|]).
  - split; [vm_compute; reflexivity|]. simpl. lia.
  - vm_compute. reflexivity.
Qed.

(** * What [epoching] does to the world, and what it raises *)

Lemma foldM_Raise_inv {E A S} (body : A -> S -> M E S) (l : list A) s w e w' :
  foldM body l s w = (Raise e, w') ->
  exists x s1 w1, In x l /\ body x s1 w1 = (Raise e, w').
Proof.
  revert s w. induction l as [|x t IH]; simpl; intros s w H.
  - unfold ret in H. discriminate.
  - unfold bindM in H. destruct (body x s w) as [[s1|e1] w1] eqn:Hb.
    + destruct (IH _ _ H) as (y & s2 & w2 & Hy & H2). eauto 6.
    + inversion H; subst. eauto 6.
Qed.

Section EpochingWorld.
Variable E : Externals.
Local Abbreviation F := (scalar E).







End EpochingWorld.

Lemma demo_never_raise_segmentation (files : list (string * RawFile Z)) :
  collaborators_never_raise (Demo.ext files) SegmentationError.
Proof.
  unfold collaborators_never_raise. simpl. repeat split; try discriminate.
  - intros path. unfold Demo.load. destruct (Demo.lookup path files); discriminate.
  - intros raw. unfold Demo.find_events. destruct (Demo.lookup _ _); discriminate.
  - intros raw events. unfold Demo.make_epochs. destruct events; discriminate.
Qed.

Section NoUsableEvents.
Variable E : Externals.
Local Abbreviation F := (scalar E).
Variables (args : Args) (data_part : string).

(** [mne.Epochs] raises [ValueError] when it is given no event. *)
Hypothesis epochs_need_events : forall raw, mne_Epochs E raw [] = Raise ValueError.


End NoUsableEvents.




(** * The claims about an empty list of sessions *)

(** C10 (amended).  With no session ([n_ses <= 0]) [save_prepr] raises
    [UnboundLocalError], when it reads the variable [merged_test] that no
    pass of the loop has bound, before it draws from the generator, creates
    a directory or writes a file; [epoching] raises the same exception at
    its [return], having only seeded the generator. *)
Theorem empty_session_list_unbound (E : Externals) (args : Args) :
  (n_ses args <= 0)%Z ->
  (forall whitened_test whitened_train img_conditions_train ch_names times w,
      save_prepr E args whitened_test whitened_train img_conditions_train ch_names times w
      = (Raise UnboundLocalError, w)) /\
  (forall data_part w,
      fst (epoching E args data_part w) = Raise UnboundLocalError /\
      w_files (snd (epoching E args data_part w)) = w_files w /\
      w_dirs (snd (epoching E args data_part w)) = w_dirs w).
Proof.
  intros Hn. assert (Hr : py_range (n_ses args) = []).
  { unfold py_range. replace (Z.to_nat (n_ses args)) with 0 by lia. reflexivity. }
  split.
  - intros wt wtr ict c t w. unfold save_prepr, merge_test. rewrite Hr. reflexivity.
  - intros part w. unfold epoching. rewrite Hr. simpl. auto.
Qed.

Lemma empty_session_list_unbound_witness :
  (0 <= 0)%Z /\
  save_prepr (Demo.ext []) (Demo.args_of 0 100) [] [] [] ["O1"] [0%Z] (Demo.world0 [])
  = (Raise UnboundLocalError, Demo.world0 []).
Proof.
  split; [lia|].
  apply (proj1 (empty_session_list_unbound (Demo.ext []) (Demo.args_of 0 100)
                  ltac:(simpl; lia))).
Defined.

(** C10, as stated, fails: with no session the exception is
    [UnboundLocalError], not [ConfigurationError]. *)
Lemma empty_session_list_not_configuration_error :
  fst (save_prepr (Demo.ext []) (Demo.args_of 0 100) [] [] [] ["O1"] [0%Z] (Demo.world0 []))
  = Raise UnboundLocalError /\
  fst (save_prepr (Demo.ext []) (Demo.args_of 0 100) [] [] [] ["O1"] [0%Z] (Demo.world0 []))
  <> Raise ConfigurationError.
Proof. split; [reflexivity|]. vm_compute. discriminate. Qed.

(** * Determinism *)

Section MemoryBlind.
Variable E : Externals.
Local Abbreviation F := (scalar E).

Lemma mem_blind_ret {A} (a : A) : mem_blind (E := E) (ret a).
Proof. intros w1 w2 H. now split. Qed.

Lemma mem_blind_raise {A} (e : exn) : mem_blind (E := E) (raise (A := A) e).
Proof. intros w1 w2 H. now split. Qed.

Lemma mem_blind_lift {A} (r : result A) : mem_blind (E := E) (lift r).
Proof. intros w1 w2 H. now split. Qed.

(** Two runs of [c] that return or raise the same and leave worlds
    that differ in the memory alone go on the same way. *)
Lemma bindM_related {A B} (c : M E A) (k : A -> M E B) (w1 w2 : world E) :
  fst (c w1) = fst (c w2) -> same_but_mem E (snd (c w1)) (snd (c w2)) ->
  (forall a, mem_blind (k a)) ->
  fst (bindM c k w1) = fst (bindM c k w2) /\
  same_but_mem E (snd (bindM c k w1)) (snd (bindM c k w2)).
Proof.
  intros Hr Hw Hk. unfold bindM.
  destruct (c w1) as [r1 v1], (c w2) as [r2 v2]. cbn [fst snd] in Hr, Hw. subst r2.
  destruct r1 as [a|e]; [now apply Hk|now split].
Qed.

Lemma mem_blind_bind {A B} (c : M E A) (k : A -> M E B) :
  mem_blind c -> (forall a, mem_blind (k a)) -> mem_blind (bindM c k).
Proof.
  intros Hc Hk w1 w2 H. destruct (Hc w1 w2 H) as [Hr Hw]. now apply bindM_related.
Qed.

Lemma mem_blind_foldM {A St} (body : A -> St -> M E St) (l : list A) :
  (forall x s, mem_blind (body x s)) -> forall s, mem_blind (foldM body l s).
Proof.
  intros Hb. induction l as [|x t IH]; intros s; cbn [foldM].
  - apply mem_blind_ret.
  - apply mem_blind_bind; [apply Hb|exact IH].
Qed.

Lemma mem_blind_mapM {A B} (f : A -> M E B) (l : list A) :
  (forall x, mem_blind (f x)) -> mem_blind (mapM E f l).
Proof.
  intros Hf. induction l as [|x t IH]; cbn [mapM].
  - apply mem_blind_ret.
  - apply mem_blind_bind; [apply Hf|]. intros y.
    apply mem_blind_bind; [exact IH|]. intros ys. apply mem_blind_ret.
Qed.

Lemma mem_blind_set_rng (g : RandomState E) : mem_blind (set_rng E g).
Proof.
  intros w1 w2 (Hr & Hh & Hd & Hf & Hc & Hs). split; [reflexivity|].
  unfold same_but_mem, set_rng. cbn. repeat split; assumption.
Qed.

Lemma mem_blind_log_call (c : mne_call) : mem_blind (log_call E c).
Proof.
  intros w1 w2 (Hr & Hh & Hd & Hf & Hc & Hs). split; [reflexivity|].
  unfold same_but_mem, log_call. cbn. rewrite Hc. repeat split; assumption.
Qed.

Lemma mem_blind_alloc (a : ndarray4 F) : mem_blind (alloc E a).
Proof.
  intros w1 w2 (Hr & Hh & Hd & Hf & Hc & Hs). unfold same_but_mem, alloc. cbn.
  rewrite Hh. repeat split; assumption.
Qed.

Lemma mem_blind_deref (l : loc) : mem_blind (deref E l).
Proof.
  intros w1 w2 H. pose proof H as (Hr & Hh & Hd & Hf & Hc & Hs). unfold deref.
  rewrite Hh. destruct (nth_error (w_heap w2) l); now split.
Qed.

Lemma mem_blind_isdir (d : string) : mem_blind (os_path_isdir E d).
Proof.
  intros w1 w2 H. pose proof H as (Hr & Hh & Hd & Hf & Hc & Hs). unfold os_path_isdir.
  rewrite Hd. now split.
Qed.

Lemma mem_blind_makedirs (d : string) : mem_blind (os_makedirs E d).
Proof.
  intros w1 w2 H. pose proof H as (Hr & Hh & Hd & Hf & Hc & Hs). unfold os_makedirs.
  destruct (sys_makedirs E d); [|now split].
  split; [reflexivity|]. unfold same_but_mem. cbn. rewrite Hd. repeat split; assumption.
Qed.

Lemma mem_blind_np_save (path : string) (d : output_record F) : mem_blind (np_save E path d).
Proof.
  intros w1 w2 H. pose proof H as (Hr & Hh & Hd & Hf & Hc & Hs). unfold np_save.
  destruct (sys_save E path); [|now split].
  split; [reflexivity|]. unfold same_but_mem. cbn. rewrite Hf. repeat split; assumption.
Qed.

(** [shuffle] draws from the generator alone: from the same generator
    state it draws the same order. *)
Lemma mem_blind_shuffle {A} (d : A) (a : list A) : mem_blind (shuffle E d a).
Proof.
  intros w1 w2 (Hr & Hh & Hd & Hf & Hc & Hs). unfold shuffle. rewrite Hr.
  destruct (random_permutation E (w_rng w2) (length a)) as [perm g].
  split; [reflexivity|]. unfold same_but_mem. cbn. rewrite Hs. repeat split; assumption.
Qed.

Ltac blind :=
  repeat first
    [ apply mem_blind_ret | apply mem_blind_raise | apply mem_blind_lift
    | apply mem_blind_set_rng | apply mem_blind_log_call | apply mem_blind_alloc
    | apply mem_blind_deref | apply mem_blind_isdir | apply mem_blind_makedirs
    | apply mem_blind_np_save | apply mem_blind_shuffle
    | apply mem_blind_mapM; intros ?
    | apply mem_blind_foldM; intros ? ?
    | apply mem_blind_bind; [|intros ?]
    | progress cbv beta zeta
    | match goal with
      | |- mem_blind (match ?x with _ => _ end) => destruct x
      end ].

Lemma mem_blind_load_epochs (args : Args) (data_part : string) (s : nat) :
  mem_blind (load_epochs E args data_part s).
Proof. unfold load_epochs. blind. Qed.

Lemma mem_blind_sort_data (data_part : string) (epochs : EpochsObj F) :
  mem_blind (sort_data E data_part epochs).
Proof. unfold sort_data, sort_condition. blind. Qed.

Lemma mem_blind_epoching_session (args : Args) (data_part : string) (s : nat) :
  mem_blind (epoching_session E args data_part s).
Proof.
  unfold epoching_session. blind.
Qed.




Lemma mem_blind_shuffle_and_save (args : Args) (merged : ndarray4 F) (file_name : string)
    (ch_names : list string) (times : list F) :
  mem_blind (shuffle_and_save E args merged file_name ch_names times).
Proof. unfold shuffle_and_save. blind. Qed.

End MemoryBlind.

Section MemoryIndependence.
Variable E : Externals.
Local Abbreviation F := (scalar E).
Variable args : Args.
Hypothesis recognised : mvnn_dim args = "time" \/ mvnn_dim args = "epochs".











End MemoryIndependence.



(** That run of the pipeline returns: it draws ten orders, four in each
    call of [epoching] and one for each file, and writes the test file and
    then the training file, of 2 conditions by 40 and by 4 repetitions. *)
Example pipeline_runs_on_two_sessions :
  fst (pipeline (Demo.ext Demo.two_session_subject) (Demo.args_of 2 1000)
         (Demo.world_with Demo.two_session_subject 1 0)) = Ok tt /\
  length (w_draws (snd (pipeline (Demo.ext Demo.two_session_subject) (Demo.args_of 2 1000)
                          (Demo.world_with Demo.two_session_subject 1 0)))) = 10 /\
  map (fun f => (fst f, shape4 (preprocessed_eeg_data (snd f))))
    (w_files (snd (pipeline (Demo.ext Demo.two_session_subject) (Demo.args_of 2 1000)
                     (Demo.world_with Demo.two_session_subject 1 0))))
  = [("/data/eeg_dataset/preprocessed_data/sub-01/preprocessed_eeg_training.npy",
      (2, 4, 2, 1));
     ("/data/eeg_dataset/preprocessed_data/sub-01/preprocessed_eeg_test.npy",
      (2, 40, 2, 1))].
Proof. repeat split; vm_compute; reflexivity. Qed.

(** * The claims about the training merge of [save_prepr] *)

(** C1 (amended).  The training tensors and label vectors of the sessions
    are concatenated along the condition axis.  Whenever the merge returns,
    the merged tensor has one row per distinct label and a repetition axis
    twice as long as the sessions' (4 for the cap 2), whatever the number
    of sessions.  When every label of [1..C] is carried by exactly two rows
    of the concatenation (two sessions contribute the condition), the
    merge returns and row [c - 1] stacks, in the order met, all the
    repetitions of label [c]: its length is the total contributed. *)
Theorem merge_train_stacks_two_sessions (E : Externals) (args : Args)
    (whitened_train : list (ndarray4 (scalar E))) (img_conditions_train : list (list Z))
    (white_data : ndarray4 (scalar E)) (img_cond : list Z) :
  Forall wf4 whitened_train ->
  (forall s t c, nth_error whitened_train s = Some t ->
                 nth_error img_conditions_train s = Some c -> dim4_0 t = length c) ->
  concat_train E args whitened_train img_conditions_train = Ok (Some (white_data, img_cond)) ->
  data4 white_data
  = concat (map (@data4 (scalar E)) (firstn (Z.to_nat (n_ses args)) whitened_train)) /\
  img_cond = concat (firstn (Z.to_nat (n_ses args)) img_conditions_train) /\
  (forall t, nth_error whitened_train 0 = Some t -> dim4_1 white_data = dim4_1 t) /\
  (forall merged,
      merge_train E white_data img_cond = Ok merged ->
      dim4_0 merged = length (np_unique img_cond) /\
      dim4_1 merged = dim4_1 white_data * 2) /\
  ((forall i, i < length (np_unique img_cond) ->
              count_occ Z.eq_dec img_cond (Z.of_nat (i + 1)) = 2) ->
   exists merged,
     merge_train E white_data img_cond = Ok merged /\
     forall i, i < length (np_unique img_cond) ->
       nth i (data4 merged) []
       = concat (map (fun j => nth j (data4 white_data) [])
                   (np_where_eq img_cond (Z.of_nat (i + 1)))) /\
       length (nth i (data4 merged) [])
       = count_occ Z.eq_dec img_cond (Z.of_nat (i + 1)) * dim4_1 white_data /\
       dim4_1 merged = count_occ Z.eq_dec img_cond (Z.of_nat (i + 1)) * dim4_1 white_data).
Proof.
  intros Hwf Hlab Hcat.
  destruct (concat_train_spec E whitened_train img_conditions_train Hwf Hlab args _ _ Hcat)
    as (Hwfw & Hlen & Hdata & Himg & Hfirst).
  split; [exact Hdata|]. split; [exact Himg|]. split; [exact Hfirst|]. split.
  - intros merged Hm. apply merge_train_shape in Hm. destruct Hm as [Hsh _].
    inversion Hsh. auto.
  - intros Hcount.
    destruct (merge_train_two_sessions E white_data img_cond Hwfw Hlen Hcount)
      as [merged [Hm Hrows]].
    exists merged. split; [exact Hm|]. intros i Hi.
    apply merge_train_shape in Hm. destruct Hm as [Hsh Hwfm].
    inversion Hsh as [[H0 H1 H2 H3]].
    split; [apply Hrows, Hi|]. rewrite (Hcount i Hi).
    split; [|lia].
    unfold wf4 in Hwfm. apply rect4_inv in Hwfm. destruct Hwfm as [_ Hrow].
    specialize (Hrow i ltac:(lia)). apply rect3_inv in Hrow. destruct Hrow as [Hl _].
    rewrite Hl, H1. lia.
Qed.

(** Two sessions, each with two repetitions of the conditions 1 and 2. *)
Lemma merge_train_stacks_two_sessions_witness :
  concat_train (Demo.ext []) (Demo.args_of 2 100) Demo.two_sessions [[1; 2]; [1; 2]]%Z
  = Ok (Some (mk4 4 2 1 1 [[[[0]]; [[100]]]; [[[1000]]; [[1100]]];
                           [[[5000]]; [[5100]]]; [[[6000]]; [[6100]]]]%Z,
              [1; 2; 1; 2]%Z)) /\
  exists merged,
    merge_train (Demo.ext [])
      (mk4 4 2 1 1 [[[[0]]; [[100]]]; [[[1000]]; [[1100]]];
                    [[[5000]]; [[5100]]]; [[[6000]]; [[6100]]]]%Z)
      [1; 2; 1; 2]%Z
    = Ok merged /\
    forall i, i < length (np_unique [1; 2; 1; 2]%Z) ->
      nth i (data4 merged) []
      = concat (map (fun j => nth j [[[[0]]; [[100]]]; [[[1000]]; [[1100]]];
                                   [[[5000]]; [[5100]]]; [[[6000]]; [[6100]]]]%Z [])
                  (np_where_eq [1; 2; 1; 2]%Z (Z.of_nat (i + 1)))) /\
      length (nth i (data4 merged) [])
      = count_occ Z.eq_dec [1; 2; 1; 2]%Z (Z.of_nat (i + 1)) * 2 /\
      dim4_1 merged = count_occ Z.eq_dec [1; 2; 1; 2]%Z (Z.of_nat (i + 1)) * 2.
Proof.
  split; [vm_compute; reflexivity|].
  apply (proj2 (proj2 (proj2 (proj2
           (merge_train_stacks_two_sessions (Demo.ext []) (Demo.args_of 2 100)
              Demo.two_sessions [[1; 2]; [1; 2]]%Z
              (mk4 4 2 1 1 [[[[0]]; [[100]]]; [[[1000]]; [[1100]]];
                            [[[5000]]; [[5100]]]; [[[6000]]; [[6100]]]]%Z)
              [1; 2; 1; 2]%Z
              ltac:(repeat constructor)
              ltac:(intros [|[|[|s]]] t c Ht Hc; simpl in Ht, Hc;
                    inversion Ht; inversion Hc; reflexivity)
              ltac:(vm_compute; reflexivity)))))).
  intros [|[|i]] Hi; [reflexivity|reflexivity|simpl in Hi; lia].
Defined.

(** C1, as stated, fails.  With four sessions of which two contribute
    each condition, the merged repetition axis has length 4, not
    [2 * n_ses = 8]; with three sessions that all contribute the one
    condition, six repetitions do not fit the four places of the row and
    [save_prepr] raises [ValueError], after it has written the test file. *)
Lemma merged_length_not_twice_n_ses :
  (fst (save_prepr (Demo.ext []) (Demo.args_of 4 100) Demo.four_sessions
          Demo.four_sessions [[1]; [1]; [2]; [2]]%Z ["O1"] [0%Z] (Demo.world0 []))
   = Ok tt /\
   map (fun f => (fst f, dim4_1 (preprocessed_eeg_data (snd f))))
     (w_files (snd (save_prepr (Demo.ext []) (Demo.args_of 4 100) Demo.four_sessions
                      Demo.four_sessions [[1]; [1]; [2]; [2]]%Z ["O1"] [0%Z]
                      (Demo.world0 []))))
   = [("/data/eeg_dataset/preprocessed_data/sub-01/preprocessed_eeg_training.npy", 4);
      ("/data/eeg_dataset/preprocessed_data/sub-01/preprocessed_eeg_test.npy", 8)] /\
   4 <> 2 * Z.to_nat (n_ses (Demo.args_of 4 100))) /\
  (fst (save_prepr (Demo.ext []) (Demo.args_of 3 100) Demo.three_sessions
          Demo.three_sessions [[1]; [1]; [1]]%Z ["O1"] [0%Z] (Demo.world0 []))
   = Raise ValueError /\
   map fst
     (w_files (snd (save_prepr (Demo.ext []) (Demo.args_of 3 100) Demo.three_sessions
                      Demo.three_sessions [[1]; [1]; [1]]%Z ["O1"] [0%Z]
                      (Demo.world0 []))))
   = ["/data/eeg_dataset/preprocessed_data/sub-01/preprocessed_eeg_test.npy"]).
Proof.
  split; [split; [|split]|split].
  - vm_compute. reflexivity.
  - vm_compute. reflexivity.
  - vm_compute. lia.
  - vm_compute. reflexivity.
  - vm_compute. reflexivity.
Qed.

(** C8.  The merge looks up the labels [1..C], [C] the number of distinct
    labels.  When the labels are not exactly [1..C], one of [1..C] has no
    row.  If it is label 1, the merge raises [UnboundLocalError]; if it is
    a later one and the merge returns, its row is a copy of the row above,
    what the previous pass had gathered.  The merge raises nothing but
    [UnboundLocalError], [ValueError] and [IndexError]: neither
    [ShapeMismatchError] nor [ConfigurationError]. *)
Theorem merge_train_needs_dense_labels (E : Externals)
    (white_data : ndarray4 (scalar E)) (img_cond : list Z) :
  (np_unique img_cond <> map Z.of_nat (seq 1 (length (np_unique img_cond))) ->
   exists i, i < length (np_unique img_cond) /\ ~ In (Z.of_nat (i + 1)) img_cond) /\
  (0 < length (np_unique img_cond) -> ~ In 1%Z img_cond ->
   merge_train E white_data img_cond = Raise UnboundLocalError) /\
  (forall merged i,
      merge_train E white_data img_cond = Ok merged ->
      0 < i < length (np_unique img_cond) ->
      ~ In (Z.of_nat (i + 1)) img_cond ->
      nth i (data4 merged) [] = nth (i - 1) (data4 merged) []) /\
  (forall e, merge_train E white_data img_cond = Raise e ->
             e = UnboundLocalError \/ e = ValueError \/ e = IndexError) /\
  merge_train E white_data img_cond <> Raise ShapeMismatchError /\
  merge_train E white_data img_cond <> Raise ConfigurationError.
Proof.
  split; [apply not_dense_missing|].
  split; [apply merge_train_first_label_absent|].
  split; [intros merged i; apply merge_train_stale_row|].
  split; [intros e; apply merge_train_raises|].
  split; intros H; apply merge_train_raises in H; destruct H as [H|[H|H]]; discriminate.
Qed.

(** Rows labelled 1, 3, 1, 3: label 2 has no row and row 1 repeats row 0;
    rows labelled 2, 3, 2, 3: label 1 has no row. *)
Lemma merge_train_needs_dense_labels_witness :
  (merge_train (Demo.ext []) (Demo.tensor 0 4 2 1 1) [1; 3; 1; 3]%Z
   = Ok (mk4 2 4 1 1 [[[[0]]; [[100]]; [[2000]]; [[2100]]];
                      [[[0]]; [[100]]; [[2000]]; [[2100]]]]%Z) /\
   nth 1 [[[[0]]; [[100]]; [[2000]]; [[2100]]];
          [[[0]]; [[100]]; [[2000]]; [[2100]]]]%Z []
   = nth (1 - 1) [[[[0]]; [[100]]; [[2000]]; [[2100]]];
                  [[[0]]; [[100]]; [[2000]]; [[2100]]]]%Z []) /\
  merge_train (Demo.ext []) (Demo.tensor 0 4 2 1 1) [2; 3; 2; 3]%Z
  = Raise UnboundLocalError.
Proof.
  split; [split; [vm_compute; reflexivity|]|].
  - apply (proj1 (proj2 (proj2 (merge_train_needs_dense_labels (Demo.ext [])
                                  (Demo.tensor 0 4 2 1 1) [1; 3; 1; 3]%Z)))
             (mk4 2 4 1 1 [[[[0]]; [[100]]; [[2000]]; [[2100]]];
                           [[[0]]; [[100]]; [[2000]]; [[2100]]]]%Z) 1).
    + vm_compute. reflexivity.
    + simpl. lia.
    + simpl. intros [H|[H|[H|[H|[]]]]]; discriminate.
  - apply (proj1 (proj2 (merge_train_needs_dense_labels (Demo.ext [])
                           (Demo.tensor 0 4 2 1 1) [2; 3; 2; 3]%Z))).
    + simpl. lia.
    + simpl. intros [H|[H|[H|[H|[]]]]]; discriminate.
Defined.

(** * When [mvnn] returns *)

Lemma mapR_total {A B} (P : B -> Prop) (f : A -> result B) (l : list A) :
  (forall x, In x l -> exists y, f x = Ok y /\ P y) ->
  exists ys, mapR f l = Ok ys /\ Forall P ys /\ length ys = length l.
Proof.
  induction l as [|x t IH]; intros H; simpl.
  - exists []. auto.
  - destruct (H x (or_introl eq_refl)) as [y [Hy Py]].
    destruct IH as [ys [Hys [Pys Hl]]]; [intros z Hz; apply H; now right|].
    exists (y :: ys). rewrite Hy, Hys. simpl. auto.
Qed.

Section MvnnReturns.
Variable E : Externals.
Local Abbreviation F := (scalar E).

(** The covariance estimator returns a square matrix over the columns
    of its argument; the matrix power returns a matrix of the shape of
    its argument. *)
Hypothesis cov_square :
  forall x, exists c, sk_cov E x = Ok c /\ rows2 c = cols2 x /\ cols2 c = cols2 x.
Hypothesis power_shape :
  forall m, exists p, fractional_matrix_power_neg_half E m = Ok p /\
                      rows2 p = rows2 m /\ cols2 p = cols2 m.

Lemma np_mean_list_square (ch : nat) (covs : list (ndarray2 F)) :
  Forall (fun c => rows2 c = ch /\ cols2 c = ch) covs ->
  exists m, np_mean_list E covs = Ok m /\
            ((rows2 m = ch /\ cols2 m = ch) \/ (rows2 m = 1 /\ cols2 m = 1)).
Proof.
  intros Hall. destruct covs as [|m0 t]; simpl.
  - eexists. split; [reflexivity|]. right. auto.
  - rewrite !Nat.eqb_refl. simpl.
    assert (Ht : forallb (fun m => (rows2 m =? rows2 m0) && (cols2 m =? cols2 m0)) t
                 = true).
    { inversion Hall as [|? ? Hm0 Hrest]; subst. destruct Hm0 as [H0 H1].
      apply forallb_forall.
      intros m Hm. rewrite Forall_forall in Hrest. destruct (Hrest m Hm) as [Hr Hc].
      rewrite Hr, Hc, H0, H1, !Nat.eqb_refl. reflexivity. }
    rewrite Ht. eexists. split; [reflexivity|]. left.
    inversion Hall as [|? ? Hm0 _]. simpl. exact Hm0.
Qed.

Lemma setitem3_square (sigma : ndarray3 F) (i ch : nat) (m : ndarray2 F) :
  i < dim3_0 sigma -> dim3_1 sigma = ch -> dim3_2 sigma = ch ->
  (rows2 m = ch /\ cols2 m = ch) \/ (rows2 m = 1 /\ cols2 m = 1) ->
  exists sigma', setitem3 (f_zero E) sigma i m = Ok sigma' /\
                 shape3 sigma' = shape3 sigma.
Proof.
  intros Hi H1 H2 Hm. unfold setitem3. rewrite (proj2 (Nat.ltb_lt _ _) Hi).
  unfold broadcast2, bc_ok. rewrite H1, H2.
  destruct Hm as [[-> ->]|[-> ->]]; rewrite !Nat.eqb_refl, ?orb_true_r; simpl;
    eexists; (split; [reflexivity|]); unfold shape3; simpl; congruence.
Qed.

Lemma cond_cov_returns (args : Args) (cond_data sigma : ndarray3 F) (i ch : nat) :
  dim3_1 cond_data = ch ->
  i < dim3_0 sigma -> dim3_1 sigma = ch -> dim3_2 sigma = ch ->
  exists sigma', cond_cov E args cond_data i sigma = Ok sigma' /\
                 shape3 sigma' = shape3 sigma.
Proof.
  intros Hch Hi H1 H2. unfold cond_cov.
  destruct (String.eqb (mvnn_dim args) "time").
  - destruct (mapR_total (fun c : ndarray2 F => rows2 c = ch /\ cols2 c = ch)
                (fun t => let! x := slice_last (f_zero E) cond_data t in sk_cov E x)
                (seq 0 (dim3_2 cond_data))) as [covs [Hcovs [Hall _]]].
    { intros t Ht. apply in_seq in Ht. unfold slice_last.
      rewrite (proj2 (Nat.ltb_lt _ _)) by lia. simpl.
      destruct (cov_square (mk2 (dim3_0 cond_data) (dim3_1 cond_data)
                  (tabulate (dim3_0 cond_data) (fun i0 =>
                     tabulate (dim3_1 cond_data) (fun j =>
                       at3 (f_zero E) (data3 cond_data) i0 j t)))))
        as [c [Hc [Hr Hcl]]].
      exists c. simpl in Hr, Hcl. split; [exact Hc|]. split; congruence. }
    rewrite Hcovs. simpl.
    destruct (np_mean_list_square ch covs Hall) as [m [Hm Hsq]]. rewrite Hm. simpl.
    now apply (setitem3_square sigma i ch m).
  - destruct (String.eqb (mvnn_dim args) "epochs"); [|eauto].
    destruct (mapR_total (fun c : ndarray2 F => rows2 c = ch /\ cols2 c = ch)
                (fun e => let! x := getitem3 cond_data e in
                          sk_cov E (np_transpose (f_zero E) x))
                (seq 0 (dim3_0 cond_data))) as [covs [Hcovs [Hall _]]].
    { intros e He. apply in_seq in He. unfold getitem3.
      rewrite (proj2 (Nat.ltb_lt _ _)) by lia. simpl.
      destruct (cov_square (np_transpose (f_zero E)
                  (mk2 (dim3_1 cond_data) (dim3_2 cond_data)
                     (nth e (data3 cond_data) [])))) as [c [Hc [Hr Hcl]]].
      exists c. simpl in Hr, Hcl. split; [exact Hc|]. split; congruence. }
    rewrite Hcovs. simpl.
    destruct (np_mean_list_square ch covs Hall) as [m [Hm Hsq]]. rewrite Hm. simpl.
    now apply (setitem3_square sigma i ch m).
Qed.

Lemma part_cov_returns (args : Args) (d0 d1 : ndarray4 F) (p ch : nat)
    (sigma_part : ndarray3 F) (w : world E) :
  dim4_2 d0 = ch -> dim4_2 d1 = ch -> p < 2 ->
  shape3 sigma_part = (2, ch, ch) ->
  exists sigma' w', part_cov E args [d0; d1] ch p sigma_part w = (Ok sigma', w') /\
                    shape3 sigma' = (2, ch, ch).
Proof.
  intros H0 H1 Hp Hsh. unfold part_cov, bindM, lift.
  assert (Hpart : exists part, py_index [d0; d1] p = Ok part /\ dim4_2 part = ch).
  { destruct p as [|[|p]]; [exists d0|exists d1|lia]; auto. }
  destruct Hpart as [part [-> Hch]].
  destruct (np_empty3_run E (dim4_0 part) ch ch w) as (a & w1 & -> & Ha0 & Ha1 & Ha2 & _ & _).
  destruct (foldR_total (fun s : ndarray3 F => shape3 s = (dim4_0 part, ch, ch))
              (fun i sigma_cond =>
                 let! cond_data := getitem4 part i in
                 cond_cov E args cond_data i sigma_cond)
              (seq 0 (dim4_0 part)))
    with (s := a) as [sc [Hsc Hshape]].
  - intros i s Hi Hs. apply in_seq in Hi. rewrite getitem4_Ok by lia. simpl bindR.
    inversion Hs as [[Hs0 Hs1 Hs2]].
    destruct (cond_cov_returns args
                (mk3 (dim4_1 part) (dim4_2 part) (dim4_3 part) (nth i (data4 part) []))
                s i ch) as [s' [Hs' Hsh']]; simpl; auto; try lia.
    exists s'. split; [exact Hs'|]. congruence.
  - unfold shape3. congruence.
  - rewrite Hsc. inversion Hsh as [[Hp0 Hp1 Hp2]].
    destruct (setitem3_square sigma_part p ch (mean_axis0 E sc)) as [s' [Hs' Hsh']];
      auto; try lia.
    { left. inversion Hshape. simpl. auto. }
    exists s', w1. rewrite Hs'. split; [reflexivity|]. congruence.
Qed.

Lemma session_sigma_inv_returns (args : Args) (d0 d1 : ndarray4 F) (w : world E) :
  dim4_2 d1 = dim4_2 d0 ->
  exists sigma_inv w',
    session_sigma_inv E args [d0; d1] w = (Ok sigma_inv, w') /\
    rows2 sigma_inv = dim4_2 d0 /\ cols2 sigma_inv = dim4_2 d0.
Proof.
  intros Hch. unfold session_sigma_inv. unfold bindM at 1. unfold lift at 1.
  cbn [py_index nth_error length]. unfold bindM at 1.
  destruct (np_empty3_run E 2 (dim4_2 d0) (dim4_2 d0) w)
    as (a & w1 & -> & Ha0 & Ha1 & Ha2 & _ & _).
  rewrite Ha0. cbn [seq foldM]. unfold bindM at 1. unfold bindM at 1.
  destruct (part_cov_returns args d0 d1 0 (dim4_2 d0) a w1) as (s1 & w2 & Hs1 & Hsh1); auto.
  { unfold shape3. congruence. }
  rewrite Hs1. unfold bindM at 1.
  destruct (part_cov_returns args d0 d1 1 (dim4_2 d0) s1 w2) as (s2 & w3 & Hs2 & Hsh2); auto.
  rewrite Hs2. unfold ret, lift.
  destruct (power_shape (mean_axis0 E s2)) as [pw [Hpw [Hr Hc]]].
  exists pw, w3. rewrite Hpw. split; [reflexivity|]. inversion Hsh2. simpl in Hr, Hc.
  split; congruence.
Qed.

(** One session of [mvnn] returns when both tensors are in the store,
    have the same number of channels, and have channels and time
    points. *)
Lemma mvnn_session_returns (args : Args) (epoched_test epoched_train : list loc)
    (s : nat) vars w l0 l1 d0 d1 :
  nth_error epoched_test s = Some l0 -> nth_error epoched_train s = Some l1 ->
  nth_error (w_heap w) l0 = Some d0 -> nth_error (w_heap w) l1 = Some d1 ->
  dim4_2 d1 = dim4_2 d0 -> dim4_2 d0 * dim4_3 d0 <> 0 -> dim4_2 d1 * dim4_3 d1 <> 0 ->
  exists vars' w', mvnn_session E args epoched_test epoched_train s vars w
                   = (Ok vars', w').
Proof.
  intros H0 H1 Hd0 Hd1 Hch Hp0 Hp1. destruct vars as [wt wtr].
  unfold mvnn_session, bindM, lift, deref, alloc, ret.
  rewrite (proj2 (py_index_Ok _ _ _) H0), (proj2 (py_index_Ok _ _ _) H1), Hd0, Hd1.
  destruct (session_sigma_inv_returns args d0 d1 w Hch) as (sg & v & Hsg & Hr & Hc).
  rewrite Hsg.
  destruct (whiten_returns E d0 sg Hp0 Hr Hc) as [y0 Hy0]. rewrite Hy0.
  cbn [w_heap].
  destruct (whiten_returns E d1 sg Hp1) as [y1 Hy1]; [congruence|congruence|].
  rewrite Hy1. eauto.
Qed.
End MvnnReturns.

Lemma foldM_total_w {E A S} (P : S -> world E -> Prop) (body : A -> S -> M E S)
    (l : list A) :
  (forall x s w, In x l -> P s w -> exists s' w', body x s w = (Ok s', w') /\ P s' w') ->
  forall s w, P s w -> exists s' w', foldM body l s w = (Ok s', w') /\ P s' w'.
Proof.
  induction l as [|x t IH]; simpl; intros Hstep s w Hs.
  - exists s, w. split; [reflexivity|exact Hs].
  - destruct (Hstep x s w (or_introl eq_refl) Hs) as [s1 [w1 [H1 P1]]].
    destruct (IH (fun y u v Hy => Hstep y u v (or_intror Hy)) s1 w1 P1)
      as [s2 [w2 [H2 P2]]].
    exists s2, w2. split; [|exact P2]. unfold bindM. now rewrite H1.
Qed.

(** * The claim about [mvnn] *)

(** C6.  Whenever [mvnn] returns, every array object of the store is the
    array it was (the input tensors are not modified), and for every session
    the whitened test and training tensors are objects created by the
    call, well formed and of exactly the shape of the session's input
    tensors.  And [mvnn] does return when the covariance estimator and the
    matrix power return square matrices over the channels, and each
    session's two tensors are in the store with the same number of channels
    and with channels and time points. *)
Theorem mvnn_preserves_shape_and_inputs (E : Externals) (args : Args)
    (epoched_test epoched_train : list loc) (w : world E) :
  (forall whitened_test whitened_train w',
      mvnn E args epoched_test epoched_train w = (Ok (whitened_test, whitened_train), w') ->
      (forall l a, nth_error (w_heap w) l = Some a -> nth_error (w_heap w') l = Some a) /\
      length whitened_test = Z.to_nat (n_ses args) /\
      length whitened_train = Z.to_nat (n_ses args) /\
      forall s, s < Z.to_nat (n_ses args) ->
        whitened_like E w w' epoched_test whitened_test s /\
        whitened_like E w w' epoched_train whitened_train s) /\
  ((forall x, exists c, sk_cov E x = Ok c /\ rows2 c = cols2 x /\ cols2 c = cols2 x) ->
   (forall m, exists p, fractional_matrix_power_neg_half E m = Ok p /\
                        rows2 p = rows2 m /\ cols2 p = cols2 m) ->
   (forall s, s < Z.to_nat (n_ses args) ->
      exists l0 l1 d0 d1,
        nth_error epoched_test s = Some l0 /\ nth_error epoched_train s = Some l1 /\
        nth_error (w_heap w) l0 = Some d0 /\ nth_error (w_heap w) l1 = Some d1 /\
        dim4_2 d1 = dim4_2 d0 /\
        dim4_2 d0 * dim4_3 d0 <> 0 /\ dim4_2 d1 * dim4_3 d1 <> 0) ->
   exists whitened_test whitened_train w',
     mvnn E args epoched_test epoched_train w = (Ok (whitened_test, whitened_train), w')).
Proof.
  split.
  - intros wt wtr w' H. unfold mvnn, py_range in H. apply mvnn_prefix in H.
    destruct H as (Hext & Hl1 & Hl2 & Hall & _).
    split; [intros l a; now apply heap_extends_lookup|]. auto.
  - intros Hcov Hpow Hin. unfold mvnn, py_range.
    destruct (foldM_total_w (fun (_ : list loc * list loc) w1 => heap_extends E w w1)
                (mvnn_session E args epoched_test epoched_train)
                (seq 0 (Z.to_nat (n_ses args))))
      with (s := (@nil loc, @nil loc)) (w := w) as [[wt wtr] [w' [H _]]].
    + intros s vars w1 Hs Hext. apply in_seq in Hs.
      destruct (Hin s ltac:(lia)) as (l0 & l1 & d0 & d1 & H0 & H1 & Hd0 & Hd1 & Hch & Hp0 & Hp1).
      destruct (mvnn_session_returns E Hcov Hpow args epoched_test epoched_train s vars w1
                  l0 l1 d0 d1 H0 H1
                  (heap_extends_lookup E _ _ _ _ Hext Hd0)
                  (heap_extends_lookup E _ _ _ _ Hext Hd1) Hch Hp0 Hp1)
        as [[wt1 wtr1] [w2 Hstep]].
      exists (wt1, wtr1), w2. split; [exact Hstep|].
      destruct vars as [wt0 wtr0]. apply mvnn_session_Ok in Hstep.
      destruct Hstep as (_ & _ & _ & _ & _ & o0 & o1 & _ & _ & _ & _ & _ & _ & _ & Hheap & _).
      destruct Hext as [f1 Hf1]. exists (f1 ++ [o0; o1]).
      rewrite Hheap, Hf1, app_assoc. reflexivity.
    + exists []. now rewrite app_nil_r.
    + eauto.
Qed.

(** One session: a test tensor of shape (2, 2, 2, 3) and a training tensor
    of shape (3, 2, 2, 3) in the store, at the locations 0 and 1. *)
Lemma mvnn_preserves_shape_and_inputs_witness :
  (exists whitened_test whitened_train w',
      mvnn (Demo.ext []) (Demo.args_of 1 100) [0] [1] Demo.store
      = (Ok (whitened_test, whitened_train), w')) /\
  (forall l a, nth_error (w_heap Demo.store) l = Some a ->
               nth_error (w_heap (snd (mvnn (Demo.ext []) (Demo.args_of 1 100) [0] [1]
                                         Demo.store))) l = Some a) /\
  whitened_like (Demo.ext []) Demo.store
    (snd (mvnn (Demo.ext []) (Demo.args_of 1 100) [0] [1] Demo.store)) [0] [2] 0 /\
  whitened_like (Demo.ext []) Demo.store
    (snd (mvnn (Demo.ext []) (Demo.args_of 1 100) [0] [1] Demo.store)) [1] [3] 0.
Proof.
  assert (Hrun : mvnn (Demo.ext []) (Demo.args_of 1 100) [0] [1] Demo.store
                 = (Ok ([2], [3]),
                    snd (mvnn (Demo.ext []) (Demo.args_of 1 100) [0] [1] Demo.store))).
  { assert (Hfst : fst (mvnn (Demo.ext []) (Demo.args_of 1 100) [0] [1] Demo.store)
                   = Ok ([2], [3])) by (vm_compute; reflexivity).
    rewrite <- Hfst. apply surjective_pairing. }
  pose proof (mvnn_preserves_shape_and_inputs (Demo.ext []) (Demo.args_of 1 100)
                [0] [1] Demo.store) as [Hshape Hreturns].
  split.
  - apply Hreturns.
    + intros x. eexists. split; [reflexivity|]. split; reflexivity.
    + intros m. eexists. split; [reflexivity|]. split; reflexivity.
    + intros [|s] Hs; [|simpl in Hs; lia].
      exists 0, 1, (Demo.tensor 0 2 2 2 3), (Demo.tensor 5000 3 2 2 3).
      repeat split; try reflexivity; simpl; lia.
  - pose proof (Hshape _ _ _ Hrun) as (Hframe & _ & _ & Hall).
    split; [exact Hframe|]. exact (Hall 0 Nat.lt_0_1).
Defined.

(** [save_prepr] alone does depend on the state it finds the generator in:
    it never seeds it.  From the states 0 and 1 the repetitions of the same
    tensors are saved in different orders. *)
Example save_prepr_draws_from_generator :
  fst (save_prepr (Demo.ext []) (Demo.args_of 2 100) Demo.two_sessions Demo.two_sessions
         [[1; 2]; [1; 2]]%Z ["O1"] [0%Z] (Demo.world_at [] 0)) = Ok tt /\
  w_files (snd (save_prepr (Demo.ext []) (Demo.args_of 2 100) Demo.two_sessions
                  Demo.two_sessions [[1; 2]; [1; 2]]%Z ["O1"] [0%Z] (Demo.world_at [] 0)))
  <> w_files (snd (save_prepr (Demo.ext []) (Demo.args_of 2 100) Demo.two_sessions
                     Demo.two_sessions [[1; 2]; [1; 2]]%Z ["O1"] [0%Z] (Demo.world_at [] 1))).
Proof. split; [vm_compute; reflexivity|]. vm_compute. discriminate. Qed.
(** * Further properties of [epoching]: what the rows of the sorted
      tensor hold *)

Lemma NoDup_firstn {A} (n : nat) (l : list A) : NoDup l -> NoDup (firstn n l).
Proof.
  revert n. induction l as [|x t IH]; intros [|n] H; simpl; try constructor.
  - inversion H; subst. intros Hin. apply In_firstn in Hin. contradiction.
  - inversion H; subst. now apply IH.
Qed.

Lemma where_from_NoDup (a : list Z) (v : Z) (i : nat) : NoDup (where_from i a v).
Proof.
  revert i. induction a as [|x t IH]; intros i; simpl; [constructor|].
  destruct (Z.eqb x v); [|apply IH].
  constructor; [|apply IH].
  intros Hin. apply where_from_spec in Hin. lia.
Qed.

Lemma shuffled_Permutation {A} (d : A) (l : list A) (perm : list nat) :
  Permutation perm (seq 0 (length l)) ->
  Permutation (map (fun j => nth j l d) perm) l.
Proof.
  intros H. apply (Permutation_map (fun j => nth j l d)) in H.
  replace (map (fun j => nth j l d) (seq 0 (length l))) with l in H; [exact H|].
  symmetry. apply (tabulate_nth l d (length l)). reflexivity.
Qed.


Lemma max_rep_of_ge_2 (data_part : string) : 2 <= max_rep_of data_part.
Proof. unfold max_rep_of. destruct (String.eqb _ _); lia. Qed.

Lemma foldM_Raise_inv_P {E A S} (P : S -> Prop) (body : A -> S -> M E S) (l : list A) :
  (forall x s w s' w', In x l -> P s -> body x s w = (Ok s', w') -> P s') ->
  forall s w e w', P s -> foldM body l s w = (Raise e, w') ->
  exists x s1 w1, In x l /\ P s1 /\ body x s1 w1 = (Raise e, w').
Proof.
  induction l as [|x t IH]; intros Hstep s w e w' Hs H; simpl in H.
  - unfold ret in H. discriminate.
  - unfold bindM in H. destruct (body x s w) as [[s1|e1] w1] eqn:Hb.
    + destruct (IH (fun y a v a' v' Hy => Hstep y a v a' v' (or_intror Hy))
                  s1 w1 e w') as (y & s2 & w2 & Hy & Hp & Hr).
      * eapply Hstep; [left; reflexivity|exact Hs|exact Hb].
      * exact H.
      * exists y, s2, w2. repeat split; auto. now right.
    + inversion H; subst. exists x, s, w. repeat split; auto. now left.
Qed.

Section SortDataRows.
Variable E : Externals.
Local Abbreviation F := (scalar E).
Variables (events img_cond : list Z) (data : ndarray3 F) (cap : nat).

Local Abbreviation drawn := (drawn E events img_cond cap).

Lemma sort_condition_inv (i : nat) (sd sd' : ndarray4 F) w w' :
  sort_condition E events img_cond data cap i sd w = (Ok sd', w') ->
  exists row,
    (forall j, In j (drawn (w_rng w) i) -> j < dim3_0 data) /\
    i < dim4_0 sd /\
    broadcast3 (f_zero E)
      (mk3 (length (drawn (w_rng w) i)) (dim3_1 data) (dim3_2 data)
         (map (fun j => nth j (data3 data) []) (drawn (w_rng w) i)))
      (dim4_1 sd) (dim4_2 sd) (dim4_3 sd) = Ok row /\
    sd' = mk4 (dim4_0 sd) (dim4_1 sd) (dim4_2 sd) (dim4_3 sd) (set_nth i row (data4 sd)).
Proof.
  unfold sort_condition, bindM, shuffle, lift, drawn.
  set (idx := np_where_eq events (nth i img_cond 0%Z)).
  destruct (random_permutation E (w_rng w) (length idx)) as [perm g]. cbn [fst].
  set (sel := firstn cap (map (fun j => nth j idx 0) perm)).
  unfold take3. destruct (forallb _ sel) eqn:Hall; [|discriminate].
  unfold setitem4. destruct (i <? dim4_0 sd) eqn:Hi; [|discriminate].
  destruct (broadcast3 _ _ _ _ _) as [row|e] eqn:Hb; cbn [bindR]; [|discriminate].
  intros H. inversion H; subst. exists row. repeat split.
  - intros j Hj. apply Nat.ltb_lt. revert j Hj. apply forallb_forall. exact Hall.
  - now apply Nat.ltb_lt.
Qed.

Lemma sort_condition_merged_inv (i : nat) (sd0 sd sd' : ndarray4 F) w w' :
  merged_inv E sd0 sd ->
  sort_condition E events img_cond data cap i sd w = (Ok sd', w') ->
  merged_inv E sd0 sd'.
Proof.
  intros [Hs Hl] H. apply sort_condition_inv in H.
  destruct H as (row & _ & _ & _ & ->). split.
  - rewrite <- Hs. reflexivity.
  - cbn [data4]. now rewrite length_set_nth.
Qed.

Lemma sort_loop_frame (l : list nat) (sd0 sd sd' : ndarray4 F) (j : nat) w w' :
  ~ In j l -> merged_inv E sd0 sd ->
  foldM (sort_condition E events img_cond data cap) l sd w = (Ok sd', w') ->
  merged_inv E sd0 sd' /\ nth j (data4 sd') [] = nth j (data4 sd) [].
Proof.
  intros Hj Hinv H.
  refine (foldM_inv
            (fun s => merged_inv E sd0 s /\ nth j (data4 s) [] = nth j (data4 sd) [])
            _ l _ sd w sd' w' (conj Hinv eq_refl) H).
  intros x s v s' v' Hx [Hi Hn] Hb. split.
  - eapply sort_condition_merged_inv; eauto.
  - apply sort_condition_inv in Hb. destruct Hb as (row & _ & _ & _ & ->).
    cbn [data4]. rewrite nth_set_nth_other; [exact Hn|]. intros ->. contradiction.
Qed.

(** Row [i] of the tensor the loop returns is what pass [i] assigned. *)
Lemma sort_loop_row (n i : nat) (sd0 sd' : ndarray4 F) w w' :
  i < n -> merged_inv E sd0 sd0 ->
  foldM (sort_condition E events img_cond data cap) (seq 0 n) sd0 w = (Ok sd', w') ->
  exists g,
    (forall j, In j (drawn g i) -> j < dim3_0 data) /\
    i < dim4_0 sd0 /\
    broadcast3 (f_zero E)
      (mk3 (length (drawn g i)) (dim3_1 data) (dim3_2 data)
         (map (fun j => nth j (data3 data) []) (drawn g i)))
      (dim4_1 sd0) (dim4_2 sd0) (dim4_3 sd0) = Ok (nth i (data4 sd') []).
Proof.
  intros Hi Hinv H.
  assert (Hseq : seq 0 n = seq 0 i ++ [i] ++ seq (S i) (n - S i)).
  { replace n with (i + S (n - S i)) at 1 by lia. rewrite seq_app. reflexivity. }
  rewrite Hseq, foldM_app in H. apply bindM_Ok_inv in H.
  destruct H as (sd1 & w1 & H1 & H).
  rewrite foldM_app in H. apply bindM_Ok_inv in H.
  destruct H as (sd2 & w2 & H2 & H3).
  assert (Hinv1 : merged_inv E sd0 sd1).
  { refine (foldM_inv (merged_inv E sd0) _ (seq 0 i) _ sd0 w sd1 w1 Hinv H1).
    intros x s v s' v' _. apply sort_condition_merged_inv. }
  cbn [foldM] in H2. apply bindM_Ok_inv in H2.
  destruct H2 as (sd2' & w2' & H2 & Hret). unfold ret in Hret. inversion Hret; subst sd2' w2'.
  pose proof (sort_condition_merged_inv _ _ _ _ _ _ Hinv1 H2) as Hinv2.
  apply sort_condition_inv in H2. destruct H2 as (row & Hsel & Hlt & Hb & Hsd2).
  destruct (sort_loop_frame (seq (S i) (n - S i)) sd0 sd2 sd' i w2 w') as [_ Hrow]; auto.
  { rewrite in_seq. lia. }
  destruct Hinv1 as [Hs1 Hl1]. unfold shape4 in Hs1.
  injection Hs1 as Ha Hb1 Hc Hd.
  exists (w_rng w1). split; [exact Hsel|]. split; [lia|].
  rewrite <- Hb1, <- Hc, <- Hd, Hb. f_equal. rewrite Hrow, Hsd2. cbn [data4].
  symmetry. apply nth_set_nth_same. lia.
Qed.

Hypothesis draws_permute :
  forall g n, Permutation (fst (random_permutation E g n)) (seq 0 n).

Lemma drawn_spec (g : RandomState E) (i : nat) :
  NoDup (drawn g i) /\
  (forall j, In j (drawn g i) -> nth_error events j = Some (nth i img_cond 0%Z)) /\
  length (drawn g i) = Nat.min cap (count_occ Z.eq_dec events (nth i img_cond 0%Z)).
Proof.
  unfold drawn. set (idx := np_where_eq events (nth i img_cond 0%Z)).
  pose proof (shuffled_Permutation 0 idx _ (draws_permute g (length idx))) as Hp.
  repeat split.
  - apply NoDup_firstn. apply (Permutation_NoDup (Permutation_sym Hp)).
    apply where_from_NoDup.
  - intros j Hj. apply In_firstn in Hj. apply (Permutation_in _ Hp) in Hj.
    now apply np_where_eq_spec.
  - rewrite length_firstn, (Permutation_length Hp). unfold idx.
    now rewrite np_where_eq_length.
Qed.
End SortDataRows.


Lemma bc_ok_refl (n : nat) : bc_ok n n = true.
Proof. unfold bc_ok. now rewrite Nat.eqb_refl. Qed.

Lemma bc_ix_same (n i : nat) : bc_ix n n i = i.
Proof. unfold bc_ix. now rewrite Nat.eqb_refl. Qed.

(** The loop of [sort_data] run on the tensor it creates. *)
Lemma sort_data_Ok_inv (E : Externals) (data_part : string) (epochs : EpochsObj (scalar E))
    w sorted img_cond w' :
  sort_data E data_part epochs w = (Ok (sorted, img_cond), w') ->
  img_cond = np_unique (map marker (ep_events epochs)) /\
  foldM (sort_condition E (map marker (ep_events epochs)) img_cond (ep_data epochs)
           (max_rep_of data_part))
    (seq 0 (length img_cond))
    (full4 (f_zero E) (length img_cond) (max_rep_of data_part)
       (dim3_1 (ep_data epochs)) (dim3_2 (ep_data epochs))) w
  = (Ok sorted, w').
Proof.
  unfold sort_data. intros H. apply bindM_Ok_inv in H.
  destruct H as (sd & w1 & Hf & Hret). unfold ret in Hret.
  inversion Hret; subst. split; [reflexivity|exact Hf].
Qed.



Section SortDataTotal.
Variable E : Externals.
Local Abbreviation F := (scalar E).
Variable data_part : string.
Variable epochs : EpochsObj F.

Hypothesis draws_permute :
  forall g n, Permutation (fst (random_permutation E g n)) (seq 0 n).
Hypothesis one_epoch_per_event : dim3_0 (ep_data epochs) = length (ep_events epochs).

Local Abbreviation events := (map marker (ep_events epochs)).
Local Abbreviation cap := (max_rep_of data_part).

(** With one epoch per event, the positions drawn index the epochs. *)
Lemma drawn_in_range (img_cond : list Z) (g : RandomState E) (i j : nat) :
  In j (drawn E events img_cond cap g i) -> j < dim3_0 (ep_data epochs).
Proof.
  intros Hj.
  destruct (drawn_spec E events img_cond cap draws_permute g i) as (_ & Hin & _).
  apply Hin in Hj. rewrite one_epoch_per_event, <- (length_map marker).
  apply nth_error_Some. now rewrite Hj.
Qed.

(** One pass of the loop returns when the condition has one epoch or at
    least [max_rep], and raises [ValueError] otherwise. *)
Lemma sort_condition_result (img_cond : list Z) (i : nat) (sd : ndarray4 F) w :
  i < dim4_0 sd -> dim4_1 sd = cap ->
  dim4_2 sd = dim3_1 (ep_data epochs) -> dim4_3 sd = dim3_2 (ep_data epochs) ->
  let k := count_occ Z.eq_dec events (nth i img_cond 0%Z) in
  (k = 1 \/ cap <= k ->
   exists sd' w', sort_condition E events img_cond (ep_data epochs) cap i sd w = (Ok sd', w')) /\
  (1 < k < cap ->
   exists w', sort_condition E events img_cond (ep_data epochs) cap i sd w
              = (Raise ValueError, w')) /\
  (forall e w', sort_condition E events img_cond (ep_data epochs) cap i sd w = (Raise e, w') ->
                e = ValueError /\ (k = 0 \/ 1 < k < cap)).
Proof.
  intros Hi H1 H2 H3 k.
  pose proof (drawn_in_range img_cond (w_rng w) i) as Hrange.
  destruct (drawn_spec E events img_cond cap draws_permute (w_rng w) i) as (_ & _ & Hlen).
  fold k in Hlen. pose proof (max_rep_of_ge_2 data_part) as Hcap.
  unfold drawn in Hrange, Hlen.
  unfold sort_condition, bindM, shuffle, lift.
  set (idx := np_where_eq events (nth i img_cond 0%Z)) in *.
  destruct (random_permutation E (w_rng w) (length idx)) as [perm g] eqn:Hrp.
  try rewrite Hrp in Hlen. try rewrite Hrp in Hrange. cbn [fst] in *.
  set (sel := firstn cap (map (fun j => nth j idx 0) perm)) in *.
  unfold take3. rewrite (proj2 (forallb_forall _ _)).
  2:{ intros j Hj. apply Nat.ltb_lt. now apply Hrange. }
  unfold setitem4. rewrite (proj2 (Nat.ltb_lt _ _) Hi).
  unfold broadcast3. cbn [dim3_0 dim3_1 dim3_2 data3].
  rewrite H1, H2, H3, !bc_ok_refl, !andb_true_r.
  destruct (bc_ok (length sel) cap) eqn:Hbc; cbn [bindR].
  - unfold bc_ok in Hbc. apply orb_true_iff in Hbc.
    repeat rewrite Nat.eqb_eq in Hbc.
    split; [intros _; eauto|]. split; [intros Hk; exfalso; lia|].
    intros e w' H. discriminate.
  - unfold bc_ok in Hbc. apply orb_false_iff in Hbc.
    repeat rewrite Nat.eqb_neq in Hbc.
    split; [intros Hk; exfalso; lia|]. split; [intros _; eauto|].
    intros e w' H. inversion H; subst. split; [reflexivity|lia].
Qed.

Lemma sort_data_returns_1_or_cap w :
  (forall c, In c events ->
             count_occ Z.eq_dec events c = 1 \/ cap <= count_occ Z.eq_dec events c) ->
  exists sorted w', sort_data E data_part epochs w = (Ok (sorted, np_unique events), w').
Proof.
  intros Hcount. unfold sort_data.
  set (img_cond := np_unique events).
  set (sd0 := full4 _ _ _ _ _).
  destruct (foldM_total
              (fun a : ndarray4 F => shape4 a = shape4 sd0)
              (sort_condition E events img_cond (ep_data epochs) cap)
              (seq 0 (length img_cond)))
    with (s := sd0) (w := w) as [sd [w1 [Hf _]]].
  - intros i a v Hi Ha. apply in_seq in Hi.
    unfold shape4 in Ha. cbn [sd0 full4 dim4_0 dim4_1 dim4_2 dim4_3] in Ha.
    injection Ha as Ha0 Ha1 Ha2 Ha3.
    destruct (sort_condition_result img_cond i a v) as (Hok & _ & _); try assumption; [lia|].
    destruct Hok as (sd' & w' & Hs).
    { apply Hcount, np_unique_In. apply nth_In. exact (proj2 Hi). }
    exists sd', w'. split; [exact Hs|].
    apply sort_condition_inv in Hs. destruct Hs as (row & _ & _ & _ & ->).
    unfold shape4. cbn [dim4_0 dim4_1 dim4_2 dim4_3 sd0 full4].
    now rewrite Ha0, Ha1, Ha2, Ha3.
  - reflexivity.
  - unfold bindM. rewrite Hf. unfold ret. eauto.
Qed.

Lemma sort_data_raises_ValueError w e w' :
  sort_data E data_part epochs w = (Raise e, w') ->
  e = ValueError /\
  exists c, In c events /\ 1 < count_occ Z.eq_dec events c < cap.
Proof.
  unfold sort_data, bindM. intros H.
  destruct (foldM _ _ _ w) as [[sd|e1] w1] eqn:Hf; [unfold ret in H; discriminate|].
  inversion H; subst. clear H.
  set (img_cond := np_unique events) in *.
  set (sd0 := full4 _ _ _ _ _) in Hf.
  destruct (foldM_Raise_inv_P (merged_inv E sd0) _ _
              (fun x s v s' v' _ Hs Hb =>
                 sort_condition_merged_inv E _ _ _ _ x sd0 s s' v v' Hs Hb)
              sd0 w e w' (merged_inv_full4 E _ _ _ _) Hf)
    as (i & a & v & Hi & [Ha _] & Hr).
  apply in_seq in Hi.
  unfold shape4 in Ha. cbn [sd0 full4 dim4_0 dim4_1 dim4_2 dim4_3] in Ha.
  injection Ha as Ha0 Ha1 Ha2 Ha3.
  destruct (sort_condition_result img_cond i a v) as (_ & _ & Hraise); try assumption; [lia|].
  destruct (Hraise e w' Hr) as [-> Hk]. split; [reflexivity|].
  assert (Hc : In (nth i img_cond 0%Z) events).
  { apply np_unique_In. apply nth_In. exact (proj2 Hi). }
  exists (nth i img_cond 0%Z). split; [exact Hc|].
  destruct Hk as [Hk|Hk]; [|exact Hk].
  apply (count_occ_In Z.eq_dec) in Hc. lia.
Qed.
End SortDataTotal.

(** X2. When the generator draws permutations and there is one epoch per
    event, the sorting block of [epoching] returns exactly when every
    image condition has one epoch or at least [max_rep] epochs; the only
    exception it raises is [ValueError], and it raises it whenever some
    condition has more than one but fewer than [max_rep] epochs. *)
Theorem sort_data_returns_iff (E : Externals) (data_part : string)
    (epochs : EpochsObj (scalar E)) (w : world E) :
  (forall g n, Permutation (fst (random_permutation E g n)) (seq 0 n)) ->
  dim3_0 (ep_data epochs) = length (ep_events epochs) ->
  ((exists sorted w',
      sort_data E data_part epochs w
      = (Ok (sorted, np_unique (map marker (ep_events epochs))), w'))
   <-> (forall c, In c (map marker (ep_events epochs)) ->
          count_occ Z.eq_dec (map marker (ep_events epochs)) c = 1 \/
          max_rep_of data_part <= count_occ Z.eq_dec (map marker (ep_events epochs)) c)) /\
  (forall e w', sort_data E data_part epochs w = (Raise e, w') -> e = ValueError) /\
  ((exists c, In c (map marker (ep_events epochs)) /\
              1 < count_occ Z.eq_dec (map marker (ep_events epochs)) c
                < max_rep_of data_part) ->
   fst (sort_data E data_part epochs w) = Raise ValueError).
Proof.
  intros Hperm Hlen.
  assert (Hraise : (exists c, In c (map marker (ep_events epochs)) /\
              1 < count_occ Z.eq_dec (map marker (ep_events epochs)) c
                < max_rep_of data_part) ->
   fst (sort_data E data_part epochs w) = Raise ValueError).
  { intros (c & Hc & Hk).
    destruct (sort_data E data_part epochs w) as [[[sorted img_cond]|e] w'] eqn:Hs.
    - exfalso. pose proof (sort_data_Ok_inv _ _ _ _ _ _ _ Hs) as [Himg Hf].
      apply (np_unique_In _ c) in Hc. rewrite <- Himg in Hc.
      apply (In_nth _ _ 0%Z) in Hc. destruct Hc as (i & Hi & Hnth).
      destruct (sort_loop_row E _ _ _ _ _ i _ _ _ _ Hi (merged_inv_full4 E _ _ _ _) Hf)
        as (g & _ & _ & Hb).
      destruct (drawn_spec E (map marker (ep_events epochs)) img_cond (max_rep_of data_part)
                  Hperm g i) as (_ & _ & Hl).
      unfold broadcast3 in Hb. cbn [dim3_0 full4 dim4_1] in Hb.
      destruct (bc_ok _ (max_rep_of data_part)) eqn:Hbc; [|discriminate].
      unfold bc_ok in Hbc. apply orb_true_iff in Hbc. repeat rewrite Nat.eqb_eq in Hbc.
      rewrite Hnth in Hl. lia.
    - cbn [fst]. f_equal. eapply sort_data_raises_ValueError; eauto. }
  split; [split|split].
  - intros (sorted & w' & Hs) c Hc.
    destruct (Nat.eq_dec (count_occ Z.eq_dec (map marker (ep_events epochs)) c) 1)
      as [H1|H1]; [now left|right].
    destruct (le_lt_dec (max_rep_of data_part)
                (count_occ Z.eq_dec (map marker (ep_events epochs)) c)) as [Hle|Hlt];
      [exact Hle|exfalso].
    assert (Hfst : fst (sort_data E data_part epochs w) = Raise ValueError).
    { apply Hraise. exists c. split; [exact Hc|].
      pose proof (proj1 (count_occ_In Z.eq_dec _ c) Hc). lia. }
    rewrite Hs in Hfst. discriminate.
  - intros Hcount. now apply sort_data_returns_1_or_cap.
  - intros e w' Hs. eapply sort_data_raises_ValueError; eauto.
  - exact Hraise.
Qed.

Lemma sort_data_returns_iff_witness :
  ((exists sorted w',
      sort_data (Demo.ext Demo.session_5335) "training" Demo.epochs_5335
        (Demo.world0 Demo.session_5335)
      = (Ok (sorted, np_unique (map marker (ep_events Demo.epochs_5335))), w'))
   <-> (forall c, In c (map marker (ep_events Demo.epochs_5335)) ->
          count_occ Z.eq_dec (map marker (ep_events Demo.epochs_5335)) c = 1 \/
          max_rep_of "training"
          <= count_occ Z.eq_dec (map marker (ep_events Demo.epochs_5335)) c)) /\
  (forall e w',
      sort_data (Demo.ext Demo.session_5335) "training" Demo.epochs_5335
        (Demo.world0 Demo.session_5335) = (Raise e, w') -> e = ValueError) /\
  ((exists c, In c (map marker (ep_events Demo.epochs_5335)) /\
              1 < count_occ Z.eq_dec (map marker (ep_events Demo.epochs_5335)) c
                < max_rep_of "training") ->
   fst (sort_data (Demo.ext Demo.session_5335) "training" Demo.epochs_5335
          (Demo.world0 Demo.session_5335)) = Raise ValueError).
Proof.
  apply (sort_data_returns_iff (Demo.ext Demo.session_5335) "training" Demo.epochs_5335
           (Demo.world0 Demo.session_5335)).
  - exact demo_permutation_perm.
  - reflexivity.
Defined.

(** * Further properties of [epoching]: the chain of calls and the
      sessions *)




(** X3. The epochs of a session are made by [mne.Epochs] from the
    recording restricted to the channels whose names the regular
    expression picked, in the order picked, and from the events found on
    the full recording without the target trials (marker 99999), the other
    events kept in their order; they are resampled, to the configured
    rate, or returned as made. *)
Theorem load_epochs_chain (E : Externals) (args : Args) (data_part : string) (s : nat)
    w epochs w' :
  load_epochs E args data_part s w = (Ok epochs, w') ->
  exists eeg_data info raw0 found raw e0,
    np_load E (raw_eeg_path args data_part s) = Ok eeg_data /\
    mne_create_info E (rf_ch_names eeg_data) (rf_sfreq eeg_data) (rf_ch_types eeg_data)
    = Ok info /\
    mne_RawArray E (rf_raw_eeg_data eeg_data) info = Ok raw0 /\
    mne_find_events E raw0 = Ok found /\
    (forall c, In c (mne_pick_channels_regexp E (raw_ch_names E raw0) "^O *|^P *") ->
               c < length (raw_ch_names E raw0)) /\
    raw_pick_channels E raw0
      (map (fun c => nth c (raw_ch_names E raw0) "")
         (mne_pick_channels_regexp E (raw_ch_names E raw0) "^O *|^P *")) = Ok raw /\
    mne_Epochs E raw (filter (fun ev => negb (marker ev =? target_marker)%Z) found) = Ok e0 /\
    (epochs = e0 \/ epochs_resample E e0 (sfreq args) = Ok epochs).
Proof.
  unfold load_epochs, bindM, lift, log_call, ret. intros H.
  destruct (np_load E (raw_eeg_path args data_part s)) as [eeg_data|] eqn:Hload;
    [|discriminate].
  destruct (mne_create_info E _ _ _) as [info|] eqn:Hinfo; [|discriminate].
  destruct (mne_RawArray E _ info) as [raw0|] eqn:Hraw; [|discriminate].
  destruct (mne_find_events E raw0) as [events|] eqn:Hev; [|discriminate].
  destruct (mapR _ _) as [new_chans|] eqn:Hch; [|discriminate].
  destruct (raw_pick_channels E raw0 new_chans) as [raw|] eqn:Hpick; [|discriminate].
  destruct (mne_Epochs E raw _) as [e0|] eqn:Hep; [|discriminate].
  apply (mapR_py_index_Ok "") in Hch. destruct Hch as [-> Hlt].
  unfold np_delete, np_where_eq in Hep. rewrite delete_where_from in Hep.
  exists eeg_data, info, raw0, events, raw, e0.
  repeat (split; [first [assumption|reflexivity]|]).
  destruct (sfreq args <? 1000)%Z.
  - destruct (epochs_resample E e0 (sfreq args)) as [e1|] eqn:Hre; [|discriminate].
    inversion H; subst. now right.
  - inversion H; subst. now left.
Qed.

Lemma load_epochs_chain_witness :
  exists eeg_data info raw0 found raw e0,
    np_load (Demo.ext Demo.session_5335)
      (raw_eeg_path (Demo.args_of 1 100) "training" 0) = Ok eeg_data /\
    mne_create_info (Demo.ext Demo.session_5335) (rf_ch_names eeg_data) (rf_sfreq eeg_data)
      (rf_ch_types eeg_data) = Ok info /\
    mne_RawArray (Demo.ext Demo.session_5335) (rf_raw_eeg_data eeg_data) info = Ok raw0 /\
    mne_find_events (Demo.ext Demo.session_5335) raw0 = Ok found /\
    (forall c,
        In c (mne_pick_channels_regexp (Demo.ext Demo.session_5335)
                (raw_ch_names (Demo.ext Demo.session_5335) raw0) "^O *|^P *") ->
        c < length (raw_ch_names (Demo.ext Demo.session_5335) raw0)) /\
    raw_pick_channels (Demo.ext Demo.session_5335) raw0
      (map (fun c => nth c (raw_ch_names (Demo.ext Demo.session_5335) raw0) "")
         (mne_pick_channels_regexp (Demo.ext Demo.session_5335)
            (raw_ch_names (Demo.ext Demo.session_5335) raw0) "^O *|^P *")) = Ok raw /\
    mne_Epochs (Demo.ext Demo.session_5335) raw
      (filter (fun ev => negb (marker ev =? target_marker)%Z) found) = Ok e0 /\
    (Demo.epochs_5335 = e0 \/
     epochs_resample (Demo.ext Demo.session_5335) e0 (sfreq (Demo.args_of 1 100))
     = Ok Demo.epochs_5335).
Proof.
  apply (load_epochs_chain (Demo.ext Demo.session_5335) (Demo.args_of 1 100) "training" 0
           (Demo.world0 Demo.session_5335) Demo.epochs_5335
           (snd (load_epochs (Demo.ext Demo.session_5335) (Demo.args_of 1 100) "training" 0
                   (Demo.world0 Demo.session_5335)))).
  etransitivity; [apply surjective_pairing|]. f_equal; vm_compute; reflexivity.
Defined.


(** X4. When [epoching] returns, which it does only for a positive
    number of sessions, it has run the sessions in order, the first from
    the generator seeded with 20200220 and each next one from the world the
    one before left; it returns one tensor and one condition list per
    session, in session order, and the channel names and time axis of the
    last session alone. *)
Theorem epoching_runs_sessions_in_order (E : Externals) (args : Args) (data_part : string)
    w tensors conds ch_names times w' :
  epoching E args data_part w = (Ok (tensors, conds, ch_names, times), w') ->
  let n := Z.to_nat (n_ses args) in
  0 < n /\ length tensors = n /\ length conds = n /\
  exists (ws : list (world E)) (cs : list (list string)) (ts : list (list (scalar E))),
    length ws = S n /\
    nth 0 ws w = snd (set_rng E (random_seed E 20200220) w) /\
    nth n ws w = w' /\
    (forall s, s < n ->
       epoching_session E args data_part s (nth s ws w)
       = (Ok (nth s tensors (full4 (f_zero E) 0 0 0 0), nth s conds [],
              nth s cs [], nth s ts []),
          nth (S s) ws w)) /\
    ch_names = nth (n - 1) cs [] /\ times = nth (n - 1) ts [].
Proof.
  intros H. cbv zeta. unfold epoching in H.
  apply bindM_Ok_inv in H. destruct H as ([] & w0 & Hseed & H).
  apply bindM_Ok_inv in H. destruct H as (vars & w1 & Hloop & H).
  unfold py_range in Hloop.
  apply epoching_loop_prefix in Hloop.
  destruct Hloop as (ws & cs & ts & Hws & Hcs & Hts & Hed & Hic & H0 & Hk & Hall & Hct).
  rewrite Hct in H. destruct (Z.to_nat (n_ses args)) as [|k]; [discriminate|].
  unfold ret in H. injection H as <- <- <- <- <-.
  assert (Hw0 : w0 = snd (set_rng E (random_seed E 20200220) w)).
  { now rewrite Hseed. }
  assert (Hnth : forall s, s <= S k -> nth s ws w = nth s ws w0).
  { intros s Hs. apply nth_indep. lia. }
  split; [lia|]. split; [exact Hed|]. split; [exact Hic|].
  exists ws, cs, ts. split; [exact Hws|].
  split; [rewrite Hnth by lia; rewrite H0; exact Hw0|].
  split; [rewrite Hnth by lia; exact Hk|].
  split.
  - intros s Hs. rewrite !Hnth by lia. apply Hall. exact Hs.
  - replace (S k - 1) with k by lia. split; reflexivity.
Qed.

Lemma epoching_runs_sessions_in_order_witness :
  let n := Z.to_nat (n_ses (Demo.args_of 1 100)) in
  0 < n /\
  length [mk4 2 2 2 1 [[[[11]; [102]]; [[12]; [104]]]; [[[13]; [106]]; [[10]; [100]]]]%Z] = n /\
  length [[3; 5]%Z] = n /\
  exists (ws : list (world (Demo.ext Demo.session_5335))) (cs : list (list string))
         (ts : list (list Z)),
    length ws = S n /\
    nth 0 ws (Demo.world0 Demo.session_5335)
    = snd (set_rng (Demo.ext Demo.session_5335)
             (random_seed (Demo.ext Demo.session_5335) 20200220)
             (Demo.world0 Demo.session_5335)) /\
    nth n ws (Demo.world0 Demo.session_5335)
    = snd (epoching (Demo.ext Demo.session_5335) (Demo.args_of 1 100) "training"
             (Demo.world0 Demo.session_5335)) /\
    (forall s, s < n ->
       epoching_session (Demo.ext Demo.session_5335) (Demo.args_of 1 100) "training" s
         (nth s ws (Demo.world0 Demo.session_5335))
       = (Ok (nth s [mk4 2 2 2 1 [[[[11]; [102]]; [[12]; [104]]];
                                  [[[13]; [106]]; [[10]; [100]]]]%Z]
                (full4 (f_zero (Demo.ext Demo.session_5335)) 0 0 0 0),
              nth s [[3; 5]%Z] [], nth s cs [], nth s ts []),
          nth (S s) ws (Demo.world0 Demo.session_5335))) /\
    ["O1"; "P3"] = nth (n - 1) cs [] /\ [0%Z] = nth (n - 1) ts [].
Proof.
  apply (epoching_runs_sessions_in_order (Demo.ext Demo.session_5335) (Demo.args_of 1 100)
           "training" (Demo.world0 Demo.session_5335)).
  etransitivity; [apply surjective_pairing|]. f_equal; vm_compute; reflexivity.
Defined.

(** X5. [epoching] stops at the first failure: when it raises, either
    the number of sessions is not positive and the exception is the
    [UnboundLocalError] of its return statement, or a session raised that
    very exception, in loading and epoching or in the sorting block, and
    [epoching] ends in the world that session left. *)
Theorem epoching_raises_from_session (E : Externals) (args : Args) (data_part : string)
    w e w' :
  epoching E args data_part w = (Raise e, w') ->
  ((n_ses args <= 0)%Z /\ e = UnboundLocalError) \/
  exists s v,
    s < Z.to_nat (n_ses args) /\
    epoching_session E args data_part s v = (Raise e, w') /\
    (load_epochs E args data_part s v = (Raise e, w') \/
     exists epochs v1,
       load_epochs E args data_part s v = (Ok epochs, v1) /\
       sort_data E data_part epochs v1 = (Raise e, w')).
Proof.
  intros H. unfold epoching in H.
  unfold bindM at 1 in H. cbn [set_rng] in H.
  set (w0 := {| w_rng := random_seed E 20200220; w_heap := w_heap w; w_dirs := w_dirs w;
                w_files := w_files w; w_calls := w_calls w |}) in H.
  unfold bindM at 1 in H.
  destruct (foldM _ (py_range (n_ses args)) _ w0) as [[vars|e1] w1] eqn:Hloop.
  - left. unfold py_range in Hloop. apply epoching_loop_prefix in Hloop.
    destruct Hloop as (ws & cs & ts & _ & _ & _ & _ & _ & _ & _ & _ & Hct).
    rewrite Hct in H. destruct (Z.to_nat (n_ses args)) eqn:Hn.
    + unfold raise in H. inversion H. split; [lia|reflexivity].
    + unfold ret in H. discriminate.
  - right. inversion H; subst e1 w1. clear H.
    apply foldM_Raise_inv in Hloop. destruct Hloop as (s & vars & v & Hs & Hb).
    unfold py_range in Hs. apply in_seq in Hs.
    unfold bindM in Hb.
    destruct (epoching_session E args data_part s v) as [[[[[sd ic] c] t]|e1] v1] eqn:Hsess;
      [unfold ret in Hb; discriminate|].
    inversion Hb; subst e1 v1. clear Hb.
    exists s, v. split; [lia|]. split; [exact Hsess|].
    unfold epoching_session, bindM in Hsess.
    destruct (load_epochs E args data_part s v) as [[epochs|e1] v1].
    + right. exists epochs, v1. split; [reflexivity|].
      destruct (sort_data E data_part epochs v1) as [[[sd ic]|e2] v2];
        [unfold ret in Hsess; discriminate|].
      inversion Hsess; subst. reflexivity.
    + left. inversion Hsess; subst. reflexivity.
Qed.

Lemma epoching_raises_from_session_witness :
  ((n_ses (Demo.args_of 1 100) <= 0)%Z /\ ValueError = UnboundLocalError) \/
  exists s v,
    s < Z.to_nat (n_ses (Demo.args_of 1 100)) /\
    epoching_session (Demo.ext Demo.session_44) (Demo.args_of 1 100) "test" s v
    = (Raise ValueError,
       snd (epoching (Demo.ext Demo.session_44) (Demo.args_of 1 100) "test"
              (Demo.world0 Demo.session_44))) /\
    (load_epochs (Demo.ext Demo.session_44) (Demo.args_of 1 100) "test" s v
     = (Raise ValueError,
        snd (epoching (Demo.ext Demo.session_44) (Demo.args_of 1 100) "test"
               (Demo.world0 Demo.session_44))) \/
     exists epochs v1,
       load_epochs (Demo.ext Demo.session_44) (Demo.args_of 1 100) "test" s v
       = (Ok epochs, v1) /\
       sort_data (Demo.ext Demo.session_44) "test" epochs v1
       = (Raise ValueError,
          snd (epoching (Demo.ext Demo.session_44) (Demo.args_of 1 100) "test"
                 (Demo.world0 Demo.session_44)))).
Proof.
  apply (epoching_raises_from_session (Demo.ext Demo.session_44) (Demo.args_of 1 100)
           "test" (Demo.world0 Demo.session_44)).
  etransitivity; [apply surjective_pairing|]. f_equal; vm_compute; reflexivity.
Defined.

(** * Further properties of [mvnn]: the whitening *)

Lemma length_concat_rect {A} (m : nat) (l : list (list A)) :
  Forall (fun r => length r = m) l -> length (concat l) = length l * m.
Proof.
  induction 1 as [|x t Hx _ IH]; cbn [concat length]; [reflexivity|].
  rewrite length_app, IH, Hx. reflexivity.
Qed.

Lemma nth_concat_rect {A} (d : A) (m : nat) (l : list (list A)) (i j : nat) :
  Forall (fun r => length r = m) l -> i < length l -> j < m ->
  nth (i * m + j) (concat l) d = nth j (nth i l []) d.
Proof.
  intros Hl. revert i. induction Hl as [|x t Hx _ IH]; intros i Hi Hj.
  - cbn in Hi. lia.
  - cbn [concat]. destruct i as [|i].
    + cbn [Nat.mul Nat.add nth]. apply app_nth1. lia.
    + cbn [nth]. rewrite app_nth2 by (rewrite Hx; cbn; lia).
      replace (S i * m + j - length x) with (i * m + j) by (rewrite Hx; cbn; lia).
      apply IH; [cbn in Hi; lia|exact Hj].
Qed.

Lemma index_lt (a n b m : nat) : a < n -> b < m -> a * m + b < n * m.
Proof.
  intros Ha Hb. apply Nat.lt_le_trans with (S a * m); [cbn; lia|].
  apply Nat.mul_le_mono_r. lia.
Qed.

Lemma rect2_Forall {A} (n m : nat) (l : list (list A)) :
  rect2 n m l = true -> length l = n /\ Forall (fun r => length r = m) l.
Proof.
  unfold rect2. intros H. apply andb_true_iff in H. destruct H as [Hn Hall].
  split; [now apply Nat.eqb_eq|]. apply Forall_forall. intros r Hr.
  apply rect1_length. revert r Hr. now apply forallb_forall.
Qed.

Lemma rect3_Forall {A} (n m k : nat) (l : list (list (list A))) :
  rect3 n m k l = true -> length l = n /\ Forall (fun r => rect2 m k r = true) l.
Proof.
  unfold rect3. intros H. apply andb_true_iff in H. destruct H as [Hn Hall].
  split; [now apply Nat.eqb_eq|]. apply Forall_forall. now apply forallb_forall.
Qed.

Lemma rect4_Forall {A} (n m k j : nat) (l : list (list (list (list A)))) :
  rect4 n m k j l = true -> length l = n /\ Forall (fun r => rect3 m k j r = true) l.
Proof.
  unfold rect4. intros H. apply andb_true_iff in H. destruct H as [Hn Hall].
  split; [now apply Nat.eqb_eq|]. apply Forall_forall. now apply forallb_forall.
Qed.

(** The C-order position of a cell of a rank-2, rank-3 and rank-4 array. *)
Lemma concat_nth2 {A} (d : A) (n m : nat) (l : list (list A)) (i j : nat) :
  rect2 n m l = true -> i < n -> j < m ->
  nth (i * m + j) (concat l) d = at2 d l i j.
Proof.
  intros H Hi Hj. apply rect2_Forall in H. destruct H as [Hn Hall].
  unfold at2. apply nth_concat_rect; auto. lia.
Qed.

Lemma flatten3_nth {A} (d : A) (n m k : nat) (l : list (list (list A))) (i j x : nat) :
  rect3 n m k l = true -> i < n -> j < m -> x < k ->
  nth ((i * m + j) * k + x) (concat (map (@concat A) l)) d = at3 d l i j x.
Proof.
  intros H Hi Hj Hx. pose proof (rect3_inv _ _ _ _ H) as [_ Hrow].
  apply rect3_Forall in H. destruct H as [Hn Hall].
  replace ((i * m + j) * k + x) with (i * (m * k) + (j * k + x)) by lia.
  rewrite nth_concat_rect.
  - change (@nil A) with (concat (@nil (list A))). rewrite map_nth.
    unfold at3. apply (concat_nth2 d m k); auto.
  - apply Forall_map. eapply Forall_impl; [|exact Hall].
    intros r Hr. cbv beta in Hr. apply rect2_Forall in Hr. destruct Hr as [Hm Hr].
    rewrite (length_concat_rect k) by exact Hr. now rewrite Hm.
  - rewrite length_map. lia.
  - now apply index_lt.
Qed.

Lemma flatten4_nth {A} (d : A) (a : ndarray4 A) (i0 i1 i2 i3 : nat) :
  wf4 a -> i0 < dim4_0 a -> i1 < dim4_1 a -> i2 < dim4_2 a -> i3 < dim4_3 a ->
  nth (((i0 * dim4_1 a + i1) * dim4_2 a + i2) * dim4_3 a + i3) (flatten4 a) d
  = at4 d (data4 a) i0 i1 i2 i3.
Proof.
  intros H H0 H1 H2 H3. unfold wf4 in H. pose proof (rect4_inv _ _ _ _ _ H) as [_ Hrow].
  apply rect4_Forall in H. destruct H as [Hn Hall].
  unfold flatten4.
  replace (((i0 * dim4_1 a + i1) * dim4_2 a + i2) * dim4_3 a + i3)
    with (i0 * (dim4_1 a * dim4_2 a * dim4_3 a)
          + ((i1 * dim4_2 a + i2) * dim4_3 a + i3)) by lia.
  rewrite nth_concat_rect.
  - change (@nil A) with (concat (map (@concat A) (@nil (list (list A))))).
    rewrite (map_nth (fun r => concat (map (@concat A) r))).
    unfold at4. apply (flatten3_nth d (dim4_1 a)); auto.
  - apply Forall_map. eapply Forall_impl; [|exact Hall].
    intros r Hr. cbv beta in Hr. apply rect3_Forall in Hr. destruct Hr as [Hm Hr].
    rewrite (length_concat_rect (dim4_2 a * dim4_3 a)).
    + rewrite length_map, Hm. apply Nat.mul_assoc.
    + apply Forall_map. eapply Forall_impl; [|exact Hr].
      intros q Hq. cbv beta in Hq. apply rect2_Forall in Hq. destruct Hq as [Hk Hq].
      rewrite (length_concat_rect (dim4_3 a)) by exact Hq. now rewrite Hk.
  - rewrite length_map. lia.
  - apply index_lt; [|assumption]. now apply index_lt.
Qed.

Lemma size4_div {A} (x : ndarray4 A) :
  dim4_2 x * dim4_3 x <> 0 ->
  size4 x mod (dim4_2 x * dim4_3 x) = 0 /\
  size4 x / (dim4_2 x * dim4_3 x) = dim4_0 x * dim4_1 x.
Proof.
  intros Hpos.
  assert (Hsz : size4 x = dim4_0 x * dim4_1 x * (dim4_2 x * dim4_3 x))
    by (unfold size4; lia).
  rewrite Hsz. split; [apply Nat.Div0.mod_mul|now apply Nat.div_mul].
Qed.

Section WhitenFacts.
Variable E : Externals.
Local Abbreviation F := (scalar E).

(** The three checks of [whiten], and what it returns when they pass:
    the matrix product over the reshaped and swapped input, read back in
    the input's shape. *)
Lemma whiten_cases (x : ndarray4 F) (sigma_inv : ndarray2 F) :
  whiten E x sigma_inv
  = if (dim4_2 x * dim4_3 x =? 0) || negb (rows2 sigma_inv =? dim4_2 x)
       || negb (dim4_0 x * dim4_1 x * dim4_3 x * cols2 sigma_inv
                =? dim4_0 x * dim4_1 x * dim4_2 x * dim4_3 x)
    then Raise ValueError
    else
      Ok (mk4 (dim4_0 x) (dim4_1 x) (dim4_2 x) (dim4_3 x)
            (tabulate (dim4_0 x) (fun i0 => tabulate (dim4_1 x) (fun i1 =>
               tabulate (dim4_2 x) (fun i2 => tabulate (dim4_3 x) (fun i3 =>
                 nth (((i0 * dim4_1 x + i1) * dim4_2 x + i2) * dim4_3 x + i3)
                   (flatten3
                      (swapaxes12 (f_zero E)
                         (mk3 (dim4_0 x * dim4_1 x) (dim4_3 x) (cols2 sigma_inv)
                            (tabulate (dim4_0 x * dim4_1 x) (fun n =>
                               tabulate (dim4_3 x) (fun i =>
                                 tabulate (cols2 sigma_inv) (fun j =>
                                   f_dot E
                                     (tabulate (dim4_2 x) (fun h =>
                                        nth ((n * dim4_2 x + h) * dim4_3 x + i)
                                            (flatten4 x) (f_zero E)))
                                     (map (fun row => nth j row (f_zero E))
                                        (data2 sigma_inv)))))))))
                   (f_zero E))))))).
Proof.
  unfold whiten, reshape4_to3.
  destruct (dim4_2 x * dim4_3 x =? 0) eqn:Hpos; [reflexivity|].
  apply Nat.eqb_neq in Hpos. destruct (size4_div x Hpos) as [Hmod Hdiv].
  rewrite Hmod, Hdiv. cbn [Nat.eqb orb negb bindR].
  unfold matmul3, swapaxes12. cbn [dim3_0 dim3_1 dim3_2 data3].
  rewrite (Nat.eqb_sym (rows2 sigma_inv)).
  destruct (dim4_2 x =? rows2 sigma_inv); cbn [orb negb bindR]; [|reflexivity].
  unfold reshape3_to4, size3. cbn [dim3_0 dim3_1 dim3_2 data3].
  replace (dim4_0 x * dim4_1 x * cols2 sigma_inv * dim4_3 x)
    with (dim4_0 x * dim4_1 x * dim4_3 x * cols2 sigma_inv) by lia.
  destruct (_ =? _); cbn [negb]; [|reflexivity].
  do 2 f_equal.
  apply tabulate_ext; intros i0 H0. apply tabulate_ext; intros i1 H1.
  apply tabulate_ext; intros i2 H2. apply tabulate_ext; intros i3 H3.
  f_equal. unfold flatten3. cbn [data3]. do 2 f_equal.
  apply tabulate_ext; intros n Hn. apply tabulate_ext; intros k Hk.
  apply tabulate_ext; intros j Hj.
  unfold at3, at2. rewrite !nth_tabulate by assumption.
  f_equal. apply tabulate_ext; intros h Hh.
  rewrite !nth_tabulate by assumption. reflexivity.
Qed.
End WhitenFacts.

(** When [whiten] returns, and what it raises. *)
Lemma whiten_result (E : Externals) (x : ndarray4 (scalar E))
    (sigma_inv : ndarray2 (scalar E)) :
  ((exists y, whiten E x sigma_inv = Ok y) <->
   dim4_2 x * dim4_3 x <> 0 /\ rows2 sigma_inv = dim4_2 x /\
   (cols2 sigma_inv = dim4_2 x \/ dim4_0 x * dim4_1 x = 0)) /\
  (forall e, whiten E x sigma_inv = Raise e -> e = ValueError).
Proof.
  rewrite whiten_cases.
  destruct (dim4_2 x * dim4_3 x =? 0) eqn:Hpos; cbn [orb].
  { apply Nat.eqb_eq in Hpos. split; [split|].
    - intros [y Hy]. discriminate.
    - intros (H & _). contradiction.
    - intros e He. now inversion He. }
  apply Nat.eqb_neq in Hpos.
  destruct (rows2 sigma_inv =? dim4_2 x) eqn:Hrows; cbn [orb negb].
  2:{ apply Nat.eqb_neq in Hrows. split; [split|].
      - intros [y Hy]. discriminate.
      - intros (_ & H & _). contradiction.
      - intros e He. now inversion He. }
  apply Nat.eqb_eq in Hrows.
  destruct (_ =? _) eqn:Hsize; cbn [negb].
  - apply Nat.eqb_eq in Hsize.
    split; [split|].
    + intros _. split; [exact Hpos|]. split; [exact Hrows|].
      destruct (Nat.eq_dec (dim4_0 x * dim4_1 x) 0) as [H0|H0]; [now right|left].
      assert (Hcr : dim4_0 x * dim4_1 x * dim4_3 x <> 0) by nia.
      apply (Nat.mul_cancel_l _ _ _ Hcr).
      rewrite Hsize. lia.
    + intros _. eauto.
    + intros e He. discriminate.
  - apply Nat.eqb_neq in Hsize. split; [split|].
    + intros [y Hy]. discriminate.
    + intros (_ & _ & [H|H]); exfalso; apply Hsize; [rewrite H; lia|].
      rewrite H. reflexivity.
    + intros e He. now inversion He.
Qed.

(** X6. [whiten] returns exactly when the tensor has channels and time
    points, the matrix has one row per channel and, unless the tensor has
    no epoch at all, one column per channel; in every other case it raises
    [ValueError], and it raises nothing else. *)
Theorem whiten_returns_iff (E : Externals) (x : ndarray4 (scalar E))
    (sigma_inv : ndarray2 (scalar E)) :
  ((exists y, whiten E x sigma_inv = Ok y) <->
   dim4_2 x * dim4_3 x <> 0 /\ rows2 sigma_inv = dim4_2 x /\
   (cols2 sigma_inv = dim4_2 x \/ dim4_0 x * dim4_1 x = 0)) /\
  (forall e, whiten E x sigma_inv = Raise e -> e = ValueError).
Proof. apply whiten_result. Qed.

(** X7. Whitening multiplies, at every repetition and time point, the
    vector of the channels by the matrix: cell (condition [c], repetition
    [r], channel [h], time [k]) of the whitened tensor is the inner product
    of the channel vector of the input at [(c, r, k)] with column [h] of
    the matrix.  The two reshapes and the two axis swaps cancel. *)
Theorem whiten_cell (E : Externals) (x y : ndarray4 (scalar E))
    (sigma_inv : ndarray2 (scalar E)) (c r h k : nat) :
  wf4 x ->
  whiten E x sigma_inv = Ok y ->
  c < dim4_0 x -> r < dim4_1 x -> h < dim4_2 x -> k < dim4_3 x ->
  at4 (f_zero E) (data4 y) c r h k
  = f_dot E (tabulate (dim4_2 x) (fun h' => at4 (f_zero E) (data4 x) c r h' k))
            (map (fun row => nth h row (f_zero E)) (data2 sigma_inv)).
Proof.
  intros Hwf H Hc Hr Hh Hk.
  destruct (whiten_result E x sigma_inv) as [[Hcond _] _].
  destruct (Hcond (ex_intro _ y H)) as (Hpos & Hrows & Hcols). clear Hcond.
  assert (Hcr : c * dim4_1 x + r < dim4_0 x * dim4_1 x) by now apply index_lt.
  destruct Hcols as [Hcols|H0]; [|lia].
  rewrite whiten_cases in H.
  destruct (_ || _ || _); [discriminate|].
  inversion H as [Hy]. clear H Hy. cbn [data4]. rewrite Hcols.
  unfold at4, at3, at2.
  rewrite !nth_tabulate by assumption.
  unfold flatten3. cbn [swapaxes12 dim3_0 dim3_1 dim3_2 data3].
  rewrite (flatten3_nth (f_zero E) (dim4_0 x * dim4_1 x) (dim4_2 x) (dim4_3 x));
    [|apply rect3_tabulate3|assumption..].
  unfold at3, at2. rewrite !nth_tabulate by assumption.
  f_equal. apply tabulate_ext. intros h' Hh'.
  apply (flatten4_nth (f_zero E) x c r h' k); assumption.
Qed.

Lemma whiten_cell_witness :
  exists y,
    whiten (Demo.ext []) (Demo.tensor 0 2 2 2 3) (mk2 2 2 [[1; 2]; [3; 4]]%Z) = Ok y /\
    at4 0%Z (data4 y) 1 1 0 2
    = Demo.dot (tabulate 2 (fun h' => at4 0%Z (data4 (Demo.tensor 0 2 2 2 3)) 1 1 h' 2))
        (map (fun row => nth 0 row 0%Z) [[1; 2]; [3; 4]]%Z).
Proof.
  eexists. split; [vm_compute; reflexivity|].
  apply (whiten_cell (Demo.ext []) (Demo.tensor 0 2 2 2 3) _ (mk2 2 2 [[1; 2]; [3; 4]]%Z)
           1 1 0 2).
  - reflexivity.
  - vm_compute. reflexivity.
  - cbn. lia.
  - cbn. lia.
  - cbn. lia.
  - cbn. lia.
Defined.

Section MvnnSessions.
Variable E : Externals.
Local Abbreviation F := (scalar E).
Variable args : Args.

Lemma session_whitened_extends (w1 w2 : world E) et etr wt wtr a0 a1 (s : nat) :
  heap_extends E w1 w2 ->
  w_rng w2 = w_rng w1 -> w_dirs w2 = w_dirs w1 -> w_files w2 = w_files w1 ->
  w_calls w2 = w_calls w1 ->
  session_whitened E args w1 et etr wt wtr s ->
  session_whitened E args w2 et etr (wt ++ [a0]) (wtr ++ [a1]) s.
Proof.
  intros Hext Hr Hd Hf Hc (l0 & l1 & o0 & o1 & d0 & d1 & sg & y0 & y1 & H).
  destruct H as (H1 & H2 & H3 & H4 & H5 & H6 & H7 & H8 & H9 & H10 & H11).
  exists l0, l1, o0, o1, d0, d1, sg, y0, y1.
  assert (Hs : s < length wt) by (apply nth_error_Some; now rewrite H3).
  assert (Hs' : s < length wtr) by (apply nth_error_Some; now rewrite H4).
  rewrite !nth_error_app1 by assumption.
  assert (Ho : o0 < length (w_heap w1)) by (apply nth_error_Some; now rewrite H7).
  assert (H9' : exists v v',
             session_sigma_inv E args [d0; d1] v = (Ok sg, v') /\
             w_heap v = firstn o0 (w_heap w2) /\ w_rng v = w_rng w2 /\
             w_dirs v = w_dirs w2 /\ w_files v = w_files w2 /\ w_calls v = w_calls w2).
  { destruct H9 as (v & v' & Hv & Hvh & Hvr & Hvd & Hvf & Hvc).
    exists v, v'. split; [exact Hv|]. split.
    - destruct Hext as [fresh ->]. rewrite firstn_app.
      replace (o0 - length (w_heap w1)) with 0 by lia.
      cbn [firstn]. now rewrite app_nil_r.
    - repeat split; congruence. }
  repeat split; try assumption;
    (eapply heap_extends_lookup; [exact Hext|eassumption]).
Qed.

Lemma mvnn_sessions_prefix (epoched_test epoched_train : list loc) (n : nat)
    w wt wtr w' :
  foldM (mvnn_session E args epoched_test epoched_train) (seq 0 n) ([], []) w
  = (Ok (wt, wtr), w') ->
  forall s, s < n -> session_whitened E args w' epoched_test epoched_train wt wtr s.
Proof.
  intros H.
  apply (foldM_prefix_inv
           (fun k (v : list loc * list loc) w1 =>
              length (fst v) = k /\ length (snd v) = k /\
              forall s, s < k ->
                session_whitened E args w1 epoched_test epoched_train (fst v) (snd v) s))
    in H.
  - apply H.
  - cbn. repeat split. intros s Hs. lia.
  - intros k [wt1 wtr1] w1 [wt2 wtr2] w2 _ (Hl1 & Hl2 & Hold) Hstep.
    cbn [fst snd] in *. apply mvnn_session_Ok in Hstep.
    destruct Hstep as (l0 & l1 & d0 & d1 & sg & y0 & y1 & Hi0 & Hi1 & Hd0 & Hd1 & Hsg
                       & Hw0 & Hw1 & Hheap & -> & -> & Hrng & Hdirs & Hfiles & Hcalls).
    assert (Hext : heap_extends E w1 w2) by (now exists [y0; y1]).
    assert (Hest : exists v v',
               session_sigma_inv E args [d0; d1] v = (Ok sg, v') /\
               w_heap v = firstn (length (w_heap w1)) (w_heap w2) /\ w_rng v = w_rng w2 /\
               w_dirs v = w_dirs w2 /\ w_files v = w_files w2 /\ w_calls v = w_calls w2).
    { destruct Hsg as [v' Hsg]. exists w1, v'. split; [exact Hsg|]. split.
      - rewrite Hheap, firstn_app, Nat.sub_diag, firstn_all. cbn [firstn].
        now rewrite app_nil_r.
      - repeat split; congruence. }
    rewrite !length_app. cbn [length]. split; [lia|]. split; [lia|].
    intros s Hs. destruct (Nat.eq_dec s k) as [->|Hne].
    + exists l0, l1, (length (w_heap w1)), (S (length (w_heap w1))), d0, d1, sg, y0, y1.
      assert (Ho0 : nth_error (w_heap w2) (length (w_heap w1)) = Some y0).
      { rewrite Hheap, nth_error_app2, Nat.sub_diag by lia. reflexivity. }
      assert (Ho1 : nth_error (w_heap w2) (S (length (w_heap w1))) = Some y1).
      { rewrite Hheap, nth_error_app2 by lia.
        replace (S (length (w_heap w1)) - length (w_heap w1)) with 1 by lia.
        reflexivity. }
      assert (Ht : nth_error (wt1 ++ [length (w_heap w1)]) k = Some (length (w_heap w1))).
      { rewrite nth_error_app2, Hl1, Nat.sub_diag by lia. reflexivity. }
      assert (Htr : nth_error (wtr1 ++ [S (length (w_heap w1))]) k
                    = Some (S (length (w_heap w1)))).
      { rewrite nth_error_app2, Hl2, Nat.sub_diag by lia. reflexivity. }
      repeat split; try assumption;
        (apply (heap_extends_lookup E w1 w2 _ _ Hext); assumption).
    + apply (session_whitened_extends w1 w2); try assumption. apply Hold. lia.
Qed.

(** With an [mvnn_dim] that is neither ["time"] nor ["epochs"] the loop
    over conditions assigns nothing. *)
Lemma cond_loop_unrecognised (part : ndarray4 F) (l : list nat) (sigma_cond : ndarray3 F) :
  String.eqb (mvnn_dim args) "time" = false ->
  String.eqb (mvnn_dim args) "epochs" = false ->
  (forall i, In i l -> i < dim4_0 part) ->
  foldR (fun i sigma_cond =>
           let! cond_data := getitem4 part i in
           cond_cov E args cond_data i sigma_cond) l sigma_cond
  = Ok sigma_cond.
Proof.
  intros Ht He. induction l as [|i t IH]; intros Hl; [reflexivity|].
  cbn [foldR]. rewrite getitem4_Ok by (apply Hl; now left).
  cbn [bindR]. unfold cond_cov at 1. rewrite Ht, He. cbn [bindR].
  apply IH. intros j Hj. apply Hl. now right.
Qed.

Lemma setitem3_same_shape (a : ndarray3 F) (i : nat) (v : ndarray2 F) :
  i < dim3_0 a -> rows2 v = dim3_1 a -> cols2 v = dim3_2 a -> wf2 v ->
  setitem3 (f_zero E) a i v
  = Ok (mk3 (dim3_0 a) (dim3_1 a) (dim3_2 a) (set_nth i (data2 v) (data3 a))).
Proof.
  intros Hi Hr Hc Hwf. unfold setitem3, broadcast2.
  rewrite (proj2 (Nat.ltb_lt _ _) Hi), Hr, Hc, !bc_ok_refl. cbn [andb bindR].
  do 3 f_equal. unfold wf2 in Hwf. rewrite Hr, Hc in Hwf.
  etransitivity; [|exact (tabulate2_at2 (f_zero E) _ _ _ Hwf)].
  apply tabulate_ext; intros a0 Ha. apply tabulate_ext; intros b Hb.
  now rewrite !bc_ix_same.
Qed.

Lemma mean_axis0_wf (a : ndarray3 F) : wf2 (mean_axis0 E a).
Proof.
  unfold wf2, mean_axis0. cbn [rows2 cols2 data2].
  apply rect2_tabulate. intros i Hi. apply rect1_tabulate.
Qed.
End MvnnSessions.

(** X8. In every session [mvnn] whitens the test and the training
    tensor with one and the same matrix, the one estimated from that
    session's two tensors; the whitened tensors it returns are, session by
    session, the results of that whitening. *)
Theorem mvnn_one_matrix_per_session (E : Externals) (args : Args)
    (epoched_test epoched_train : list loc) w whitened_test whitened_train w' :
  mvnn E args epoched_test epoched_train w = (Ok (whitened_test, whitened_train), w') ->
  forall s, s < Z.to_nat (n_ses args) ->
    session_whitened E args w' epoched_test epoched_train whitened_test whitened_train s.
Proof. unfold mvnn, py_range. apply mvnn_sessions_prefix. Qed.

Lemma mvnn_one_matrix_per_session_witness :
  session_whitened (Demo.ext []) (Demo.args_of 1 100)
    (snd (mvnn (Demo.ext []) (Demo.args_of 1 100) [0] [1] Demo.store))
    [0] [1] [2] [3] 0.
Proof.
  refine (mvnn_one_matrix_per_session (Demo.ext []) (Demo.args_of 1 100) [0] [1] Demo.store
            [2] [3] (snd (mvnn (Demo.ext []) (Demo.args_of 1 100) [0] [1] Demo.store))
            _ 0 _).
  - etransitivity; [apply surjective_pairing|]. f_equal; vm_compute; reflexivity.
  - cbn. lia.
Defined.

(** X9. An [mvnn_dim] other than ["time"] and ["epochs"] is not
    rejected and nothing is estimated: the loop over the conditions
    assigns nothing, the covariance estimator is not consulted, and the
    whitening matrix of a session is what the matrix power gives on the
    mean of the two condition buffers as [np.empty] returned them. *)
Theorem unrecognised_mvnn_dim_estimates_nothing (E : Externals) (args : Args)
    (d0 d1 : ndarray4 (scalar E)) (w : world E) :
  String.eqb (mvnn_dim args) "time" = false ->
  String.eqb (mvnn_dim args) "epochs" = false ->
  let ch := dim4_2 d0 in
  let sigma_part := np_empty3 E 2 ch ch w in
  let sigma_cond0 := np_empty3 E (dim4_0 d0) ch ch (snd sigma_part) in
  let sigma_cond1 := np_empty3 E (dim4_0 d1) ch ch (snd sigma_cond0) in
  exists buf0 buf1 : ndarray3 (scalar E),
    fst sigma_cond0 = Ok buf0 /\ fst sigma_cond1 = Ok buf1 /\
    session_sigma_inv E args [d0; d1] w
    = (fractional_matrix_power_neg_half E
         (mean_axis0 E
            (mk3 2 ch ch [data2 (mean_axis0 E buf0); data2 (mean_axis0 E buf1)])),
       snd sigma_cond1).
Proof.
  intros Ht He. cbv zeta.
  destruct (np_empty3_run E 2 (dim4_2 d0) (dim4_2 d0) w)
    as (a & w1 & Ha & Ha0 & Ha1 & Ha2 & Hal & _).
  rewrite Ha. cbn [snd].
  destruct (np_empty3_run E (dim4_0 d0) (dim4_2 d0) (dim4_2 d0) w1)
    as (b0 & w2 & Hb0 & _ & Hb01 & Hb02 & _).
  rewrite Hb0. cbn [snd fst].
  destruct (np_empty3_run E (dim4_0 d1) (dim4_2 d0) (dim4_2 d0) w2)
    as (b1 & w3 & Hb1 & _ & Hb11 & Hb12 & _).
  rewrite Hb1. cbn [snd fst].
  exists b0, b1. split; [reflexivity|]. split; [reflexivity|].
  unfold session_sigma_inv. unfold bindM at 1. unfold lift at 1.
  cbn [py_index nth_error length]. unfold bindM at 1. rewrite Ha.
  unfold bindM at 1. rewrite Ha0. cbn [seq foldM]. unfold bindM at 1.
  assert (Hp0 : part_cov E args [d0; d1] (dim4_2 d0) 0 a w1
                = (Ok (mk3 2 (dim4_2 d0) (dim4_2 d0)
                         (set_nth 0 (data2 (mean_axis0 E b0)) (data3 a))), w2)).
  { unfold part_cov, bindM, lift. cbn [py_index nth_error]. rewrite Hb0.
    rewrite (cond_loop_unrecognised E args d0 _ _ Ht He)
      by (intros i Hi; apply in_seq in Hi; lia).
    rewrite setitem3_same_shape;
      [|lia|cbn; congruence|cbn; congruence|apply mean_axis0_wf].
    now rewrite Ha0, Ha1, Ha2. }
  rewrite Hp0. unfold bindM at 1.
  assert (Hp1 : part_cov E args [d0; d1] (dim4_2 d0) 1
                  (mk3 2 (dim4_2 d0) (dim4_2 d0)
                     (set_nth 0 (data2 (mean_axis0 E b0)) (data3 a))) w2
                = (Ok (mk3 2 (dim4_2 d0) (dim4_2 d0)
                         (set_nth 1 (data2 (mean_axis0 E b1))
                            (set_nth 0 (data2 (mean_axis0 E b0)) (data3 a)))), w3)).
  { unfold part_cov, bindM, lift. cbn [py_index nth_error]. rewrite Hb1.
    rewrite (cond_loop_unrecognised E args d1 _ _ Ht He)
      by (intros i Hi; apply in_seq in Hi; lia).
    rewrite setitem3_same_shape;
      [|cbn; lia|cbn; congruence|cbn; congruence|apply mean_axis0_wf].
    reflexivity. }
  rewrite Hp1. unfold ret, lift.
  destruct (data3 a) as [|x [|y [|z t]]]; try discriminate. reflexivity.
Qed.

Lemma unrecognised_mvnn_dim_estimates_nothing_witness :
  exists buf0 buf1 : ndarray3 Z,
    fst (np_empty3 (Demo.ext []) 2 2 2
           (snd (np_empty3 (Demo.ext []) 2 2 2 Demo.store))) = Ok buf0 /\
    fst (np_empty3 (Demo.ext []) 3 2 2
           (snd (np_empty3 (Demo.ext []) 2 2 2
                   (snd (np_empty3 (Demo.ext []) 2 2 2 Demo.store))))) = Ok buf1 /\
    session_sigma_inv (Demo.ext [])
      {| sub := 1; n_ses := 1; sfreq := 100; mvnn_dim := "none"; project_dir := "/data" |}
      [Demo.tensor 0 2 2 2 3; Demo.tensor 5000 3 2 2 3] Demo.store
    = (fractional_matrix_power_neg_half (Demo.ext [])
         (mean_axis0 (Demo.ext [])
            (mk3 2 2 2 [data2 (mean_axis0 (Demo.ext []) buf0);
                        data2 (mean_axis0 (Demo.ext []) buf1)])),
       snd (np_empty3 (Demo.ext []) 3 2 2
              (snd (np_empty3 (Demo.ext []) 2 2 2
                      (snd (np_empty3 (Demo.ext []) 2 2 2 Demo.store)))))).
Proof.
  apply (unrecognised_mvnn_dim_estimates_nothing (Demo.ext [])
           {| sub := 1; n_ses := 1; sfreq := 100; mvnn_dim := "none";
              project_dir := "/data" |}
           (Demo.tensor 0 2 2 2 3) (Demo.tensor 5000 3 2 2 3) Demo.store); reflexivity.
Defined.

(** * Further properties of [save_prepr] *)

Lemma map_nth_seq_id (n : nat) (p : list nat) :
  (forall j, In j p -> j < n) -> map (fun j => nth j (seq 0 n) 0) p = p.
Proof.
  intros H. rewrite <- (map_id p) at 2. apply map_ext_in.
  intros j Hj. rewrite seq_nth by (now apply H). reflexivity.
Qed.

Section SaveFacts.
Variable E : Externals.
Local Abbreviation F := (scalar E).
Variable args : Args.

Hypothesis draws_permute :
  forall g n, Permutation (fst (random_permutation E g n)) (seq 0 n).

(** The block that shuffles the repetitions and saves, step by step: it
    draws one permutation and reorders the repetition axis by it, which
    cannot fail; it raises only what [os.makedirs], called when the
    directory is missing, or [np.save] raise, and has then written no
    file. *)
Lemma shuffle_and_save_inv (merged : ndarray4 F) (file_name : string)
    (ch_names : list string) (times : list F) (w : world E) r w' :
  shuffle_and_save E args merged file_name ch_names times w = (r, w') ->
  exists saved,
    take4_axis1 merged (fst (random_permutation E (w_rng w) (dim4_1 merged))) = Ok saved /\
    dim4_1 saved = dim4_1 merged /\
    w_rng w' = snd (random_permutation E (w_rng w) (dim4_1 merged)) /\
    w_draws w' = fst (random_permutation E (w_rng w) (dim4_1 merged)) :: w_draws w /\
    w_heap w' = w_heap w /\ w_calls w' = w_calls w /\
    ((r = Ok tt /\
      w_files w'
      = (os_path_join [project_dir args; save_dir_of args; file_name],
         {| preprocessed_eeg_data := saved;
            out_ch_names := ch_names; out_times := times |}) :: w_files w /\
      w_dirs w'
      = (if existsb (String.eqb (os_path_join [project_dir args; save_dir_of args]))
              (w_dirs w)
         then w_dirs w
         else os_path_join [project_dir args; save_dir_of args] :: w_dirs w)) \/
     (exists e, r = Raise e /\ w_files w' = w_files w /\
        ((existsb (String.eqb (os_path_join [project_dir args; save_dir_of args]))
            (w_dirs w) = false /\
          sys_makedirs E (os_path_join [project_dir args; save_dir_of args]) = Raise e) \/
         sys_save E (os_path_join [project_dir args; save_dir_of args; file_name])
         = Raise e))).
Proof.
  unfold shuffle_and_save, bindM, shuffle. rewrite length_seq.
  pose proof (draws_permute (w_rng w) (dim4_1 merged)) as Hp.
  destruct (random_permutation E (w_rng w) (dim4_1 merged)) as [p g]. cbn [fst snd] in *.
  assert (Hlt : forall j, In j p -> j < dim4_1 merged).
  { intros j Hj. apply (Permutation_in _ Hp) in Hj. apply in_seq in Hj. lia. }
  rewrite (map_nth_seq_id _ _ Hlt).
  unfold lift, take4_axis1. rewrite (proj2 (forallb_forall _ _)).
  2:{ intros j Hj. apply Nat.ltb_lt. now apply Hlt. }
  rewrite (Permutation_length Hp), length_seq.
  unfold os_path_isdir, os_makedirs, np_save, ret. cbn [w_dirs].
  intros H. eexists. split; [reflexivity|]. split; [reflexivity|].
  destruct (existsb _ (w_dirs w)) eqn:Hdir; cbn [negb] in H.
  - destruct (sys_save E _) as [[]|e] eqn:Hsave; inversion H; subst;
      cbn [w_rng w_draws w_heap w_calls w_files w_dirs].
    + repeat (split; [reflexivity|]). left. repeat split.
    + repeat (split; [reflexivity|]). right. exists e. repeat split. now right.
  - destruct (sys_makedirs E _) as [[]|e] eqn:Hmk.
    + destruct (sys_save E _) as [[]|e] eqn:Hsave; inversion H; subst;
        cbn [w_rng w_draws w_heap w_calls w_files w_dirs].
      * repeat (split; [reflexivity|]). left. repeat split.
      * repeat (split; [reflexivity|]). right. exists e. repeat split. now right.
    + inversion H; subst. cbn [w_rng w_draws w_heap w_calls w_files w_dirs].
      repeat (split; [reflexivity|]). right. exists e. repeat split. left. now split.
Qed.

End SaveFacts.


(** What the loop merging the test data has built after [k] sessions. *)
Lemma merge_test_prefix (E : Externals) (whitened_test : list (ndarray4 (scalar E)))
    (n : nat) (res : option (ndarray4 (scalar E))) :
  foldR (merge_test_step E whitened_test) (seq 0 n) None = Ok res ->
  match res with
  | None => n = 0
  | Some m =>
      0 < n /\ length (firstn n whitened_test) = n /\
      dim4_1 m = list_sum (map (@dim4_1 (scalar E)) (firstn n whitened_test)) /\
      (forall t, In t (firstn n whitened_test) ->
         dim4_0 t = dim4_0 m /\ dim4_2 t = dim4_2 m /\ dim4_3 t = dim4_3 m) /\
      (forall i, i < dim4_0 m ->
         nth i (data4 m) []
         = concat (map (fun t => nth i (data4 t) []) (firstn n whitened_test))) /\
      (Forall wf4 whitened_test -> wf4 m)
  end.
Proof.
  intros H.
  apply (foldR_prefix_inv
           (fun k (r : option (ndarray4 (scalar E))) =>
              match r with
              | None => k = 0
              | Some m =>
                  0 < k /\ length (firstn k whitened_test) = k /\
                  dim4_1 m = list_sum (map (@dim4_1 (scalar E)) (firstn k whitened_test)) /\
                  (forall t, In t (firstn k whitened_test) ->
                     dim4_0 t = dim4_0 m /\ dim4_2 t = dim4_2 m /\ dim4_3 t = dim4_3 m) /\
                  (forall i, i < dim4_0 m ->
                     nth i (data4 m) []
                     = concat (map (fun t => nth i (data4 t) []) (firstn k whitened_test))) /\
                  (Forall wf4 whitened_test -> wf4 m)
              end)) in H.
  - exact H.
  - reflexivity.
  - intros k r r' _ Hr Hstep. unfold merge_test_step in Hstep.
    destruct (k =? 0) eqn:Hk0.
    + apply Nat.eqb_eq in Hk0. subst k.
      apply bindR_Ok_inv in Hstep. destruct Hstep as (x & Hx & Hret).
      inversion Hret; subst r'. apply py_index_Ok in Hx.
      destruct whitened_test as [|x0 rest]; [discriminate|].
      cbn in Hx. inversion Hx; subst x0. cbn [firstn map list_sum fold_right length concat].
      split; [lia|]. split; [reflexivity|]. split; [lia|].
      split; [intros t [<-|[]]; auto|].
      split; [intros i _; now rewrite app_nil_r|].
      intros Hwf. now inversion Hwf.
    + apply Nat.eqb_neq in Hk0. destruct r as [m|]; [|lia].
      destruct Hr as (_ & Hlen & Hdim & Hsame & Hrows & Hwf).
      apply bindR_Ok_inv in Hstep. destruct Hstep as (x & Hx & Hstep).
      apply bindR_Ok_inv in Hstep. destruct Hstep as (m' & Happ & Hret).
      inversion Hret; subst r'. clear Hret. apply py_index_Ok in Hx.
      unfold np_append4_axis1 in Happ.
      destruct (_ && _ && _) eqn:Hshape; [|discriminate].
      apply andb_true_iff in Hshape. destruct Hshape as [Hshape H3].
      apply andb_true_iff in Hshape. destruct Hshape as [H0 H2].
      apply Nat.eqb_eq in H0, H2, H3.
      inversion Happ; subst m'. clear Happ. cbn [dim4_0 dim4_1 dim4_2 dim4_3 data4].
      rewrite (firstn_S_nth_error _ _ _ Hx).
      rewrite map_app, list_sum_app, length_app. cbn [map list_sum fold_right length concat].
      split; [lia|]. split; [lia|]. split; [lia|].
      split.
      { intros t Ht. apply in_app_or in Ht. destruct Ht as [Ht|[<-|[]]].
        - now apply Hsame.
        - repeat split; congruence. }
      split.
      { intros i Hi. rewrite nth_tabulate by exact Hi. rewrite map_app, concat_app.
        cbn [map concat]. rewrite app_nil_r. f_equal. now apply Hrows. }
      intros Hall. specialize (Hwf Hall).
      assert (Hxwf : wf4 x).
      { apply nth_error_In in Hx. exact (proj1 (Forall_forall _ _) Hall x Hx). }
      unfold wf4 in *. cbn [dim4_0 dim4_1 dim4_2 dim4_3 data4].
      apply rect4_tabulate. intros i Hi.
      apply rect4_inv in Hwf, Hxwf. destruct Hwf as [_ Hwf]. destruct Hxwf as [_ Hxwf].
      apply rect3_app; [now apply Hwf|]. rewrite H2, H3. apply Hxwf. lia.
Qed.

(** X10. The test data of the sessions are merged side by side along
    the repetition axis: when the merge returns, the number of sessions is
    positive, every session's tensor has the conditions, channels and time
    points of the merged one, the merged repetition axis is as long as the
    sessions' together, and the row of every condition is the sessions'
    rows of that condition one after the other. *)
Theorem merge_test_concatenates_repetitions (E : Externals) (args : Args)
    (whitened_test : list (ndarray4 (scalar E))) (merged : ndarray4 (scalar E)) :
  merge_test E args whitened_test = Ok (Some merged) ->
  let sessions := firstn (Z.to_nat (n_ses args)) whitened_test in
  (0 < n_ses args)%Z /\ length sessions = Z.to_nat (n_ses args) /\
  dim4_1 merged = list_sum (map (@dim4_1 (scalar E)) sessions) /\
  (forall t, In t sessions ->
     dim4_0 t = dim4_0 merged /\ dim4_2 t = dim4_2 merged /\ dim4_3 t = dim4_3 merged) /\
  (forall i, i < dim4_0 merged ->
     nth i (data4 merged) [] = concat (map (fun t => nth i (data4 t) []) sessions)) /\
  (Forall wf4 whitened_test -> wf4 merged).
Proof.
  unfold merge_test, py_range. intros H. cbv zeta.
  apply merge_test_prefix in H. destruct H as (Hk & H). split; [lia|exact H].
Qed.

Lemma merge_test_concatenates_repetitions_witness :
  let sessions := firstn (Z.to_nat (n_ses (Demo.args_of 2 100))) Demo.two_sessions in
  (0 < n_ses (Demo.args_of 2 100))%Z /\
  length sessions = Z.to_nat (n_ses (Demo.args_of 2 100)) /\
  dim4_1 (mk4 2 4 1 1 [[[[0]]; [[100]]; [[5000]]; [[5100]]];
                       [[[1000]]; [[1100]]; [[6000]]; [[6100]]]]%Z)
  = list_sum (map (@dim4_1 Z) sessions) /\
  (forall t, In t sessions ->
     dim4_0 t = 2 /\ dim4_2 t = 1 /\ dim4_3 t = 1) /\
  (forall i, i < 2 ->
     nth i [[[[0]]; [[100]]; [[5000]]; [[5100]]];
            [[[1000]]; [[1100]]; [[6000]]; [[6100]]]]%Z []
     = concat (map (fun t => nth i (data4 t) []) sessions)) /\
  (Forall wf4 Demo.two_sessions ->
   wf4 (mk4 2 4 1 1 [[[[0]]; [[100]]; [[5000]]; [[5100]]];
                     [[[1000]]; [[1100]]; [[6000]]; [[6100]]]]%Z)).
Proof.
  apply (merge_test_concatenates_repetitions (Demo.ext []) (Demo.args_of 2 100)
           Demo.two_sessions
           (mk4 2 4 1 1 [[[[0]]; [[100]]; [[5000]]; [[5100]]];
                         [[[1000]]; [[1100]]; [[6000]]; [[6100]]]]%Z)).
  vm_compute. reflexivity.
Defined.



Lemma existsb_eqb_cons (d : string) (l : list string) :
  existsb (String.eqb d) (if existsb (String.eqb d) l then l else d :: l) = true.
Proof.
  destruct (existsb (String.eqb d) l) eqn:H; [exact H|].
  cbn [existsb]. now rewrite String.eqb_refl.
Qed.


(** X12. When [save_prepr] returns it has written exactly two files,
    the test file first and the training file after it, both under the
    subject's directory, which it creates when it is missing and only
    once; the two records carry the channel names and the time axis it was
    given, and tensors of the shapes of the merged test and training
    data.  It has drawn twice from the generator, for the test data first,
    and has touched neither the store nor MNE. *)
Theorem save_prepr_writes_test_then_training (E : Externals) (args : Args)
    (whitened_test whitened_train : list (ndarray4 (scalar E)))
    (img_conditions_train : list (list Z)) (ch_names : list string)
    (times : list (scalar E)) (w w' : world E) :
  (forall g n, Permutation (fst (random_permutation E g n)) (seq 0 n)) ->
  save_prepr E args whitened_test whitened_train img_conditions_train ch_names times w
  = (Ok tt, w') ->
  exists merged_test white_data img_cond merged_train saved_test saved_train,
    merge_test E args whitened_test = Ok (Some merged_test) /\
    concat_train E args whitened_train img_conditions_train
    = Ok (Some (white_data, img_cond)) /\
    merge_train E white_data img_cond = Ok merged_train /\
    w_files w'
    = (os_path_join [project_dir args; save_dir_of args; file_name_train],
       {| preprocessed_eeg_data := saved_train;
          out_ch_names := ch_names; out_times := times |})
      :: (os_path_join [project_dir args; save_dir_of args; file_name_test],
          {| preprocessed_eeg_data := saved_test;
             out_ch_names := ch_names; out_times := times |})
      :: w_files w /\
    shape4 saved_test = shape4 merged_test /\ shape4 saved_train = shape4 merged_train /\
    w_dirs w'
    = (if existsb (String.eqb (os_path_join [project_dir args; save_dir_of args])) (w_dirs w)
       then w_dirs w
       else os_path_join [project_dir args; save_dir_of args] :: w_dirs w) /\
    w_rng w'
    = snd (random_permutation E
             (snd (random_permutation E (w_rng w) (dim4_1 merged_test)))
             (dim4_1 merged_train)) /\
    w_heap w' = w_heap w /\ w_calls w' = w_calls w.
Proof.
  intros Hperm H. unfold save_prepr in H.
  unfold bindM at 1 in H. unfold lift at 1 in H.
  destruct (merge_test E args whitened_test) as [[mt|]|e] eqn:Hmt; try discriminate.
  unfold bindM at 1 in H.
  destruct (shuffle_and_save E args mt file_name_test ch_names times w)
    as [[[]|e] w1] eqn:Hs1; [|discriminate].
  unfold bindM at 1 in H. unfold lift at 1 in H.
  destruct (concat_train E args whitened_train img_conditions_train)
    as [[[wd ic]|]|e] eqn:Hct; try discriminate.
  unfold bindM at 1 in H. unfold lift at 1 in H.
  destruct (merge_train E wd ic) as [mtr|e] eqn:Hmtr; [|discriminate].
  pose proof (shuffle_and_save_inv E args Hperm _ _ _ _ _ _ _ Hs1)
    as (s1 & Ht1 & Hd1 & Hr1 & _ & Hh1 & Hc1 & [(_ & Hf1 & Hdir1)|(e & He & _)]);
    [|discriminate].
  pose proof (shuffle_and_save_inv E args Hperm _ _ _ _ _ _ _ H)
    as (s2 & Ht2 & Hd2 & Hr2 & _ & Hh2 & Hc2 & [(_ & Hf2 & Hdir2)|(e & He & _)]);
    [|discriminate].
  exists mt, wd, ic, mtr, s1, s2.
  split; [first [assumption|reflexivity]|]. split; [first [assumption|reflexivity]|].
  split; [first [assumption|reflexivity]|].
  split; [now rewrite Hf2, Hf1|].
  assert (Hshape : forall (m sv : ndarray4 (scalar E)) p,
            take4_axis1 m p = Ok sv -> dim4_1 sv = dim4_1 m -> shape4 sv = shape4 m).
  { intros m sv p0 Ht Hd. unfold take4_axis1 in Ht. destruct (forallb _ _); [|discriminate].
    injection Ht as <-. unfold shape4. cbn [dim4_0 dim4_1 dim4_2 dim4_3] in *.
    now rewrite Hd. }
  split; [exact (Hshape _ _ _ Ht1 Hd1)|]. split; [exact (Hshape _ _ _ Ht2 Hd2)|].
  split.
  { rewrite Hdir2, Hdir1, existsb_eqb_cons. reflexivity. }
  split; [now rewrite Hr2, Hr1|]. split; congruence.
Qed.

Lemma save_prepr_writes_test_then_training_witness :
  exists merged_test white_data img_cond merged_train saved_test saved_train,
    merge_test (Demo.ext []) (Demo.args_of 2 100) Demo.two_sessions
    = Ok (Some merged_test) /\
    concat_train (Demo.ext []) (Demo.args_of 2 100) Demo.two_sessions [[1; 2]; [1; 2]]%Z
    = Ok (Some (white_data, img_cond)) /\
    merge_train (Demo.ext []) white_data img_cond = Ok merged_train /\
    w_files (snd (save_prepr (Demo.ext []) (Demo.args_of 2 100) Demo.two_sessions
                    Demo.two_sessions [[1; 2]; [1; 2]]%Z ["O1"] [0%Z] (Demo.world_at [] 0)))
    = (os_path_join [project_dir (Demo.args_of 2 100); save_dir_of (Demo.args_of 2 100);
                     file_name_train],
       {| preprocessed_eeg_data := saved_train;
          out_ch_names := ["O1"]; out_times := [0%Z] |})
      :: (os_path_join [project_dir (Demo.args_of 2 100); save_dir_of (Demo.args_of 2 100);
                        file_name_test],
          {| preprocessed_eeg_data := saved_test;
             out_ch_names := ["O1"]; out_times := [0%Z] |})
      :: w_files (Demo.world_at [] 0) /\
    shape4 saved_test = shape4 merged_test /\ shape4 saved_train = shape4 merged_train /\
    w_dirs (snd (save_prepr (Demo.ext []) (Demo.args_of 2 100) Demo.two_sessions
                   Demo.two_sessions [[1; 2]; [1; 2]]%Z ["O1"] [0%Z] (Demo.world_at [] 0)))
    = (if existsb (String.eqb (os_path_join [project_dir (Demo.args_of 2 100);
                                             save_dir_of (Demo.args_of 2 100)]))
            (w_dirs (Demo.world_at [] 0))
       then w_dirs (Demo.world_at [] 0)
       else os_path_join [project_dir (Demo.args_of 2 100);
                          save_dir_of (Demo.args_of 2 100)]
            :: w_dirs (Demo.world_at [] 0)) /\
    w_rng (snd (save_prepr (Demo.ext []) (Demo.args_of 2 100) Demo.two_sessions
                  Demo.two_sessions [[1; 2]; [1; 2]]%Z ["O1"] [0%Z] (Demo.world_at [] 0)))
    = snd (random_permutation (Demo.ext [])
             (snd (random_permutation (Demo.ext []) (w_rng (Demo.world_at [] 0))
                     (dim4_1 merged_test)))
             (dim4_1 merged_train)) /\
    w_heap (snd (save_prepr (Demo.ext []) (Demo.args_of 2 100) Demo.two_sessions
                   Demo.two_sessions [[1; 2]; [1; 2]]%Z ["O1"] [0%Z] (Demo.world_at [] 0)))
    = w_heap (Demo.world_at [] 0) /\
    w_calls (snd (save_prepr (Demo.ext []) (Demo.args_of 2 100) Demo.two_sessions
                    Demo.two_sessions [[1; 2]; [1; 2]]%Z ["O1"] [0%Z] (Demo.world_at [] 0)))
    = w_calls (Demo.world_at [] 0).
Proof.
  apply (save_prepr_writes_test_then_training (Demo.ext []) (Demo.args_of 2 100)
           Demo.two_sessions Demo.two_sessions [[1; 2]; [1; 2]]%Z ["O1"] [0%Z]
           (Demo.world_at [] 0)).
  - exact demo_permutation_perm.
  - etransitivity; [apply surjective_pairing|]. f_equal; vm_compute; reflexivity.
Defined.



Lemma foldR_Ok_each {A S} (body : A -> S -> result S) (l : list A) (s s' : S) :
  foldR body l s = Ok s' ->
  forall x, In x l -> exists s1 s2, body x s1 = Ok s2.
Proof.
  revert s. induction l as [|y t IH]; intros s H x Hx; [contradiction|].
  cbn [foldR] in H. apply bindR_Ok_inv in H. destruct H as (s1 & Hb & H).
  destruct Hx as [<-|Hx]; [eauto|]. eapply IH; eauto.
Qed.

(** [gather] returns only when every index is a row of [white_data]. *)
Lemma gather_Ok_indices (E : Externals) (white_data : ndarray4 (scalar E))
    (idx : list nat) od r :
  gather E white_data idx od = Ok r ->
  forall j, In j idx -> j < dim4_0 white_data.
Proof.
  unfold gather. intros H j Hj.
  apply (In_nth _ _ 0) in Hj. destruct Hj as (n & Hn & <-).
  destruct (foldR_Ok_each _ _ _ _ H n) as (s1 & s2 & Hstep);
    [apply in_seq; lia|].
  unfold gather_step in Hstep.
  assert (Hget : exists row, getitem4 white_data (nth n idx 0) = Ok row).
  { destruct (n =? 0).
    - apply bindR_Ok_inv in Hstep. destruct Hstep as (row & Hrow & _). eauto.
    - destruct s1 as [od1|]; [|discriminate].
      apply bindR_Ok_inv in Hstep. destruct Hstep as (row & Hrow & _). eauto. }
  destruct Hget as [row Hrow]. unfold getitem4 in Hrow.
  destruct (nth n idx 0 <? dim4_0 white_data) eqn:Hlt; [|discriminate].
  now apply Nat.ltb_lt.
Qed.

(** X14. The merge of the training data needs every image condition in
    exactly two rows.  Whenever it returns on data with at least two
    repetitions per row, each label of 1..C is carried by exactly two rows
    of the concatenated data, both within the tensor, or, past the first
    label, by none; a label carried by one row or by three makes it
    fail. *)
Theorem merge_train_two_rows_per_label (E : Externals)
    (white_data : ndarray4 (scalar E)) (img_cond : list Z) (merged : ndarray4 (scalar E)) :
  2 <= dim4_1 white_data ->
  merge_train E white_data img_cond = Ok merged ->
  forall i, i < length (np_unique img_cond) ->
    (count_occ Z.eq_dec img_cond (Z.of_nat (i + 1)) = 2 /\
     forall j, In j (np_where_eq img_cond (Z.of_nat (i + 1))) -> j < dim4_0 white_data) \/
    (0 < i /\ count_occ Z.eq_dec img_cond (Z.of_nat (i + 1)) = 0).
Proof.
  intros HR H i Hi. unfold merge_train in H. apply bindR_Ok_inv in H.
  destruct H as ([mt' od'] & Hloop & _).
  destruct (merge_loop_row E white_data img_cond _ i _ None mt' od' Hi
              (merged_inv_full4 E _ _ _ _) Hloop)
    as (mt & od & o & Hpre & Hg & _ & Hb & _).
  cbn [full4 dim4_1 dim4_2 dim4_3] in Hb.
  pose proof (np_where_eq_length img_cond (Z.of_nat (i + 1))) as Hcount.
  pose proof (gather_Ok_indices E _ _ _ _ Hg) as Hidx.
  rewrite (gather_spec E _ _ _ Hidx) in Hg.
  destruct (np_where_eq img_cond (Z.of_nat (i + 1))) as [|j0 rest] eqn:Hw.
  - right. cbn [length] in Hcount. split; [|now symmetry].
    destruct i as [|i]; [|lia]. cbn [seq foldR] in Hpre. inversion Hpre; subst.
    discriminate.
  - left. split; [|exact Hidx].
    inversion Hg; subst o. clear Hg. unfold broadcast3 in Hb.
    cbn [stacked dim3_0] in Hb.
    destruct (bc_ok (length (j0 :: rest) * dim4_1 white_data) (dim4_1 white_data * 2))
      eqn:Hbc; [|discriminate].
    unfold bc_ok in Hbc. apply orb_true_iff in Hbc. repeat rewrite Nat.eqb_eq in Hbc.
    rewrite <- Hcount. cbn [length] in *. nia.
Qed.

Lemma merge_train_two_rows_per_label_witness :
  (count_occ Z.eq_dec [1; 3; 1; 3]%Z (Z.of_nat (0 + 1)) = 2 /\
   forall j, In j (np_where_eq [1; 3; 1; 3]%Z (Z.of_nat (0 + 1))) ->
             j < dim4_0 (Demo.tensor 0 4 2 1 1)) \/
  (0 < 0 /\ count_occ Z.eq_dec [1; 3; 1; 3]%Z (Z.of_nat (0 + 1)) = 0).
Proof.
  refine (merge_train_two_rows_per_label (Demo.ext []) (Demo.tensor 0 4 2 1 1)
            [1; 3; 1; 3]%Z
            (mk4 2 4 1 1 [[[[0]]; [[100]]; [[2000]]; [[2100]]];
                          [[[0]]; [[100]]; [[2000]]; [[2100]]]]%Z)
            _ _ 0 _).
  - cbn. lia.
  - vm_compute. reflexivity.
  - cbn. lia.
Defined.

(** * Further properties: what [mvnn] leaves alone, and the output paths *)

Lemma mvnn_session_world (E : Externals) (args : Args) (epoched_test epoched_train : list loc)
    (s : nat) vars w r w' :
  mvnn_session E args epoched_test epoched_train s vars w = (r, w') ->
  heap_extends E w w' /\ w_rng w' = w_rng w /\ w_dirs w' = w_dirs w /\
  w_files w' = w_files w /\ w_calls w' = w_calls w.
Proof.
  assert (Hrefl : heap_extends E w w) by (exists []; now rewrite app_nil_r).
  unfold mvnn_session. destruct vars as [wt wtr].
  unfold bindM at 1. unfold lift at 1. intros H.
  destruct (py_index epoched_test s) as [l0|]; [|inversion H; subst; auto].
  unfold bindM at 1 in H. unfold lift at 1 in H.
  destruct (py_index epoched_train s) as [l1|]; [|inversion H; subst; auto].
  unfold bindM at 1 in H. unfold deref at 1 in H.
  destruct (nth_error (w_heap w) l0) as [d0|]; [|inversion H; subst; auto].
  unfold bindM at 1 in H. unfold deref at 1 in H.
  destruct (nth_error (w_heap w) l1) as [d1|]; [|inversion H; subst; auto].
  unfold bindM at 1 in H.
  destruct (session_sigma_inv E args [d0; d1] w) as [rs w1] eqn:Hsg.
  apply session_sigma_inv_world in Hsg.
  destruct Hsg as (Hr & Hh & Hd & Hf & Hc & _).
  assert (Hrefl1 : heap_extends E w w1) by (exists []; now rewrite app_nil_r).
  destruct rs as [sigma_inv|]; [|inversion H; subst; auto].
  unfold bindM, lift, alloc, ret in H.
  destruct (whiten E d0 sigma_inv) as [y0|]; [|inversion H; subst; auto].
  cbn [w_heap] in H.
  destruct (whiten E d1 sigma_inv) as [y1|]; inversion H; subst;
    cbn [w_heap w_rng w_dirs w_files w_calls].
  - split; [|auto]. exists [y0; y1]. now rewrite <- app_assoc, Hh.
  - split; [|auto]. exists [y0]. now rewrite Hh.
Qed.

(** X15. Whether it returns or raises, [mvnn] only adds array objects
    to the store: the objects that were there are unchanged, nothing is
    drawn from the random generator, no directory is created, no file is
    written and MNE is not called. *)
Theorem mvnn_only_allocates (E : Externals) (args : Args)
    (epoched_test epoched_train : list loc) (w : world E) r w' :
  mvnn E args epoched_test epoched_train w = (r, w') ->
  (exists fresh, w_heap w' = w_heap w ++ fresh) /\
  w_rng w' = w_rng w /\ w_dirs w' = w_dirs w /\ w_files w' = w_files w /\
  w_calls w' = w_calls w.
Proof.
  unfold mvnn.
  apply (foldM_world
           (fun v v' : world E =>
              heap_extends E v v' /\ w_rng v' = w_rng v /\ w_dirs v' = w_dirs v /\
              w_files v' = w_files v /\ w_calls v' = w_calls v)).
  - intros v. split; [exists []; now rewrite app_nil_r|auto].
  - intros w1 w2 w3 ([f1 H1] & Hr1 & Hd1 & Hf1 & Hc1) ([f2 H2] & Hr2 & Hd2 & Hf2 & Hc2).
    split; [exists (f1 ++ f2); now rewrite H2, H1, app_assoc|].
    repeat split; congruence.
  - intros s vars v r0 v' _. apply mvnn_session_world.
Qed.

Lemma mvnn_only_allocates_witness :
  (exists fresh,
      w_heap (snd (mvnn (Demo.ext []) (Demo.args_of 1 100) [0] [1] Demo.store))
      = w_heap Demo.store ++ fresh) /\
  w_rng (snd (mvnn (Demo.ext []) (Demo.args_of 1 100) [0] [1] Demo.store))
  = w_rng Demo.store /\
  w_dirs (snd (mvnn (Demo.ext []) (Demo.args_of 1 100) [0] [1] Demo.store))
  = w_dirs Demo.store /\
  w_files (snd (mvnn (Demo.ext []) (Demo.args_of 1 100) [0] [1] Demo.store))
  = w_files Demo.store /\
  w_calls (snd (mvnn (Demo.ext []) (Demo.args_of 1 100) [0] [1] Demo.store))
  = w_calls Demo.store.
Proof.
  apply (mvnn_only_allocates (Demo.ext []) (Demo.args_of 1 100) [0] [1] Demo.store
           (fst (mvnn (Demo.ext []) (Demo.args_of 1 100) [0] [1] Demo.store))).
  apply surjective_pairing.
Defined.

Lemma string_app_inv_head (a x y : string) : (a ++ x)%string = (a ++ y)%string -> x = y.
Proof.
  induction a as [|c a IH]; cbn; intros H; [exact H|]. inversion H. now apply IH.
Qed.

(** Joining a directory and a name that does not start with a slash puts
    a separator that depends on the directory alone in front of the
    name. *)
Lemma path_join2_relative (a : string) :
  exists sep, forall b,
    is_slash (match b with String c _ => Some c | EmptyString => None end) = false ->
    path_join2 a b = (a ++ sep ++ b)%string.
Proof.
  destruct ((String.eqb a "") || is_slash (last_char a)) eqn:H.
  - exists ""%string. intros b Hb. unfold path_join2. now rewrite Hb, H.
  - exists "/"%string. intros b Hb. unfold path_join2. now rewrite Hb, H.
Qed.

(** X16. The test file and the training file are two different paths
    in the one directory [save_prepr] creates, whatever the project
    directory and the subject: saving the training data never overwrites
    the test data. *)
Theorem output_paths_distinct (args : Args) :
  os_path_join [project_dir args; save_dir_of args; file_name_test]
  = path_join2 (os_path_join [project_dir args; save_dir_of args]) file_name_test /\
  os_path_join [project_dir args; save_dir_of args; file_name_train]
  = path_join2 (os_path_join [project_dir args; save_dir_of args]) file_name_train /\
  os_path_join [project_dir args; save_dir_of args; file_name_test]
  <> os_path_join [project_dir args; save_dir_of args; file_name_train].
Proof.
  split; [reflexivity|]. split; [reflexivity|].
  cbn [os_path_join fold_left].
  destruct (path_join2_relative (path_join2 (project_dir args) (save_dir_of args)))
    as [sep Hsep].
  rewrite (Hsep file_name_test eq_refl), (Hsep file_name_train eq_refl).
  intros H. apply string_app_inv_head, string_app_inv_head in H. discriminate.
Qed.

(** A loop over [range(n)] that raises: the passes before the failing
    one returned. *)
Lemma foldR_Raise_prefix {St} (body : nat -> St -> result St) (n : nat) (s0 : St) (e : exn) :
  foldR body (seq 0 n) s0 = Raise e ->
  exists k s, k < n /\ foldR body (seq 0 k) s0 = Ok s /\ body k s = Raise e.
Proof.
  induction n as [|n IH]; intros H; [discriminate|].
  rewrite seq_S, foldR_app in H. apply bindR_Raise_inv in H.
  destruct H as [H|(s & Hpre & H)].
  - destruct (IH H) as (k & s & Hk & Hpre & Hb). exists k, s. split; [lia|auto].
  - exists n, s. split; [lia|]. split; [exact Hpre|].
    cbn [Nat.add foldR] in H. destruct (body n s); [discriminate|exact H].
Qed.

Lemma foldR_prefix_total {St} (I : nat -> St -> Prop) (body : nat -> St -> result St)
    (n : nat) (s0 : St) :
  I 0 s0 ->
  (forall k s, k < n -> I k s -> exists s', body k s = Ok s' /\ I (S k) s') ->
  exists s', foldR body (seq 0 n) s0 = Ok s' /\ I n s'.
Proof.
  intros H0. induction n as [|n IH]; intros Hstep.
  - exists s0. split; [reflexivity|exact H0].
  - destruct IH as (s1 & H1 & HI); [intros k s Hk; apply Hstep; lia|].
    destruct (Hstep n s1 (Nat.lt_succ_diag_r n) HI) as (s2 & H2 & HI2).
    exists s2. split; [|exact HI2].
    rewrite seq_S, foldR_app, H1. cbn [bindR Nat.add foldR]. now rewrite H2.
Qed.

(** X17. The merge of the test data returns when there is at least one
    session, a tensor for every session, and all of them have the
    conditions, channels and time points of the first; with no session it
    leaves [merged_test] unbound.  It raises [IndexError] only when a
    session has no tensor and [ValueError] only when a session's tensor
    differs from the first one in conditions, channels or time points. *)
Theorem merge_test_returns_or_raises (E : Externals) (args : Args)
    (whitened_test : list (ndarray4 (scalar E))) :
  let n := Z.to_nat (n_ses args) in
  (merge_test E args whitened_test = Ok None <-> n = 0) /\
  (0 < n -> n <= length whitened_test ->
   (forall s t0 t, s < n -> nth_error whitened_test 0 = Some t0 ->
                   nth_error whitened_test s = Some t ->
                   dim4_0 t = dim4_0 t0 /\ dim4_2 t = dim4_2 t0 /\ dim4_3 t = dim4_3 t0) ->
   exists merged, merge_test E args whitened_test = Ok (Some merged)) /\
  (forall e, merge_test E args whitened_test = Raise e ->
     (e = IndexError /\ length whitened_test < n) \/
     (e = ValueError /\
      exists s t0 t, 0 < s < n /\ nth_error whitened_test 0 = Some t0 /\
                     nth_error whitened_test s = Some t /\
                     ~ (dim4_0 t = dim4_0 t0 /\ dim4_2 t = dim4_2 t0 /\
                        dim4_3 t = dim4_3 t0))).
Proof.
  cbv zeta. unfold merge_test, py_range. set (n := Z.to_nat (n_ses args)).
  split; [|split].
  - split.
    + intros H. now apply merge_test_prefix in H.
    + intros ->. reflexivity.
  - intros Hn Hlen Hsame.
    destruct (nth_error whitened_test 0) as [t0|] eqn:H0.
    2:{ apply nth_error_None in H0. lia. }
    destruct (foldR_prefix_total
                (fun k (r : option (ndarray4 (scalar E))) =>
                   match r with
                   | None => k = 0
                   | Some m => 0 < k /\ dim4_0 m = dim4_0 t0 /\ dim4_2 m = dim4_2 t0 /\
                               dim4_3 m = dim4_3 t0
                   end)
                (merge_test_step E whitened_test) n None) as (r & Hr & HI).
    + reflexivity.
    + intros k r Hk HI. unfold merge_test_step.
      destruct (nth_error whitened_test k) as [t|] eqn:Ht.
      2:{ apply nth_error_None in Ht. lia. }
      rewrite (proj2 (py_index_Ok _ _ _) Ht). cbn [bindR].
      destruct (k =? 0) eqn:Hk0.
      * apply Nat.eqb_eq in Hk0. subst k. rewrite H0 in Ht. inversion Ht; subst t.
        eexists. split; [reflexivity|]. repeat split; lia.
      * apply Nat.eqb_neq in Hk0. destruct r as [m|]; [|lia].
        destruct HI as (_ & Hd0 & Hd2 & Hd3).
        destruct (Hsame k t0 t Hk eq_refl Ht) as (Ht0 & Ht2 & Ht3).
        unfold np_append4_axis1. rewrite Hd0, Hd2, Hd3, Ht0, Ht2, Ht3, !Nat.eqb_refl.
        cbn [andb bindR]. eexists. split; [reflexivity|].
        cbn [dim4_0 dim4_2 dim4_3]. repeat split; lia.
    + destruct r as [m|]; [eauto|lia].
  - intros e H. apply foldR_Raise_prefix in H.
    destruct H as (k & r & Hk & Hpre & Hstep).
    apply merge_test_prefix in Hpre. unfold merge_test_step in Hstep.
    assert (Hidx : forall A (f : ndarray4 (scalar E) -> result A),
              (let! x := py_index whitened_test k in f x) = Raise e ->
              (e = IndexError /\ length whitened_test < n) \/
              exists t, nth_error whitened_test k = Some t /\ f t = Raise e).
    { intros A f Hf. unfold py_index in Hf.
      destruct (nth_error whitened_test k) as [t|] eqn:Ht; cbn [bindR] in Hf.
      - right. eauto.
      - left. inversion Hf. split; [reflexivity|]. apply nth_error_None in Ht. lia. }
    destruct (k =? 0) eqn:Hk0.
    + apply Hidx in Hstep. destruct Hstep as [Hstep|(t & _ & Hstep)]; [now left|discriminate].
    + apply Nat.eqb_neq in Hk0. destruct r as [m|]; [|lia].
      destruct Hpre as (_ & Hlen & _ & Hsame & _).
      apply Hidx in Hstep. destruct Hstep as [Hstep|(t & Ht & Hstep)]; [now left|].
      right. unfold np_append4_axis1 in Hstep.
      destruct (_ && _ && _) eqn:Hshape; [discriminate|].
      cbn [bindR] in Hstep. inversion Hstep; subst e. split; [reflexivity|].
      destruct (nth_error whitened_test 0) as [t0|] eqn:H0.
      2:{ apply nth_error_None in H0.
          assert (length (firstn k whitened_test) <= length whitened_test)
            by (rewrite length_firstn; lia). lia. }
      exists k, t0, t. split; [lia|]. split; [reflexivity|]. split; [exact Ht|].
      intros (Hd0 & Hd2 & Hd3).
      destruct (Hsame t0) as (Hm0 & Hm2 & Hm3).
      { destruct whitened_test as [|x rest]; [discriminate|]. inversion H0; subst x.
        destruct k; [lia|]. now left. }
      rewrite <- Hm0, <- Hm2, <- Hm3, Hd0, Hd2, Hd3, !Nat.eqb_refl in Hshape.
      discriminate.
Qed.
